(** * Ensemble calibration (EMOS / NGR): a shallow embedding of
      [improver/ensemble_calibration/ensemble_calibration.py]

    The development follows the module top to bottom: the numeric model
    of numpy values, the helper containers (Python dicts, cubes), the
    CRPS minimisers, the coefficient estimator, the coefficient applier
    and the controlling plugin.  Theorems come after the definitions. *)

From Stdlib Require Import Reals Lra Lia List String Ascii ZArith Bool.
From Stdlib Require Import DecimalString DecimalPos DecimalZ.
Import ListNotations.

Set Implicit Arguments.

(* ===================================================================== *)
(** * Python exceptions and warnings *)
(* ===================================================================== *)

(** The exception classes the module can raise, each with its message. *)
Inductive exn : Type :=
| ValueError (msg : string)
| KeyError (msg : string)
| IndexError (msg : string)
| TypeError (msg : string)
| UnboundLocalError (msg : string)
| CoordinateNotFoundError (msg : string).

Definition exn_message (e : exn) : string :=
  match e with
  | ValueError m | KeyError m | IndexError m | TypeError m
  | UnboundLocalError m | CoordinateNotFoundError m => m
  end.

Inductive result (A : Type) : Type :=
| Ok (a : A)
| Err (e : exn).
Arguments Ok {A} a.
Arguments Err {A} e.

Definition rbind {A B} (r : result A) (k : A -> result B) : result B :=
  match r with
  | Ok a => k a
  | Err e => Err e
  end.

Declare Scope py_scope.
Delimit Scope py_scope with py.
Notation "'let?' x ':=' r 'in' k" := (rbind r (fun x => k))
  (at level 10, x pattern, r at level 100, k at level 200) : py_scope.
Open Scope py_scope.

Fixpoint mapM {A B} (f : A -> result B) (l : list A) : result (list B) :=
  match l with
  | [] => Ok []
  | a :: l' =>
      let? b := f a in
      let? bs := mapM f l' in
      Ok (b :: bs)
  end.

Inductive warning_category : Type := UserWarning | ImportWarning.

Record Warning : Type := mkWarning {
  category : warning_category;
  warning_message : string
}.

(* ===================================================================== *)
(** * Strings *)
(* ===================================================================== *)

Open Scope string_scope.

(** [str.lower()] on the ASCII range. *)
Definition lower_ascii (c : ascii) : ascii :=
  let n := nat_of_ascii c in
  if (65 <=? n)%nat && (n <=? 90)%nat then ascii_of_nat (n + 32) else c.

Fixpoint lower (s : string) : string :=
  match s with
  | EmptyString => EmptyString
  | String c s' => String (lower_ascii c) (lower s')
  end.

(** [s.replace("_", " ")]. *)
Fixpoint replace_underscores (s : string) : string :=
  match s with
  | EmptyString => EmptyString
  | String c s' =>
      String (if Ascii.eqb c "_" then " "%char else c) (replace_underscores s')
  end.

(** [key.startswith(p)]. *)
Definition startswith (p key : string) : bool := String.prefix p key.

(** [x in [a, b, ...]] for strings. *)
Definition str_in (x : string) (l : list string) : bool :=
  existsb (String.eqb x) l.

(** ["{}".format(z)] for an integer [z]. *)
Definition str_of_Z (z : Z) : string := NilZero.string_of_int (Z.to_int z).

(** [np.int32(z)] for an integer point of a coordinate: the low 32 bits
    of [z] read as a signed number, as the conversion of a wider numpy
    integer does. *)
Definition np_int32 (z : Z) : Z := ((z + 2 ^ 31) mod 2 ^ 32 - 2 ^ 31)%Z.

(** The line break of the messages. *)
Definition newline : string := String "010"%char EmptyString.

Definition str_of_nat (n : nat) : string := str_of_Z (Z.of_nat n).

(** [needle in haystack]: the message mentions the value. *)
Definition mentions (haystack needle : string) : Prop :=
  exists pre post, haystack = pre ++ needle ++ post.

(** The same test as a function. *)
Fixpoint contains (needle haystack : string) : bool :=
  String.prefix needle haystack
  || match haystack with
     | EmptyString => false
     | String _ rest => contains needle rest
     end.

(* ===================================================================== *)
(** * numpy scalars

    A numpy float is modelled as a real number or one of the three IEEE
    special values.  Sums, products and quotients of finite values are
    exact (rounding and the sign of zero are left out, and so is the
    overflow of a sum or a product); a square [x ** 2] overflows to
    plus infinity when it is too large for a float64, the type of the
    coefficients.  The special values follow the IEEE rules numpy
    applies: division of a non-zero finite value by zero gives an
    infinity, [0/0], [inf - inf], [0 * inf] and [inf / inf] give NaN,
    and NaN is absorbing. *)
(* ===================================================================== *)

Open Scope R_scope.

Inductive float : Type :=
| Fin (r : R)
| PInf
| NInf
| NaN.

Definition Rltb (x y : R) : bool := if Rlt_dec x y then true else false.
Definition Reqb (x y : R) : bool := if Req_dec_T x y then true else false.

(** [np.isnan], [np.isfinite]. *)
Definition isnan (x : float) : bool :=
  match x with NaN => true | _ => false end.

Definition isfinite (x : float) : bool :=
  match x with Fin _ => true | _ => false end.

(** [~np.isnan(x)]. *)
Definition not_nan (x : float) : bool := negb (isnan x).

Definition fneg (x : float) : float :=
  match x with
  | Fin r => Fin (- r)
  | PInf => NInf
  | NInf => PInf
  | NaN => NaN
  end.

Definition fadd (x y : float) : float :=
  match x, y with
  | NaN, _ | _, NaN => NaN
  | Fin a, Fin b => Fin (a + b)
  | PInf, NInf | NInf, PInf => NaN
  | PInf, _ | _, PInf => PInf
  | NInf, _ | _, NInf => NInf
  end.

Definition fsub (x y : float) : float := fadd x (fneg y).

(** An infinity scaled by a finite factor. *)
Definition scale_inf (positive : bool) (a : R) : float :=
  if Reqb a 0 then NaN
  else if Rltb 0 a then (if positive then PInf else NInf)
  else (if positive then NInf else PInf).

Definition fmul (x y : float) : float :=
  match x, y with
  | NaN, _ | _, NaN => NaN
  | Fin a, Fin b => Fin (a * b)
  | Fin a, PInf | PInf, Fin a => scale_inf true a
  | Fin a, NInf | NInf, Fin a => scale_inf false a
  | PInf, PInf | NInf, NInf => PInf
  | PInf, NInf | NInf, PInf => NInf
  end.

Definition fdiv (x y : float) : float :=
  match x, y with
  | NaN, _ | _, NaN => NaN
  | Fin a, Fin b => if Reqb b 0 then scale_inf true a else Fin (a / b)
  | Fin _, (PInf | NInf) => Fin 0
  | PInf, Fin b => if Rltb b 0 then NInf else PInf
  | NInf, Fin b => if Rltb b 0 then PInf else NInf
  | (PInf | NInf), (PInf | NInf) => NaN
  end.

(** The size from which a float64 result is rounded to an infinity:
    [2^1024 - 2^970], half a unit in the last place above the largest
    finite float64. *)
Definition overflow_threshold_Z : Z := Eval cbv in (2 ^ 1024 - 2 ^ 970)%Z.

Definition overflow_threshold : R := IZR overflow_threshold_Z.

(** The same size for a float32, the type the module casts its arrays
    to: [2^128 - 2^103].  A result below it overflows in neither
    type. *)
Definition single_overflow_threshold_Z : Z :=
  Eval cbv in (2 ^ 128 - 2 ^ 103)%Z.

Definition single_overflow_threshold : R := IZR single_overflow_threshold_Z.

(** [x ** 2]: the square of a finite value, or plus infinity when the
    square overflows. *)
Definition fsquare (x : float) : float :=
  match x with
  | Fin r => if Rltb (r * r) overflow_threshold then Fin (r * r) else PInf
  | PInf | NInf => PInf
  | NaN => NaN
  end.

(** [np.sqrt]. *)
Definition fsqrt (x : float) : float :=
  match x with
  | Fin r => if Rltb r 0 then NaN else Fin (sqrt r)
  | PInf => PInf
  | NInf | NaN => NaN
  end.

(** [np.absolute]. *)
Definition fabs (x : float) : float :=
  match x with
  | Fin r => Fin (Rabs r)
  | PInf | NInf => PInf
  | NaN => NaN
  end.

(** [x < y]: every comparison with NaN is false. *)
Definition flt (x y : float) : bool :=
  match x, y with
  | NaN, _ | _, NaN => false
  | Fin a, Fin b => Rltb a b
  | NInf, (Fin _ | PInf) => true
  | Fin _, PInf => true
  | _, _ => false
  end.

Definition fgt (x y : float) : bool := flt y x.

Definition fzero : float := Fin 0.
Definition fone : float := Fin 1.

Declare Scope float_scope.
Delimit Scope float_scope with fl.
Infix "+" := fadd : float_scope.
Infix "-" := fsub : float_scope.
Infix "*" := fmul : float_scope.
Infix "/" := fdiv : float_scope.

(* ===================================================================== *)
(** * numpy arrays *)
(* ===================================================================== *)

(** The minimum of two values as [np.min] folds them: NaN propagates. *)
Definition fmin2 (x y : float) : float :=
  match x, y with
  | NaN, _ | _, NaN => NaN
  | _, _ => if flt y x then y else x
  end.

(** [np.min(a)] on a flat array; a zero-size array raises. *)
Definition np_min (a : list float) : result float :=
  match a with
  | [] => Err (ValueError
      "zero-size array to reduction operation minimum which has no identity")
  | x :: rest => Ok (fold_left fmin2 rest x)
  end.

(** [np.sum(a)]. *)
Definition np_sum (a : list float) : float := fold_left fadd a fzero.

(** [np.nansum(a)]: NaN entries count as zero. *)
Definition np_nansum (a : list float) : float :=
  np_sum (map (fun x => if isnan x then fzero else x) a).

(** [np.any], [np.all] on boolean arrays. *)
Definition np_any (a : list bool) : bool := existsb (fun b => b) a.
Definition np_all (a : list bool) : bool := forallb (fun b => b) a.

(** [np.ones(n)] and [np.repeat(1, n)]. *)
Definition np_ones (n : nat) : list float := repeat fone n.

(** Element-wise binary operation on arrays of one shape; arrays of
    different lengths cannot be broadcast together. *)
Fixpoint zip_with (f : float -> float -> float) (a b : list float)
  : result (list float) :=
  match a, b with
  | [], [] => Ok []
  | x :: a', y :: b' =>
      let? r := zip_with f a' b' in Ok (f x y :: r)
  | _, _ => Err (ValueError "operands could not be broadcast together")
  end.

(** [np.column_stack((col, m))] with [col] one-dimensional and [m] given
    by rows: [col] becomes the first column. *)
Fixpoint column_stack (col : list float) (m : list (list float))
  : result (list (list float)) :=
  match col, m with
  | [], [] => Ok []
  | c :: col', row :: m' =>
      let? r := column_stack col' m' in Ok ((c :: row) :: r)
  | _, _ => Err (ValueError
      "all the input array dimensions except for the concatenation axis must match exactly")
  end.

(** The inner product of one row with a vector. *)
Definition dot_row (row v : list float) : result float :=
  let? prods := zip_with fmul row v in
  Ok (np_sum prods).

(** [np.dot(m, v)] for a two-dimensional [m] and a vector [v]. *)
Definition np_dot (m : list (list float)) (v : list float)
  : result (list float) :=
  match mapM (fun row => dot_row row v) m with
  | Ok r => Ok r
  | Err _ => Err (ValueError "shapes not aligned")
  end.

(** A one-dimensional array seen as a single column. *)
Definition as_column (a : list float) : list (list float) :=
  map (fun x => [x]) a.

(** [np.all(np.row_stack([a, b]), axis=0)]. *)
Fixpoint all_rows2 (a b : list bool) : result (list bool) :=
  match a, b with
  | [], [] => Ok []
  | x :: a', y :: b' =>
      let? r := all_rows2 a' b' in Ok ((x && y) :: r)
  | _, _ => Err (ValueError
      "all the input array dimensions except for the concatenation axis must match exactly")
  end.

(** [np.all(np.row_stack([first] + rest), axis=0)]. *)
Fixpoint all_axis0 (first : list bool) (rest : list (list bool))
  : result (list bool) :=
  match rest with
  | [] => Ok first
  | r :: rest' => let? acc := all_rows2 first r in all_axis0 acc rest'
  end.

(** Boolean-mask indexing [a[mask]]. *)
Fixpoint mask_select (a : list float) (mask : list bool)
  : result (list float) :=
  match a, mask with
  | [], [] => Ok []
  | x :: a', b :: mask' =>
      let? r := mask_select a' mask' in
      Ok (if b then x :: r else r)
  | _, _ => Err (IndexError "boolean index did not match indexed array")
  end.

(** [np.reshape(a, shape)] and the n-dimensional array: a row-major
    buffer together with its shape. *)
Record ndarray : Type := mkArray {
  shape : list nat;
  items : list float
}.

Definition shape_size (s : list nat) : nat := fold_right Nat.mul 1%nat s.

Definition np_reshape (a : list float) (ylen xlen : nat) : result ndarray :=
  if Nat.eqb (List.length a) (ylen * xlen)%nat
  then Ok (mkArray [ylen; xlen] a)
  else Err (ValueError "cannot reshape array").

(** [a.flatten()]. *)
Definition flatten (a : ndarray) : list float := items a.

(** Scalar-with-array arithmetic [s1 + s2 * a]. *)
Definition affine_array (s1 s2 : float) (a : ndarray) : ndarray :=
  mkArray (shape a) (map (fun v => fadd s1 (fmul s2 v)) (items a)).

Definition shape_eqb (s t : list nat) : bool :=
  if list_eq_dec Nat.eq_dec s t then true else false.

(* ===================================================================== *)
(** * Python dictionaries

    A [dict] keeps its keys in insertion order; assigning to a key that
    is present replaces the value where it stands. *)
(* ===================================================================== *)

Section Dict.
Variables (K V : Type) (eqb : K -> K -> bool).

Definition dict := list (K * V).

Fixpoint dict_get (d : dict) (k : K) : option V :=
  match d with
  | [] => None
  | (k', v) :: d' => if eqb k k' then Some v else dict_get d' k
  end.

Fixpoint dict_set (d : dict) (k : K) (v : V) : dict :=
  match d with
  | [] => [(k, v)]
  | (k', v') :: d' =>
      if eqb k k' then (k', v) :: d' else (k', v') :: dict_set d' k v
  end.

Definition dict_keys (d : dict) : list K := map fst d.

(** [dict(pairs)]. *)
Definition dict_of (pairs : list (K * V)) : dict :=
  fold_left (fun d kv => dict_set d (fst kv) (snd kv)) pairs [].
End Dict.

(* ===================================================================== *)
(** * Units of measurement (the [cf_units] collaborator)

    A unit is described by its physical dimension and the linear map
    taking a value in the unit to the reference unit of the dimension:
    [reference = unit_scale * value + unit_offset]. *)
(* ===================================================================== *)

Record Unit : Type := mkUnit {
  unit_name : string;
  dimension : string;
  unit_scale : R;
  unit_offset : R
}.

Definition unit_eqb (u w : Unit) : bool :=
  String.eqb (unit_name u) (unit_name w)
  && String.eqb (dimension u) (dimension w)
  && Reqb (unit_scale u) (unit_scale w)
  && Reqb (unit_offset u) (unit_offset w).

Definition is_convertible (u w : Unit) : bool :=
  String.eqb (dimension u) (dimension w).

(** [u.convert(v, w)] on one value. *)
Definition unit_convert (u w : Unit) (v : float) : float :=
  fdiv (fsub (fadd (fmul (Fin (unit_scale u)) v) (Fin (unit_offset u)))
             (Fin (unit_offset w)))
       (Fin (unit_scale w)).

(* ===================================================================== *)
(** * Cubes (the [iris] collaborator)

    A cube carries a data array and its metadata.  The fields kept are
    the ones this module reads: the unit, the points of the time
    coordinate, the points of the realization coordinate and the lengths
    of the x and y coordinates.  The realization axis, when the cube has
    one, is the leading axis of the data. *)
(* ===================================================================== *)

(** A validity date; [num2date] and [iris_time_to_datetime] are
    injective, so a date is represented by its time point. *)
Definition datetime := Z.

Record Cube : Type := mkCube {
  units : Unit;
  time_points : list Z;
  realization_points : list Z;
  ylen : nat;
  xlen : nat;
  data : ndarray
}.

Definition with_data (c : Cube) (a : ndarray) : Cube :=
  mkCube (units c) (time_points c) (realization_points c)
         (ylen c) (xlen c) a.

(** [cube.data = a]: the new array must have the shape of the cube. *)
Definition set_data (c : Cube) (a : ndarray) : result Cube :=
  if shape_eqb (shape (data c)) (shape a) then Ok (with_data c a)
  else Err (ValueError "Require data with the shape of the cube").

(** [cube.convert_units(unit)], which works in place: the cube returned
    is the new state of the object. *)
Definition convert_units (c : Cube) (u : Unit) : result Cube :=
  if unit_eqb (units c) u then Ok c
  else if is_convertible (units c) u then
    Ok (mkCube u (time_points c) (realization_points c) (ylen c) (xlen c)
          (mkArray (shape (data c))
                   (map (unit_convert (units c) u) (items (data c)))))
  else Err (ValueError "Unable to convert between the units").

(** [unit.num2date(points, ...)[0]] and [iris_time_to_datetime(coord)[0]]. *)
Definition first_date (c : Cube) : result datetime :=
  match time_points c with
  | [] => Err (IndexError "index 0 is out of bounds for axis 0 with size 0")
  | t :: _ => Ok t
  end.

(** [cube.coord("realization").points]: a cube without points along
    the realization has no such coordinate. *)
Definition realization_coord_points (c : Cube) : result (list Z) :=
  match realization_points c with
  | [] => Err (CoordinateNotFoundError
      "Expected to find exactly 1 'realization' coordinate, but found none.")
  | points => Ok points
  end.

(** The slice of every realization, flattened: [R] rows of [n] points. *)
Fixpoint slices (count width : nat) (a : list float) : list (list float) :=
  match count with
  | O => []
  | S count' => firstn width a :: slices count' width (skipn width a)
  end.

Definition realization_slices (c : Cube) : result (list (list float)) :=
  match shape (data c) with
  | r :: rest => Ok (slices r (shape_size rest) (items (data c)))
  | [] => Err (ValueError "Expected to find exactly 1 realization coordinate")
  end.

(** Modelled from the spec: [convert_cube_data_to_2d] of
    [ensemble_calibration_utilities], which is not part of the sources
    at hand.  It lays the ensemble out with one row per grid point and
    one column per realization ([transpose=True], the default), or one
    row per realization ([transpose=False]). *)
Definition by_point (rows : list (list float)) (n : nat)
  : list (list float) :=
  map (fun i => map (fun s => nth i s NaN) rows) (seq 0 n).

Definition convert_cube_data_to_2d (c : Cube) (transpose : bool)
  : result (list (list float)) :=
  let? rows := realization_slices c in
  if transpose
  then Ok (by_point rows (shape_size (tl (shape (data c)))))
  else Ok rows.

(** [np.mean] of one row. *)
Definition np_mean (row : list float) : float :=
  fdiv (np_sum row) (Fin (INR (List.length row))).

(** The variance of one row with one delta degree of freedom, the
    default of [iris.analysis.VARIANCE]. *)
Definition np_var1 (row : list float) : float :=
  let m := np_mean row in
  fdiv (np_sum (map (fun x => fsquare (fsub x m)) row))
       (Fin (INR (List.length row) - 1)).

(** [cube.collapsed("realization", aggregator)]: a new cube without the
    realization axis. *)
Definition collapsed (agg : list float -> float) (c : Cube) : result Cube :=
  let? rows := realization_slices c in
  let rest := tl (shape (data c)) in
  Ok (with_data c
        (mkArray rest (map agg (by_point rows (shape_size rest))))).

Definition MEAN := np_mean.
Definition VARIANCE := np_var1.

(** Modelled from the spec: [enforce_coordinate_ordering] of
    [utilities.cube_manipulation], which is not part of the sources at
    hand.  It moves the named axis to the front; the realization axis
    leads in this model, so the cube comes back as it is. *)
Definition enforce_coordinate_ordering (c : Cube) : Cube := c.

(** Modelled from the spec: [check_predictor_of_mean_flag] of
    [ensemble_calibration_utilities], which is not part of the sources
    at hand.  An invalid predictor mode is a fatal error whose message
    names the value. *)
Definition check_predictor_of_mean_flag (flag : string) : result unit :=
  if str_in (lower flag) ["mean"; "realizations"] then Ok tt
  else Err (ValueError
    ("The requested value for the predictor_of_mean_flag " ++ lower flag
     ++ "is not an accepted value."
     ++ "Accepted values are 'mean' or 'realizations'")).

(* ===================================================================== *)
(** * The store: objects mutated in place, warnings, calls

    [estimate_coefficients_for_ngr] converts the cubes it is handed in
    place, warnings go to the process-wide [warnings] module, and the
    log of calls to [crps_minimiser_wrapper] records whether the
    minimiser was run.  A computation takes the store and returns its
    outcome with the store it leaves behind, also when it raises.

    The warnings of the store are the ones the module raises itself
    with [warnings.warn].  What numpy does on its own account, the
    RuntimeWarning of a division by zero or of an invalid operation
    and the print options [np.set_printoptions] changes, is not part
    of the store. *)
(* ===================================================================== *)

Record Store : Type := mkStore {
  historic_forecast : Cube;
  truth : Cube;
  warnings : list Warning;
  minimiser_calls : list (list float)
}.

Definition M (A : Type) : Type := Store -> result A * Store.

Definition ret {A} (a : A) : M A := fun s => (Ok a, s).

Definition raise {A} (e : exn) : M A := fun s => (Err e, s).

Definition bind {A B} (c : M A) (k : A -> M B) : M B :=
  fun s =>
    match c s with
    | (Ok a, s') => k a s'
    | (Err e, s') => (Err e, s')
    end.

Definition lift {A} (r : result A) : M A := fun s => (r, s).

Notation "x <- c ;; k" := (bind c (fun x => k))
  (at level 61, c at next level, right associativity) : py_scope.

Definition warn (w : Warning) : M unit :=
  fun s => (Ok tt, mkStore (historic_forecast s) (truth s)
                           (warnings s ++ [w]) (minimiser_calls s)).

Definition log_minimiser_call (initial_guess : list float) : M unit :=
  fun s => (Ok tt, mkStore (historic_forecast s) (truth s) (warnings s)
                           (minimiser_calls s ++ [initial_guess])).

Definition get_historic_forecast : M Cube :=
  fun s => (Ok (historic_forecast s), s).

Definition get_truth : M Cube := fun s => (Ok (truth s), s).

(** [historic_forecast.convert_units(u)] and [truth.convert_units(u)]. *)
Definition convert_historic_forecast (u : Unit) : M unit :=
  fun s =>
    match convert_units (historic_forecast s) u with
    | Ok c => (Ok tt, mkStore c (truth s) (warnings s) (minimiser_calls s))
    | Err e => (Err e, s)
    end.

Definition convert_truth (u : Unit) : M unit :=
  fun s =>
    match convert_units (truth s) u with
    | Ok c => (Ok tt, mkStore (historic_forecast s) c (warnings s)
                              (minimiser_calls s))
    | Err e => (Err e, s)
    end.

(* ===================================================================== *)
(** * The module *)
(* ===================================================================== *)

(** What [scipy.optimize.minimize] returns with [return_all]. *)
Record OptimizeResult : Type := mkOptimizeResult {
  opt_x : list float;
  opt_success : bool;
  opt_message : string;
  opt_allvecs : list (list float)
}.

(** The predictor data handed to an objective function: the flattened
    ensemble mean, or one row per grid point with the realizations. *)
Inductive predictor_data : Type :=
| Predictor1D (a : list float)
| Predictor2D (rows : list (list float)).

Definition predictor_columns (p : predictor_data) : list (list float) :=
  match p with
  | Predictor1D a => as_column a
  | Predictor2D rows => rows
  end.

Section EnsembleCalibration.

(** The numerical libraries the module calls into. *)

(** The standard normal distribution function, [scipy.stats.norm.cdf]
    on the reals. *)
Variable Phi : R -> R.

(** [scipy.optimize.minimize(f, x0, method="Nelder-Mead", options=...)]. *)
Variable minimize :
  (list float -> result float) -> list float -> nat -> result OptimizeResult.

(** [statsmodels.api.OLS(y, X).fit().params] with a constant column
    added to the regressors. *)
Variable sm_OLS_fit_params :
  list float -> list (list float) -> result (list float).

(** How numpy prints an array, for messages. *)
Variable repr_floats : list float -> string.

Definition norm_cdf (x : float) : float :=
  match x with
  | Fin r => Fin (Phi r)
  | PInf => Fin 1
  | NInf => Fin 0
  | NaN => NaN
  end.

Definition norm_pdf (x : float) : float :=
  match x with
  | Fin r => Fin (exp (- (r * r) / 2) / sqrt (2 * PI))
  | PInf | NInf => Fin 0
  | NaN => NaN
  end.

(* --------------------------------------------------------------------- *)
(** ** ContinuousRankedProbabilityScoreMinimisers *)
(* --------------------------------------------------------------------- *)

Definition MAX_ITERATIONS : nat := 200.
Definition TOLERATED_PERCENTAGE_CHANGE : float := Fin 5.
Definition BAD_VALUE : float := Fin 999999.

(** [x[i]] on a list. *)
Definition index (x : list float) (i : nat) : result float :=
  match nth_error x i with
  | Some v => Ok v
  | None => Err (IndexError "index out of bounds")
  end.

(** The weights of the linear predictor, shared by the two objective
    functions. *)
Definition objective_beta (initial_guess : list float)
  (predictor_of_mean_flag : string) : result (list float) :=
  if str_in (lower predictor_of_mean_flag) ["mean"] then
    Ok (skipn 2 initial_guess)
  else if str_in (lower predictor_of_mean_flag) ["realizations"] then
    let? a := index initial_guess 2 in
    Ok (a :: map fsquare (skipn 3 initial_guess))
  else Err (UnboundLocalError
              "local variable 'beta' referenced before assignment").

(** [mu] and [sigma], shared by the two objective functions. *)
Definition objective_mu (initial_guess : list float)
  (forecast_predictor : predictor_data) (truth : list float)
  (predictor_of_mean_flag : string) : result (list float) :=
  let? beta := objective_beta initial_guess predictor_of_mean_flag in
  let new_col := np_ones (List.length truth) in
  let? all_data := column_stack new_col (predictor_columns forecast_predictor) in
  np_dot all_data beta.

Definition objective_sigma (initial_guess : list float)
  (forecast_var : list float) : result (list float) :=
  let? g := index initial_guess 0 in
  let? d := index initial_guess 1 in
  Ok (map (fun v => fsqrt (fadd (fsquare g) (fmul (fsquare d) v)))
          forecast_var).

Definition normal_crps_minimiser (initial_guess : list float)
  (forecast_predictor : predictor_data) (truth forecast_var : list float)
  (sqrt_pi : float) (predictor_of_mean_flag : string) : result float :=
  let? mu := objective_mu initial_guess forecast_predictor truth
                          predictor_of_mean_flag in
  let? sigma := objective_sigma initial_guess forecast_var in
  let? diff := zip_with fsub truth mu in
  let? xz := zip_with fdiv diff sigma in
  let normal_cdf := map norm_cdf xz in
  let normal_pdf := map norm_pdf xz in
  let? t1 := zip_with fmul xz
               (map (fun c => fsub (fmul (Fin 2) c) (Fin 1)) normal_cdf) in
  let? t2 := zip_with fadd t1 (map (fmul (Fin 2)) normal_pdf) in
  let t3 := map (fun v => fsub v (fdiv (Fin 1) sqrt_pi)) t2 in
  let? t4 := zip_with fmul sigma t3 in
  let result := np_nansum t4 in
  let? ratio := zip_with fdiv mu sigma in
  let? lowest := np_min ratio in
  if negb (isfinite lowest) then Ok BAD_VALUE else Ok result.

Definition truncated_normal_crps_minimiser (initial_guess : list float)
  (forecast_predictor : predictor_data) (truth forecast_var : list float)
  (sqrt_pi : float) (predictor_of_mean_flag : string) : result float :=
  let? mu := objective_mu initial_guess forecast_predictor truth
                          predictor_of_mean_flag in
  let? sigma := objective_sigma initial_guess forecast_var in
  let? diff := zip_with fsub truth mu in
  let? xz := zip_with fdiv diff sigma in
  let normal_cdf := map norm_cdf xz in
  let normal_pdf := map norm_pdf xz in
  let? x0 := zip_with fdiv mu sigma in
  let normal_cdf_0 := map norm_cdf x0 in
  let normal_cdf_root_two :=
    map (fun v => norm_cdf (fmul (Fin (sqrt 2)) v)) x0 in
  let? scale := zip_with fdiv sigma (map fsquare normal_cdf_0) in
  let? inner0 := zip_with fadd (map (fmul (Fin 2)) normal_cdf) normal_cdf_0 in
  let inner := map (fun v => fsub v (Fin 2)) inner0 in
  let? xc := zip_with fmul xz normal_cdf_0 in
  let? t1 := zip_with fmul xc inner in
  let? t2 := zip_with fmul (map (fmul (Fin 2)) normal_pdf) normal_cdf_0 in
  let? t3 := zip_with fadd t1 t2 in
  let? t4 := zip_with fsub t3
               (map (fun v => fdiv v sqrt_pi) normal_cdf_root_two) in
  let? t5 := zip_with fmul scale t4 in
  let result := np_nansum t5 in
  let? ratio := zip_with fdiv mu sigma in
  let? lowest := np_min ratio in
  if negb (isfinite lowest) || flt lowest (Fin (-3))
  then Ok BAD_VALUE else Ok result.

Definition objective : Type :=
  list float -> predictor_data -> list float -> list float -> float ->
  string -> result float.

(** [self.minimisation_dict]. *)
Definition minimisation_dict : dict string objective :=
  [ ("gaussian", normal_crps_minimiser);
    ("truncated gaussian", truncated_normal_crps_minimiser) ].

Definition minimisation_dict_repr : string :=
  "{'gaussian': <bound method normal_crps_minimiser>, "
  ++ "'truncated gaussian': <bound method truncated_normal_crps_minimiser>}".

(** [calculate_percentage_change_in_last_iteration(allvecs)].  The
    arrays of the message are printed by [repr_floats], after the call
    of [np.set_printoptions(suppress=True)]. *)
Definition calculate_percentage_change_in_last_iteration
  (allvecs : list (list float)) : M unit :=
  match rev allvecs with
  | last :: last_but_one :: _ =>
      diff <- lift (zip_with fsub last last_but_one) ;;
      ratio <- lift (zip_with fdiv diff last_but_one) ;;
      let last_iteration_percentage_change :=
        map (fun v => fmul (fabs v) (Fin 100)) ratio in
      if np_any (map (fun v => fgt v TOLERATED_PERCENTAGE_CHANGE)
                     last_iteration_percentage_change)
      then
        absdiff <- lift (zip_with fsub last_but_one last) ;;
        warn (mkWarning UserWarning
          (newline
           ++ "The final iteration resulted in a percentage change "
           ++ "that is greater than the accepted threshold of 5% "
           ++ "i.e. " ++ repr_floats last_iteration_percentage_change
           ++ ". " ++ newline
           ++ "A satisfactory minimisation has not been achieved. "
           ++ newline
           ++ "Last iteration: " ++ repr_floats last ++ ", " ++ newline
           ++ "Last-but-one iteration: " ++ repr_floats last_but_one
           ++ newline
           ++ "Absolute difference: " ++ repr_floats (map fabs absdiff)
           ++ newline))
      else ret tt
  | _ => raise (IndexError "list index out of range")
  end.

Definition crps_minimiser_wrapper (initial_guess : list float)
  (forecast_predictor truth forecast_var : Cube)
  (predictor_of_mean_flag distribution : string) : M (list float) :=
  _ <- log_minimiser_call initial_guess ;;
  minimisation_function <-
    match dict_get String.eqb minimisation_dict distribution with
    | Some f => ret f
    | None =>
        raise (KeyError
          ("Distribution requested " ++ distribution
           ++ " is not supported in " ++ minimisation_dict_repr
           ++ "Error message is '" ++ distribution ++ "'"))
    end ;;
  _ <- lift (check_predictor_of_mean_flag predictor_of_mean_flag) ;;
  arrays <-
    (if str_in (lower predictor_of_mean_flag) ["mean"] then
       ret (Predictor1D (flatten (data forecast_predictor)),
            flatten (data truth), flatten (data forecast_var))
     else if str_in (lower predictor_of_mean_flag) ["realizations"] then
       let truth_data := flatten (data truth) in
       let forecast_predictor :=
         enforce_coordinate_ordering forecast_predictor in
       rows <- lift (convert_cube_data_to_2d forecast_predictor true) ;;
       ret (Predictor2D rows, truth_data, flatten (data forecast_var))
     else raise (UnboundLocalError
       "local variable 'forecast_predictor_data' referenced before assignment")) ;;
  let '(forecast_predictor_data, truth_data, forecast_var_data) := arrays in
  let sqrt_pi := Fin (sqrt PI) in
  optimised_coeffs <-
    lift (minimize
            (fun x => minimisation_function x forecast_predictor_data
                        truth_data forecast_var_data sqrt_pi
                        predictor_of_mean_flag)
            initial_guess MAX_ITERATIONS) ;;
  _ <- (if negb (opt_success optimised_coeffs) then
          warn (mkWarning UserWarning
            ("Minimisation did not result in convergence after "
             ++ str_of_nat MAX_ITERATIONS ++ " iterations. " ++ newline
             ++ opt_message optimised_coeffs))
        else ret tt) ;;
  _ <- calculate_percentage_change_in_last_iteration
         (opt_allvecs optimised_coeffs) ;;
  ret (opt_x optimised_coeffs).

(* --------------------------------------------------------------------- *)
(** ** EstimateCoefficientsForEnsembleCalibration *)
(* --------------------------------------------------------------------- *)

Definition ESTIMATE_COEFFICIENTS_FROM_LINEAR_MODEL_FLAG : bool := true.

Record Estimator : Type := mkEstimator {
  distribution : string;
  desired_units : Unit;
  predictor_of_mean_flag : string;
  coeff_names : list string;
  statsmodels_found : bool
}.

(** [__init__]; [statsmodels_importable] tells whether the import of
    the [statsmodels] module succeeds.  The warnings raised during
    construction come back with the object. *)
Definition Estimator_init (statsmodels_importable : bool)
  (distribution : string) (desired_units : Unit)
  (predictor_of_mean_flag : string) : Estimator * list Warning :=
  let self :=
    mkEstimator distribution desired_units predictor_of_mean_flag
                ["gamma"; "delta"; "alpha"; "beta"] statsmodels_importable in
  if statsmodels_importable then (self, [])
  else if str_in (lower predictor_of_mean_flag) ["realizations"] then
    (self,
     [mkWarning ImportWarning
        ("The statsmodels can not be imported. "
         ++ "Will not be able to calculate an initial guess from "
         ++ "the individual ensemble realizations. "
         ++ "A default initial guess will be used without "
         ++ "estimating coefficients from a linear model.")])
  else (self, []).

(** [scipy.stats.linregress(x, y)]: slope and intercept of the
    least-squares line, from the covariance of [x] and [y] and the
    variance of [x] (both with [bias=1]).  When all the values of [x]
    are the same the variance is zero and the slope is [0/0], NaN, as
    the scipy of the time of the module gives it; a later scipy raises
    a ValueError for two or more identical values.  The regression is
    characterised below for predictors that take two values at least,
    where the versions agree. *)
Definition linregress (x y : list float) : result (float * float) :=
  match x, y with
  | [], _ | _, [] => Err (ValueError "Inputs must not be empty.")
  | _, _ =>
      let n := Fin (INR (List.length x)) in
      let xmean := np_mean x in
      let ymean := np_mean y in
      let? products :=
        zip_with (fun a b => fmul (fsub a xmean) (fsub b ymean)) x y in
      let ssxym := fdiv (np_sum products) n in
      let ssxm :=
        fdiv (np_sum (map (fun a => fmul (fsub a xmean) (fsub a xmean)) x)) n in
      let slope := fdiv ssxym ssxm in
      let intercept := fsub ymean (fmul slope xmean) in
      Ok (slope, intercept)
  end.

(** [np.repeat(1, no_of_realizations).tolist()]. *)
Definition repeat_ones (no_of_realizations : option nat)
  : result (list float) :=
  match no_of_realizations with
  | Some n => Ok (np_ones n)
  | None => Err (TypeError "int() argument must be a number, not 'NoneType'")
  end.

Definition compute_initial_guess (self : Estimator)
  (truth forecast_predictor : Cube) (predictor_of_mean_flag : string)
  (estimate_coefficients_from_linear_model_flag : bool)
  (no_of_realizations : option nat) : result (list float) :=
  if str_in (lower predictor_of_mean_flag) ["mean"]
     && negb estimate_coefficients_from_linear_model_flag then
    Ok [Fin 1; Fin 1; Fin 0; Fin 1]
  else if str_in (lower predictor_of_mean_flag) ["realizations"]
          && negb estimate_coefficients_from_linear_model_flag then
    let? ones := repeat_ones no_of_realizations in
    Ok ([Fin 1; Fin 1; Fin 0] ++ ones)%list
  else if estimate_coefficients_from_linear_model_flag then
    if str_in (lower predictor_of_mean_flag) ["mean"] then
      let truth_not_nan :=
        map not_nan (flatten (data truth)) in
      let forecast_not_nan :=
        map not_nan (flatten (data forecast_predictor)) in
      let? combined_not_nan := all_rows2 truth_not_nan forecast_not_nan in
      let? fit :=
        (if negb (np_any combined_not_nan) then Ok (NaN, NaN)
         else
           let? xs := mask_select (flatten (data forecast_predictor))
                                  combined_not_nan in
           let? ys := mask_select (flatten (data truth)) combined_not_nan in
           linregress xs ys) in
      let '(gradient, intercept) := fit in
      Ok [Fin 1; Fin 1; intercept; gradient]
    else if str_in (lower predictor_of_mean_flag) ["realizations"] then
      if statsmodels_found self then
        let truth_data := flatten (data truth) in
        let forecast_predictor :=
          enforce_coordinate_ordering forecast_predictor in
        let? forecast_data :=
          convert_cube_data_to_2d forecast_predictor false in
        let truth_not_nan := map not_nan truth_data in
        let forecast_not_nan :=
          map (map not_nan) forecast_data in
        let? combined_not_nan := all_axis0 truth_not_nan forecast_not_nan in
        let? regressors :=
          mapM (fun row => mask_select row combined_not_nan) forecast_data in
        let? ys := mask_select truth_data combined_not_nan in
        let? params := sm_OLS_fit_params ys regressors in
        match params with
        | intercept :: gradient => Ok ([Fin 1; Fin 1; intercept] ++ gradient)%list
        | [] => Err (IndexError "index 0 is out of bounds")
        end
      else
        let? ones := repeat_ones no_of_realizations in
        Ok ([Fin 1; Fin 1; Fin 0] ++ ones)%list
    else Err (UnboundLocalError
      "local variable 'initial_guess' referenced before assignment")
  else Err (UnboundLocalError
    "local variable 'initial_guess' referenced before assignment").

Definition CoefficientSet : Type := dict datetime (list float).

(** The predictor of the estimation and the number of realizations:
    the mean over the realizations in mean mode, the historic forecast
    itself in realizations mode. *)
Definition derive_predictor (self : Estimator) (historic_forecast : Cube)
  : result (option nat * Cube) :=
  if str_in (lower (predictor_of_mean_flag self)) ["mean"] then
    let? forecast_predictor := collapsed MEAN historic_forecast in
    Ok (None, forecast_predictor)
  else if str_in (lower (predictor_of_mean_flag self)) ["realizations"] then
    Ok (Some (List.length (realization_points historic_forecast)),
        historic_forecast)
  else Err (UnboundLocalError
    "local variable 'forecast_predictor' referenced before assignment").

Definition estimate_coefficients_for_ngr (self : Estimator)
  (current_forecast : Cube) : M CoefficientSet :=
  _ <- lift (check_predictor_of_mean_flag (predictor_of_mean_flag self)) ;;
  let optimised_coeffs : CoefficientSet := [] in
  let nan_in_initial_guess := false in
  date <- lift (first_date current_forecast) ;;
  _ <- convert_historic_forecast (desired_units self) ;;
  _ <- convert_truth (desired_units self) ;;
  historic_forecast <- get_historic_forecast ;;
  truth <- get_truth ;;
  predictor <- lift (derive_predictor self historic_forecast) ;;
  let '(no_of_realizations, forecast_predictor) := predictor in
  forecast_var <- lift (collapsed VARIANCE historic_forecast) ;;
  (* no initial guess is among the locals at this point *)
  initial_guess <-
    lift (compute_initial_guess self truth forecast_predictor
            (predictor_of_mean_flag self)
            ESTIMATE_COEFFICIENTS_FROM_LINEAR_MODEL_FLAG
            no_of_realizations) ;;
  let nan_in_initial_guess :=
    if np_any (map isnan initial_guess) then true
    else nan_in_initial_guess in
  if negb nan_in_initial_guess then
    x <- crps_minimiser_wrapper initial_guess forecast_predictor truth
           forecast_var (predictor_of_mean_flag self)
           (lower (distribution self)) ;;
    ret (dict_set Z.eqb optimised_coeffs date x)
  else
    ret (dict_set Z.eqb optimised_coeffs date initial_guess).

(* --------------------------------------------------------------------- *)
(** ** ApplyCoefficientsFromEnsembleCalibration *)
(* --------------------------------------------------------------------- *)

Record Applier : Type := mkApplier {
  applier_current_forecast : Cube;
  applier_optimised_coeffs : CoefficientSet;
  applier_coeff_names : list string;
  applier_predictor_of_mean_flag : string
}.

(** One cube of the coefficient record: the name and the value. *)
Definition coefficient_cube : Type := (string * float)%type.

(** [_create_coefficient_cube]; the metadata copied from the forecast
    is left out. *)
Definition _create_coefficient_cube (cube : Cube)
  (optimised_coeffs_at_date : list float) (coeff_names : list string)
  : list coefficient_cube :=
  map (fun p => (snd p, fst p)) (combine optimised_coeffs_at_date coeff_names).

(** [d[key]] on the coefficients of one date. *)
Definition coeff (d : dict string float) (key : string) : result float :=
  match dict_get String.eqb d key with
  | Some v => Ok v
  | None => Err (KeyError ("'" ++ key ++ "'"))
  end.

Definition repr_names (names : list string) : string :=
  "[" ++ String.concat ", " (map (fun n => "'" ++ n ++ "'") names) ++ "]".

Definition _apply_params (forecast_predictors forecast_vars : Cube)
  (optimised_coeffs : CoefficientSet) (coeff_names : list string)
  (predictor_of_mean_flag : string)
  : result (Cube * Cube * list coefficient_cube) :=
  let? date := first_date forecast_predictors in
  let? coeffs :=
    match dict_get Z.eqb optimised_coeffs date with
    | Some v => Ok v
    | None => Err (KeyError (str_of_Z date))
    end in
  if negb (Nat.eqb (List.length coeffs) (List.length coeff_names)) then
    Err (ValueError
      ("Number of coefficient names " ++ str_of_nat (List.length coeff_names)
       ++ " with names " ++ repr_names coeff_names
       ++ " is not equal to the number of "
       ++ "optimised_coeffs_at_date values "
       ++ str_of_nat (List.length coeffs)
       ++ " with values " ++ repr_floats coeffs ++ " or the number of "
       ++ "coefficients is not greater than the "
       ++ "number of coefficient names. Can not continue "
       ++ "if the number of coefficient names out number "
       ++ "the number of coefficients"))
  else
  let optimised_coeffs_at_date :=
    dict_of String.eqb (combine coeff_names coeffs) in
  let? mean_and_cube :=
    (if str_in (lower predictor_of_mean_flag) ["mean"] then
       let? alpha := coeff optimised_coeffs_at_date "alpha" in
       let? b := coeff optimised_coeffs_at_date "beta" in
       let beta := [alpha; b] in
       let forecast_predictor_flat := flatten (data forecast_predictors) in
       let new_col := np_ones (List.length forecast_predictor_flat) in
       let? all_data :=
         column_stack new_col (as_column forecast_predictor_flat) in
       let? predicted_mean := np_dot all_data beta in
       Ok (predicted_mean, forecast_predictors)
     else if str_in (lower predictor_of_mean_flag) ["realizations"] then
       let beta_values :=
         map snd (filter (fun kv => startswith "beta" (fst kv))
                         optimised_coeffs_at_date) in
       let? alpha := coeff optimised_coeffs_at_date "alpha" in
       let beta := alpha :: map fsquare beta_values in
       let? forecast_predictor_flat :=
         convert_cube_data_to_2d forecast_predictors true in
       let forecast_var_flat := flatten (data forecast_vars) in
       let new_col := np_ones (List.length forecast_var_flat) in
       let? all_data := column_stack new_col forecast_predictor_flat in
       let? predicted_mean := np_dot all_data beta in
       let? calibrated := collapsed MEAN forecast_predictors in
       Ok (predicted_mean, calibrated)
     else Err (UnboundLocalError
       "local variable 'predicted_mean' referenced before assignment")) in
  let '(predicted_mean, calibrated_forecast_predictor) := mean_and_cube in
  let xlen := xlen forecast_predictors in
  let ylen := ylen forecast_predictors in
  let? predicted_mean := np_reshape predicted_mean ylen xlen in
  let? calibrated_forecast_predictor :=
    set_data calibrated_forecast_predictor predicted_mean in
  let? gamma := coeff optimised_coeffs_at_date "gamma" in
  let? delta := coeff optimised_coeffs_at_date "delta" in
  let predicted_var :=
    affine_array (fsquare gamma) (fsquare delta) (data forecast_vars) in
  let? calibrated_forecast_var := set_data forecast_vars predicted_var in
  let coeff_cubes :=
    _create_coefficient_cube calibrated_forecast_predictor coeffs
                             coeff_names in
  Ok (calibrated_forecast_predictor, calibrated_forecast_var, coeff_cubes).

(** [self.coeff_names[-1]] and [self.coeff_names[:-1]]. *)
Definition last_name (names : list string) : result string :=
  match rev names with
  | n :: _ => Ok n
  | [] => Err (IndexError "list index out of range")
  end.

Definition apply_params_entry (self : Applier)
  : result (Cube * Cube * list coefficient_cube) :=
  let? _ :=
    check_predictor_of_mean_flag (applier_predictor_of_mean_flag self) in
  let current_forecast := applier_current_forecast self in
  let? predictors_and_names :=
    (if str_in (lower (applier_predictor_of_mean_flag self)) ["mean"] then
       let? forecast_predictors := collapsed MEAN current_forecast in
       Ok (forecast_predictors, applier_coeff_names self)
     else if str_in (lower (applier_predictor_of_mean_flag self))
                    ["realizations"] then
       let forecast_predictors := current_forecast in
       let? points := realization_coord_points forecast_predictors in
       let? realization_coeffs :=
         mapM (fun realization =>
                 let? beta := last_name (applier_coeff_names self) in
                 Ok (beta ++ str_of_Z (np_int32 realization)))
              points in
       Ok (forecast_predictors,
           (removelast (applier_coeff_names self) ++ realization_coeffs)%list)
     else Err (UnboundLocalError
       "local variable 'forecast_predictors' referenced before assignment")) in
  let '(forecast_predictors, coeff_names) := predictors_and_names in
  let? forecast_vars := collapsed VARIANCE current_forecast in
  _apply_params forecast_predictors forecast_vars
                (applier_optimised_coeffs self) coeff_names
                (applier_predictor_of_mean_flag self).

(* --------------------------------------------------------------------- *)
(** ** EnsembleCalibration *)
(* --------------------------------------------------------------------- *)

Record Calibration : Type := mkCalibration {
  calibration_method : string;
  calibration_distribution : string;
  calibration_desired_units : Unit;
  calibration_predictor_of_mean_flag : string
}.

(** [format_calibration_method]: lowercase, underscores to spaces. *)
Definition format_calibration_method (calibration_method : string) : string :=
  replace_underscores (lower calibration_method).

Definition process (statsmodels_importable : bool) (self : Calibration)
  (current_forecast : Cube) : M (Cube * Cube) :=
  _ <- lift (check_predictor_of_mean_flag
               (calibration_predictor_of_mean_flag self)) ;;
  estimated <-
    (if str_in (format_calibration_method (calibration_method self))
               ["ensemble model output statistics";
                "nonhomogeneous gaussian regression"] then
       if str_in (format_calibration_method (calibration_distribution self))
                 ["gaussian"; "truncated gaussian"] then
         let '(ec, raised) :=
           Estimator_init statsmodels_importable
             (calibration_distribution self)
             (calibration_desired_units self)
             (calibration_predictor_of_mean_flag self) in
         _ <- fold_right (fun w k => _ <- warn w ;; k) (ret tt) raised ;;
         optimised_coeffs <- estimate_coefficients_for_ngr ec current_forecast ;;
         ret (Some (ec, optimised_coeffs))
       else ret None
     else raise (ValueError
       ("Other calibration methods are not available. "
        ++ format_calibration_method (calibration_method self)
        ++ " is not available"))) ;;
  match estimated with
  | None =>
      raise (UnboundLocalError
        "local variable 'optimised_coeffs' referenced before assignment")
  | Some (ec, optimised_coeffs) =>
      let ac :=
        mkApplier current_forecast optimised_coeffs (coeff_names ec)
                  (calibration_predictor_of_mean_flag self) in
      applied <- lift (apply_params_entry ac) ;;
      let '(calibrated_forecast_predictor, calibrated_forecast_variance, _) :=
        applied in
      ret (calibrated_forecast_predictor, calibrated_forecast_variance)
  end.

End EnsembleCalibration.

(* ===================================================================== *)
(** * The coefficient cube and the coordinate helpers *)
(* ===================================================================== *)

(** [s.endswith(suffix)]. *)
Definition endswith (suffix s : string) : bool :=
  (String.length suffix <=? String.length s)%nat
  && String.eqb (substring (String.length s - String.length suffix)
                           (String.length suffix) s)
                suffix.

(** A coordinate: its name and its points. *)
Record Coord : Type := mkCoord {
  coord_name : string;
  coord_points : list Z
}.

(** What [create_coefficients_cube] reads from the current forecast
    besides the fields of [Cube]: its name, its attributes and the two
    time coordinates it may carry. *)
Record ForecastMetadata : Type := mkForecastMetadata {
  forecast_name : string;
  forecast_period : option (list Z);
  forecast_reference_time : option (list Z);
  forecast_attributes : dict string string
}.

(** The cube of coefficients. *)
Record CoefficientsCube : Type := mkCoefficientsCube {
  cc_data : list float;
  cc_long_name : string;
  cc_units : string;
  coefficient_index : list nat;
  coefficient_name : list string;
  cc_aux_coords : list Coord;
  cc_attributes : dict string string
}.

(** [current_forecast.coord(name)] for the three time coordinates; a
    coordinate that is not there is skipped. *)
Definition time_coords (current_forecast : Cube) (meta : ForecastMetadata)
  : list Coord :=
  (match time_points current_forecast with
   | [] => []
   | points => [mkCoord "time" points]
   end
   ++ match forecast_period meta with
      | Some p => [mkCoord "forecast_period" p]
      | None => []
      end
   ++ match forecast_reference_time meta with
      | Some p => [mkCoord "forecast_reference_time" p]
      | None => []
      end)%list.

(** The attributes of the coefficient cube: the name of the diagnostic,
    then the attributes of the forecast whose name ends with
    [model_configuration]. *)
Definition coefficient_attributes (meta : ForecastMetadata)
  : dict string string :=
  fold_left
    (fun attributes kv =>
       if endswith "model_configuration" (fst kv)
       then dict_set String.eqb attributes (fst kv) (snd kv)
       else attributes)
    (forecast_attributes meta)
    [("diagnostic_standard_name", forecast_name meta)].

(** [iris.cube.Cube(..., aux_coords_and_dims=[(coord, None), ...])]: a
    coordinate that comes without a dimension of the cube has to have
    a single point. *)
Fixpoint add_scalar_coords (coords : list Coord) : result (list Coord) :=
  match coords with
  | [] => Ok []
  | coord :: rest =>
      if Nat.eqb (List.length (coord_points coord)) 1 then
        let? added := add_scalar_coords rest in
        Ok (coord :: added)
      else
        Err (ValueError
          ("Missing data dimensions for multi-valued coordinate '"
           ++ coord_name coord ++ "'"))
  end.

(** [create_coefficients_cube] of the estimator. *)
Definition create_coefficients_cube (repr_floats : list float -> string)
  (self : Estimator) (optimised_coeffs : list float)
  (current_forecast : Cube) (meta : ForecastMetadata)
  : result CoefficientsCube :=
  let? names :=
    (if String.eqb (lower (predictor_of_mean_flag self)) "realizations" then
       let? points := realization_coord_points current_forecast in
       let? realization_coeffs :=
         mapM (fun realization =>
                 let? beta := last_name (coeff_names self) in
                 Ok (beta ++ str_of_Z (np_int32 realization)))
              points in
       Ok (removelast (coeff_names self) ++ realization_coeffs)%list
     else Ok (coeff_names self)) in
  if negb (Nat.eqb (List.length optimised_coeffs) (List.length names)) then
    Err (ValueError
      ("The number of coefficients in " ++ repr_floats optimised_coeffs
       ++ " must equal the number of coefficient names "
       ++ repr_names names ++ "."))
  else
    let? aux_coords := add_scalar_coords (time_coords current_forecast meta) in
    Ok (mkCoefficientsCube optimised_coeffs "emos_coefficients" "1"
          (seq 0 (List.length optimised_coeffs)) names
          aux_coords
          (coefficient_attributes meta)).

(** [_find_coords_of_length_one]: the coordinates with a single point,
    each with the dimension 0 when [add_dimension] is set. *)
Definition _find_coords_of_length_one (coords : list Coord)
  (add_dimension : bool) : list (Coord * option nat) :=
  map (fun coord => (coord, if add_dimension then Some 0%nat else None))
      (filter (fun coord => Nat.eqb (List.length (coord_points coord)) 1)
              coords).

(** [_separate_length_one_coords_into_aux_and_dim]: the auxiliary
    coordinates first, the dimension coordinates second. *)
Fixpoint _separate_length_one_coords_into_aux_and_dim
  (length_one_coords : list (Coord * option nat)) (dim_coords : list string)
  : list (Coord * option nat) * list (Coord * option nat) :=
  match length_one_coords with
  | [] => ([], [])
  | coord :: rest =>
      let '(aux, dims) :=
        _separate_length_one_coords_into_aux_and_dim rest dim_coords in
      if str_in (coord_name (fst coord)) dim_coords
      then (aux, coord :: dims)
      else (coord :: aux, dims)
  end.

(* ===================================================================== *)
(** * Reference definitions

    What the specification says in its own words, to compare the module
    against, and the predicates the properties are stated with. *)
(* ===================================================================== *)

(** The grid points where neither the predictor nor the truth is NaN,
    as pairs. *)
Definition valid_pairs (predictor truth : list float)
  : list (float * float) :=
  filter (fun p => negb (isnan (fst p)) && negb (isnan (snd p)))
         (combine predictor truth).

(** The sum and the mean of real numbers. *)
Definition Rsum (l : list R) : R := fold_right Rplus 0 l.

Definition Rmean (l : list R) : R := Rsum l / INR (List.length l).

(** Modelled from the spec: the closed-form ordinary least-squares
    coefficients of [y] against [x] over the points [(x, y)].  The
    slope is the sum of the products of the deviations from the means
    over the sum of the squared deviations of [x], and the line passes
    through the point of the means. *)
Definition ols_slope (points : list (R * R)) : R :=
  let xbar := Rmean (map fst points) in
  let ybar := Rmean (map snd points) in
  Rsum (map (fun p => (fst p - xbar) * (snd p - ybar)) points)
  / Rsum (map (fun p => (fst p - xbar) * (fst p - xbar)) points).

Definition ols_intercept (points : list (R * R)) : R :=
  Rmean (map snd points) - ols_slope points * Rmean (map fst points).

(** Modelled from the spec: what least squares means.  The squared
    error of the line [slope * x + intercept] over the points, and the
    line that no other line undercuts. *)
Definition squared_error (points : list (R * R)) (slope intercept : R) : R :=
  Rsum (map (fun p => (snd p - (slope * fst p + intercept))
                      * (snd p - (slope * fst p + intercept))) points).

Definition least_squares_line (points : list (R * R)) (slope intercept : R)
  : Prop :=
  forall slope' intercept',
    squared_error points slope intercept
    <= squared_error points slope' intercept'.

(** A point of finite values as a pair of numpy values. *)
Definition finite_pair (p : R * R) : float * float :=
  (Fin (fst p), Fin (snd p)).

(** The predictor takes two values at least: the line is determined. *)
Definition distinct_predictors (points : list (R * R)) : Prop :=
  exists p q, In p points /\ In q points /\ fst p <> fst q.

(** The steps of an estimation up to the initial guess. *)
Definition reaches_initial_guess
  (sm_OLS_fit_params : list float -> list (list float) -> result (list float))
  (self : Estimator) (current_forecast : Cube) (s : Store)
  (date : datetime) (historic truth_cube : Cube)
  (initial_guess : list float) : Prop :=
  check_predictor_of_mean_flag (predictor_of_mean_flag self) = Ok tt
  /\ first_date current_forecast = Ok date
  /\ convert_units (historic_forecast s) (desired_units self) = Ok historic
  /\ convert_units (truth s) (desired_units self) = Ok truth_cube
  /\ exists n forecast_predictor forecast_var,
       derive_predictor self historic = Ok (n, forecast_predictor)
       /\ collapsed VARIANCE historic = Ok forecast_var
       /\ compute_initial_guess sm_OLS_fit_params self truth_cube
            forecast_predictor (predictor_of_mean_flag self) true n
          = Ok initial_guess.

(** A computation that leaves the cubes of the store as they are. *)
Definition keeps_cubes {A} (c : M A) : Prop :=
  forall s r s', c s = (r, s') ->
    historic_forecast s' = historic_forecast s /\ truth s' = truth s.

(** The coefficient names the estimator hands to the applier. *)
Definition standard_names : list string := ["gamma"; "delta"; "alpha"; "beta"].

(** The name of the coefficient of one realization. *)
Definition beta_name (realization : Z) : string :=
  "beta" ++ str_of_Z realization.

(** The linear predictor of one grid point in realizations mode: the
    intercept and the realizations of the point, each with its weight. *)
Definition weighted_sum (a : float) (weights row : list float) : float :=
  np_sum (map (fun p => fmul (fst p) (snd p))
              (combine (Fin 1 :: row) (a :: weights))).

(** A field of finite, non-negative values. *)
Definition non_negative_field (values : list float) : Prop :=
  Forall (fun v => exists x, v = Fin x /\ 0 <= x) values.

(** The squares of gamma and delta and the calibrated variance of
    every grid point stay below the size from which a float overflows,
    in single as in double precision. *)
Definition variance_in_range (g d : R) (raw : list float) : Prop :=
  g * g < single_overflow_threshold
  /\ d * d < single_overflow_threshold
  /\ Forall (fun v => forall x, v = Fin x ->
               g * g + d * d * x < single_overflow_threshold) raw.

(** The calibrated variance against the raw one, point by point. *)
Definition variance_calibrated_by (g d : R) (raw calibrated : list float)
  : Prop :=
  Forall2 (fun v w => exists x, v = Fin x
                                /\ w = Fin (g * g + d * d * x)
                                /\ 0 <= g * g + d * d * x)
          raw calibrated.

(* ===================================================================== *)
(** * Example data *)
(* ===================================================================== *)

(** Fields on a single row of grid points, in kelvin. *)
Definition example_unit : Unit := mkUnit "K" "temperature" 1 0.

Definition example_field (values : list float) : Cube :=
  mkCube example_unit [0%Z] [] 1 (List.length values)
         (mkArray [1%nat; List.length values] values).

Definition example_estimator (flag : string) : Estimator :=
  mkEstimator "gaussian" example_unit flag
              ["gamma"; "delta"; "alpha"; "beta"] true.

Definition celsius : Unit := mkUnit "degreesC" "temperature" 1 (27315 / 100).

(** An ensemble of two members on a single grid point, in kelvin. *)
Definition example_ensemble (times : list Z) : Cube :=
  mkCube example_unit times [0%Z; 1%Z] 1 1
         (mkArray [2%nat; 1%nat; 1%nat] [Fin 1; Fin 3]).

(** A current forecast of two members with the two validity times 0
    and 24 on a single grid point. *)
Definition example_two_dates : Cube :=
  mkCube example_unit [0%Z; 24%Z] [0%Z; 1%Z] 1 1
         (mkArray [2%nat; 2%nat; 1%nat; 1%nat]
                  [Fin 1; Fin 2; Fin 3; Fin 4]).

(** Historic forecasts with a truth that is missing everywhere. *)
Definition example_store : Store :=
  mkStore (example_ensemble [0%Z]) (example_field [NaN]) [] [].

(** Stand-ins for the numerical libraries, for the examples. *)
Definition example_Phi : R -> R := fun _ => 1 / 2.

Definition example_minimize
  : (list float -> result float) -> list float -> nat -> result OptimizeResult :=
  fun _ x0 _ =>
    Ok (mkOptimizeResult x0 false
          "Maximum number of iterations has been exceeded." [x0; x0]).

Definition example_OLS
  : list float -> list (list float) -> result (list float) :=
  fun _ _ => Err (ValueError "endog is empty").

Definition example_repr : list float -> string := fun _ => "[...]".

(** The same estimator working in degrees Celsius. *)
Definition example_estimator_celsius : Estimator :=
  mkEstimator "gaussian" celsius "mean"
              ["gamma"; "delta"; "alpha"; "beta"] true.

(** The cubes of the example store after their conversion from kelvin
    to degrees Celsius. *)
Definition example_ensemble_celsius : Cube :=
  mkCube celsius [0%Z] [0%Z; 1%Z] 1 1
         (mkArray [2%nat; 1%nat; 1%nat]
                  (map (unit_convert example_unit celsius) [Fin 1; Fin 3])).

Definition example_truth_celsius : Cube :=
  mkCube celsius [0%Z] [] 1 1 (mkArray [1%nat; 1%nat] [NaN]).

(* ===================================================================== *)
(** * Further reference definitions and example data *)
(* ===================================================================== *)

(** A computation that leaves the log of minimiser calls as it is. *)
Definition keeps_calls {A} (c : M A) : Prop :=
  forall s r s', c s = (r, s') -> minimiser_calls s' = minimiser_calls s.

(** A computation that only adds warnings. *)
Definition extends_warnings {A} (c : M A) : Prop :=
  forall s r s', c s = (r, s') ->
    exists later, warnings s' = (warnings s ++ later)%list.

(** The function handed to the optimiser in mean mode. *)
Definition mean_objective (f : objective) (forecast_predictor truth_cube
  forecast_var : Cube) (flag : string) : list float -> result float :=
  fun x => f x (Predictor1D (flatten (data forecast_predictor)))
             (flatten (data truth_cube)) (flatten (data forecast_var))
             (Fin (sqrt PI)) flag.

(** The warning of a minimisation that did not converge. *)
Definition non_convergence_warning (message : string) : Warning :=
  mkWarning UserWarning
    ("Minimisation did not result in convergence after "
     ++ str_of_nat MAX_ITERATIONS ++ " iterations. " ++ newline ++ message).

(** The percentage change of every coefficient between the last but
    one iterate and the last one. *)
Definition percentage_changes (last last_but_one : list float) : list float :=
  map (fun p => fmul (fabs (fdiv (fsub (fst p) (snd p)) (snd p))) (Fin 100))
      (combine last last_but_one).

(** The calibrated predictor against the raw one at a grid point, for
    real alpha and beta: linear where the forecast is finite, missing
    where it is missing. *)
Definition linear_in_predictor (a b : R) (raw calibrated : float) : Prop :=
  match raw with
  | Fin x => calibrated = Fin (a + b * x)
  | NaN => calibrated = NaN
  | _ => True
  end.

(** A coefficient of the last iterate against the one of the last but
    one: both finite, the earlier one not zero, and the change within
    the tolerated five per cent of it. *)
Definition within_tolerance (last last_but_one : float) : Prop :=
  exists x y,
    last = Fin x /\ last_but_one = Fin y /\ y <> 0
    /\ Rabs (x - y) * 100 <= 5 * Rabs y.

(** The time coordinates the forecast has are scalar: one point each. *)
Definition scalar_time_coords (current_forecast : Cube)
  (meta : ForecastMetadata) : Prop :=
  Forall (fun coord => List.length (coord_points coord) = 1%nat)
         (time_coords current_forecast meta).

(** A value below which nothing lies: NaN or minus infinity. *)
Definition nan_or_minus_infinity (x : float) : Prop := x = NaN \/ x = NInf.

(** A coefficient whose square overflows: [2^600]. *)
Definition example_large_delta_Z : Z := Eval cbv in (2 ^ 600)%Z.

Definition example_large_delta : R := IZR example_large_delta_Z.

(** A speed, to have a unit that kelvin cannot be converted to. *)
Definition metres_per_second : Unit := mkUnit "m s-1" "speed" 1 0.

(** Historic forecasts of two members on two grid points, with the
    truth [2 * mean + 1]. *)
Definition example_training_ensemble : Cube :=
  mkCube example_unit [0%Z] [0%Z; 1%Z] 1 2
         (mkArray [2%nat; 1%nat; 2%nat] [Fin 1; Fin 3; Fin 3; Fin 5]).

Definition example_training_store : Store :=
  mkStore example_training_ensemble (example_field [Fin 5; Fin 9]) [] [].

(** A store whose truth is a speed. *)
Definition example_mixed_store : Store :=
  mkStore (example_ensemble [0%Z])
          (mkCube metres_per_second [0%Z] [] 1 1
                  (mkArray [1%nat; 1%nat] [Fin 1]))
          [] [].

(** The example estimator in mean mode for a distribution. *)
Definition example_estimator_for (dist : string) : Estimator :=
  mkEstimator dist example_unit "mean"
              ["gamma"; "delta"; "alpha"; "beta"] true.


Definition example_metadata : ForecastMetadata :=
  mkForecastMetadata "air_temperature" (Some [6%Z]) None
    [("mosg__model_configuration", "uk_det"); ("source", "IMPROVER")].

(* ===================================================================== *)
(** * Properties *)
(* ===================================================================== *)

(** ** Comparisons on the reals *)

Lemma Rltb_true x y : x < y -> Rltb x y = true.
Proof. intros H. unfold Rltb. destruct (Rlt_dec x y); [reflexivity | contradiction]. Qed.

Lemma Rltb_false x y : ~ x < y -> Rltb x y = false.
Proof. intros H. unfold Rltb. destruct (Rlt_dec x y); [contradiction | reflexivity]. Qed.

Lemma Reqb_true x y : x = y -> Reqb x y = true.
Proof. intros H. unfold Reqb. destruct (Req_dec_T x y); [reflexivity | contradiction]. Qed.

Lemma Reqb_false x y : x <> y -> Reqb x y = false.
Proof. intros H. unfold Reqb. destruct (Req_dec_T x y); [contradiction | reflexivity]. Qed.

(** Decide the comparisons between numerals that stand in the goal. *)
Lemma overflow_threshold_large : 1000000000000 < overflow_threshold.
Proof. unfold overflow_threshold, overflow_threshold_Z. lra. Qed.

Lemma single_overflow_threshold_large :
  1000000000000 < single_overflow_threshold.
Proof.
  unfold single_overflow_threshold, single_overflow_threshold_Z. lra.
Qed.

Lemma single_below_double : single_overflow_threshold < overflow_threshold.
Proof.
  unfold single_overflow_threshold, single_overflow_threshold_Z,
    overflow_threshold, overflow_threshold_Z. lra.
Qed.

Ltac small_reals := pose proof overflow_threshold_large; lra.

Ltac real_tests :=
  repeat match goal with
  | |- context [Rltb ?a ?b] =>
      first [ rewrite (@Rltb_true a b) by small_reals
            | rewrite (@Rltb_false a b) by small_reals ]
  | |- context [Reqb ?a ?b] =>
      first [ rewrite (@Reqb_true a b) by lra
            | rewrite (@Reqb_false a b) by lra ]
  end.

(** Evaluate float arithmetic on numerals. *)
Ltac float_eval := repeat (progress (simpl; real_tests)).

(** ** Arithmetic on numpy scalars *)

Lemma Fin_inj a b : Fin a = Fin b -> a = b.
Proof. congruence. Qed.




Lemma fsquare_Fin a :
  a * a < overflow_threshold -> fsquare (Fin a) = Fin (a * a).
Proof.
  intros H. unfold fsquare. rewrite Rltb_true by exact H. reflexivity.
Qed.

Lemma fsquare_zero : fsquare (Fin 0) = Fin 0.
Proof. rewrite fsquare_Fin by small_reals. f_equal. ring. Qed.

Lemma fsquare_one : fsquare (Fin 1) = Fin 1.
Proof. rewrite fsquare_Fin by small_reals. f_equal. ring. Qed.


(** ** Arrays *)

Lemma zip_with_length f a b r :
  zip_with f a b = Ok r ->
  List.length a = List.length b /\ List.length r = List.length a.
Proof.
  revert b r. induction a as [|x a IH]; intros [|y b] r; simpl;
    try discriminate.
  - intros [= <-]. auto.
  - destruct (zip_with f a b) as [r'|] eqn:E; simpl; [|discriminate].
    intros [= <-]. destruct (IH _ _ E) as [H1 H2]. simpl. auto.
Qed.

Lemma zip_with_same_length f a b :
  List.length a = List.length b ->
  zip_with f a b = Ok (map (fun p => f (fst p) (snd p)) (combine a b)).
Proof.
  revert b. induction a as [|x a IH]; intros [|y b]; simpl;
    try discriminate; try reflexivity.
  intros [= H]. rewrite (IH _ H). reflexivity.
Qed.

Lemma column_stack_ones_column a :
  column_stack (np_ones (List.length a)) (as_column a)
  = Ok (map (fun x => [Fin 1; x]) a).
Proof.
  induction a as [|x a IH]; simpl; [reflexivity|].
  unfold np_ones in IH. rewrite IH. reflexivity.
Qed.

Lemma mapM_map_ok {A B} (f : A -> result B) (g : A -> B) l :
  (forall a, In a l -> f a = Ok (g a)) -> mapM f l = Ok (map g l).
Proof.
  induction l as [|a l IH]; simpl; intros H; [reflexivity|].
  rewrite (H a) by auto. simpl. rewrite IH by auto. reflexivity.
Qed.


Lemma shape_eqb_refl s : shape_eqb s s = true.
Proof. unfold shape_eqb. destruct (list_eq_dec Nat.eq_dec s s); congruence. Qed.

Lemma set_data_same_shape c a :
  shape (data c) = shape a -> set_data c a = Ok (with_data c a).
Proof. intros H. unfold set_data. rewrite H, shape_eqb_refl. reflexivity. Qed.

(** ** The initial guess *)

Lemma lower_mean_not_realizations flag :
  lower flag = "mean" -> str_in (lower flag) ["mean"] = true.
Proof. intros ->. reflexivity. Qed.

Lemma lower_realizations flag :
  lower flag = "realizations" ->
  str_in (lower flag) ["mean"] = false
  /\ str_in (lower flag) ["realizations"] = true.
Proof. intros ->. split; reflexivity. Qed.

(** C8: without regression the initial guess is [1, 1, 0, 1] in mean
    mode and [1, 1, 0] followed by R ones in realizations mode; an
    estimator built while statsmodels cannot be imported raises one
    ImportWarning in realizations mode and falls back to the same
    default guess although regression is requested. *)
Theorem compute_initial_guess_default
  (sm : list float -> list (list float) -> result (list float))
  (self : Estimator) (truth forecast_predictor : Cube)
  (mean_flag realizations_flag dist : string) (u : Unit)
  (n : option nat) (R : nat) :
  lower mean_flag = "mean" ->
  lower realizations_flag = "realizations" ->
  compute_initial_guess sm self truth forecast_predictor mean_flag false n
    = Ok [Fin 1; Fin 1; Fin 0; Fin 1]
  /\ compute_initial_guess sm self truth forecast_predictor
       realizations_flag false (Some R)
     = Ok ([Fin 1; Fin 1; Fin 0] ++ repeat (Fin 1) R)%list
  /\ (exists msg,
        snd (Estimator_init false dist u realizations_flag)
          = [mkWarning ImportWarning msg])
  /\ compute_initial_guess sm
       (fst (Estimator_init false dist u realizations_flag))
       truth forecast_predictor realizations_flag true (Some R)
     = Ok ([Fin 1; Fin 1; Fin 0] ++ repeat (Fin 1) R)%list.
Proof.
  intros Hm Hr.
  destruct (lower_realizations _ Hr) as [Hr1 Hr2].
  pose proof (lower_mean_not_realizations _ Hm) as Hm1.
  repeat split.
  - unfold compute_initial_guess. rewrite Hm1. reflexivity.
  - unfold compute_initial_guess. rewrite Hr1, Hr2. reflexivity.
  - unfold Estimator_init. rewrite Hr2. eexists. reflexivity.
  - unfold compute_initial_guess, Estimator_init. rewrite Hr1, Hr2.
    reflexivity.
Qed.

Lemma compute_initial_guess_default_witness :
  lower "Mean" = "mean" /\ lower "REALIZATIONS" = "realizations"
  /\ compute_initial_guess (fun _ _ => Ok [])
       (mkEstimator "gaussian" (mkUnit "K" "temperature" 1 0) "Mean"
                    ["gamma"; "delta"; "alpha"; "beta"] true)
       (mkCube (mkUnit "K" "temperature" 1 0) [0%Z] [] 1 1
               (mkArray [1%nat; 1%nat] [NaN]))
       (mkCube (mkUnit "K" "temperature" 1 0) [0%Z] [] 1 1
               (mkArray [1%nat; 1%nat] [NaN]))
       "REALIZATIONS" false (Some 3%nat)
     = Ok [Fin 1; Fin 1; Fin 0; Fin 1; Fin 1; Fin 1].
Proof.
  split; [reflexivity|]. split; [reflexivity|].
  exact (proj1 (proj2
    (compute_initial_guess_default (fun _ _ => Ok [])
       (mkEstimator "gaussian" (mkUnit "K" "temperature" 1 0) "Mean"
                    ["gamma"; "delta"; "alpha"; "beta"] true)
       (mkCube (mkUnit "K" "temperature" 1 0) [0%Z] [] 1 1
               (mkArray [1%nat; 1%nat] [NaN]))
       (mkCube (mkUnit "K" "temperature" 1 0) [0%Z] [] 1 1
               (mkArray [1%nat; 1%nat] [NaN]))
       "Mean" "REALIZATIONS" "gaussian" (mkUnit "K" "temperature" 1 0)
       None 3 eq_refl eq_refl))).
Defined.

(** ** Regression over the valid pairs *)

(** The mask the module builds selects the valid pairs. *)
Lemma mask_selects_valid_pairs (xs ys : list float) :
  List.length ys = List.length xs ->
  exists mask,
    all_rows2 (map not_nan ys) (map not_nan xs) = Ok mask
    /\ mask_select xs mask = Ok (map fst (valid_pairs xs ys))
    /\ mask_select ys mask = Ok (map snd (valid_pairs xs ys))
    /\ np_any mask = match valid_pairs xs ys with [] => false | _ => true end.
Proof.
  revert ys. induction xs as [|x xs IH]; intros [|y ys]; simpl;
    try discriminate.
  - intros _. exists []. repeat split.
  - intros [= H]. destruct (IH _ H) as (mask & E1 & E2 & E3 & E4).
    exists ((not_nan y && not_nan x) :: mask).
    unfold valid_pairs in *. simpl.
    rewrite E1, E2, E3. simpl. unfold not_nan.
    destruct (isnan x), (isnan y); simpl; repeat split; try assumption.
Qed.

Unset Implicit Arguments.

(** Sums of real numbers. *)
Lemma Rsum_map_add {A} (f g : A -> R) l :
  Rsum (map (fun p => f p + g p) l) = Rsum (map f l) + Rsum (map g l).
Proof. unfold Rsum. induction l as [|a l IH]; simpl; [ring|]. rewrite IH. ring. Qed.

Lemma Rsum_map_scal {A} (c : R) (f : A -> R) l :
  Rsum (map (fun p => c * f p) l) = c * Rsum (map f l).
Proof. unfold Rsum. induction l as [|a l IH]; simpl; [ring|]. rewrite IH. ring. Qed.

Lemma Rsum_map_const {A} (c : R) (l : list A) :
  Rsum (map (fun _ => c) l) = INR (List.length l) * c.
Proof.
  unfold Rsum. induction l as [|a l IH]; [simpl; ring|].
  cbn [map fold_right List.length]. rewrite IH, S_INR. ring.
Qed.

Lemma Rsum_map_nonneg {A} (f : A -> R) l :
  (forall p, 0 <= f p) -> 0 <= Rsum (map f l).
Proof.
  intros H. unfold Rsum. induction l as [|a l IH]; simpl; [lra|].
  specialize (H a). lra.
Qed.

Lemma Rsum_map_term {A} (f : A -> R) l p :
  (forall q, 0 <= f q) -> In p l -> f p <= Rsum (map f l).
Proof.
  intros H. induction l as [|a l IH]; [contradiction|].
  intros [->|Hin].
  - pose proof (Rsum_map_nonneg f l H). unfold Rsum in *. simpl. lra.
  - specialize (IH Hin). specialize (H a). unfold Rsum in *. simpl. lra.
Qed.

Lemma Rsum_map_ext {A} (f g : A -> R) l :
  (forall p, f p = g p) -> Rsum (map f l) = Rsum (map g l).
Proof. intros H. f_equal. apply map_ext. exact H. Qed.

Lemma Rsum_map_id (l : list R) : Rsum (map (fun x => x) l) = Rsum l.
Proof. rewrite map_id. reflexivity. Qed.

Lemma squared_deviations_positive (points : list (R * R)) (c : R) :
  distinct_predictors points ->
  0 < Rsum (map (fun p => (fst p - c) * (fst p - c)) points).
Proof.
  intros (p & q & Hp & Hq & Hne).
  assert (Hsq : forall r : R * R, 0 <= (fst r - c) * (fst r - c))
    by (intros r; apply Rle_0_sqr).
  pose proof (Rsum_map_term _ points p Hsq Hp) as H1.
  pose proof (Rsum_map_term _ points q Hsq Hq) as H2.
  cbv beta in H1, H2.
  destruct (Req_dec (fst p) c) as [E|E].
  - assert (fst q <> c) by congruence.
    assert (0 < (fst q - c) * (fst q - c))
      by (apply Rsqr_pos_lt; lra).
    lra.
  - assert (0 < (fst p - c) * (fst p - c))
      by (apply Rsqr_pos_lt; lra).
    lra.
Qed.

Lemma points_nonempty points : distinct_predictors points -> points <> [].
Proof. intros (p & _ & Hp & _) ->. contradiction. Qed.

Lemma length_pos {A} (l : list A) : l <> [] -> 0 < INR (List.length l).
Proof. intros H. apply lt_0_INR. destruct l; [contradiction | simpl; lia]. Qed.

(** The normal equations: the residuals of the closed-form line sum to
    zero and are orthogonal to the deviations of the predictor. *)
Lemma residuals_sum_to_zero points :
  points <> [] ->
  Rsum (map (fun p => snd p - (ols_slope points * fst p + ols_intercept points))
            points) = 0.
Proof.
  intros Hne. pose proof (length_pos points Hne) as Hn.
  set (a := ols_slope points). 
  unfold ols_intercept. fold a.
  rewrite (Rsum_map_ext _
             (fun p => snd p + (- a * fst p
                        + (a * Rmean (map fst points) - Rmean (map snd points)))))
    by (intros; ring).
  rewrite Rsum_map_add, Rsum_map_add, Rsum_map_scal, Rsum_map_const.
  unfold Rmean. rewrite !length_map.
  rewrite <- (map_map snd (fun x => x)), <- (map_map fst (fun x => x)), !Rsum_map_id.
  field. lra.
Qed.

Lemma residuals_orthogonal points :
  distinct_predictors points ->
  Rsum (map (fun p => (snd p - (ols_slope points * fst p + ols_intercept points))
                      * (fst p - Rmean (map fst points)))
            points) = 0.
Proof.
  intros Hd. pose proof (points_nonempty points Hd) as Hne.
  pose proof (length_pos points Hne) as Hn.
  pose proof (squared_deviations_positive points (Rmean (map fst points)) Hd) as Hpos.
  unfold ols_intercept.
  set (xbar := Rmean (map fst points)) in *.
  set (ybar := Rmean (map snd points)).
  rewrite (Rsum_map_ext _
             (fun p => (fst p - xbar) * (snd p - ybar)
                       + - ols_slope points * ((fst p - xbar) * (fst p - xbar))))
    by (intros; ring).
  rewrite Rsum_map_add, Rsum_map_scal.
  unfold ols_slope. fold xbar ybar. cbv zeta. field. lra.
Qed.

Lemma ols_is_least_squares points :
  distinct_predictors points ->
  least_squares_line points (ols_slope points) (ols_intercept points).
Proof.
  intros Hd slope' intercept'.
  pose proof (points_nonempty points Hd) as Hne.
  pose proof (residuals_sum_to_zero points Hne) as H0.
  pose proof (residuals_orthogonal points Hd) as H1.
  set (a := ols_slope points) in *. set (b := ols_intercept points) in *.
  set (xbar := Rmean (map fst points)) in *.
  set (da := slope' - a). set (c := intercept' - b + da * xbar).
  unfold squared_error.
  rewrite (Rsum_map_ext
             (fun p => (snd p - (slope' * fst p + intercept'))
                       * (snd p - (slope' * fst p + intercept')))
             (fun p => (snd p - (a * fst p + b)) * (snd p - (a * fst p + b))
                       + ((-2 * da) * ((snd p - (a * fst p + b)) * (fst p - xbar))
                          + ((-2 * c) * (snd p - (a * fst p + b))
                             + (da * (fst p - xbar) + c) * (da * (fst p - xbar) + c)))))
    by (intros; subst da c; ring).
  rewrite !Rsum_map_add, !Rsum_map_scal, H0, H1.
  pose proof (Rsum_map_nonneg
                (fun p : R * R => (da * (fst p - xbar) + c) * (da * (fst p - xbar) + c))
                points) as Hnn.
  assert (0 <= Rsum (map (fun p : R * R =>
                            (da * (fst p - xbar) + c) * (da * (fst p - xbar) + c))
                         points)) by (apply Hnn; intros; apply Rle_0_sqr).
  lra.
Qed.

(** numpy on arrays of finite values. *)
Lemma np_sum_finite (l : list R) : np_sum (map Fin l) = Fin (Rsum l).
Proof.
  unfold np_sum, fzero.
  assert (H : forall acc, fold_left fadd (map Fin l) (Fin acc)
                          = Fin (acc + Rsum l)).
  { induction l as [|x l IH]; intros acc; simpl.
    - f_equal. unfold Rsum. simpl. ring.
    - rewrite IH. f_equal. unfold Rsum. simpl. ring. }
  rewrite H. f_equal. ring.
Qed.

Lemma np_mean_finite (l : list R) :
  l <> [] -> np_mean (map Fin l) = Fin (Rmean l).
Proof.
  intros Hne. unfold np_mean. rewrite np_sum_finite, length_map.
  pose proof (length_pos l Hne) as Hn.
  simpl. rewrite Reqb_false by lra. reflexivity.
Qed.

Lemma zip_with_maps {A} (f : float -> float -> float) (g h : A -> float)
  (l : list A) :
  zip_with f (map g l) (map h l) = Ok (map (fun p => f (g p) (h p)) l).
Proof.
  induction l as [|p l IH]; simpl; [reflexivity|]. rewrite IH. reflexivity.
Qed.

Lemma linregress_finite (points : list (R * R)) :
  distinct_predictors points ->
  linregress (map (fun p => Fin (fst p)) points)
             (map (fun p => Fin (snd p)) points)
  = Ok (Fin (ols_slope points), Fin (ols_intercept points)).
Proof.
  intros Hd. pose proof (points_nonempty points Hd) as Hne.
  pose proof (length_pos points Hne) as Hn.
  pose proof (squared_deviations_positive points (Rmean (map fst points)) Hd)
    as Hpos.
  unfold linregress.
  destruct (map (fun p => Fin (fst p)) points) eqn:Ex;
    [destruct points; [contradiction | discriminate]|].
  destruct (map (fun p => Fin (snd p)) points) eqn:Ey;
    [destruct points; [contradiction | discriminate]|].
  rewrite <- Ex, <- Ey. clear Ex Ey.
  rewrite length_map.
  rewrite <- (map_map fst Fin), <- (map_map snd Fin).
  rewrite !np_mean_finite
    by (intros E; apply map_eq_nil in E; contradiction).
  rewrite (map_map fst Fin), (map_map snd Fin).
  rewrite zip_with_maps. cbn [rbind].
  rewrite map_map.
  cbn [fsub fneg fadd fmul].
  rewrite <- (map_map (fun p => (fst p + - Rmean (map fst points))
                                * (snd p + - Rmean (map snd points))) Fin).
  rewrite <- (map_map (fun p => (fst p + - Rmean (map fst points))
                                * (fst p + - Rmean (map fst points))) Fin).
  rewrite !np_sum_finite.
  cbn [fdiv]. rewrite (@Reqb_false (INR (List.length points)) 0) by lra.
  assert (Hxx : Rsum (map (fun p : R * R =>
                             (fst p + - Rmean (map fst points))
                             * (fst p + - Rmean (map fst points))) points)
                = Rsum (map (fun p : R * R =>
                               (fst p - Rmean (map fst points))
                               * (fst p - Rmean (map fst points))) points))
    by (apply Rsum_map_ext; intros; ring).
  assert (Hxy : Rsum (map (fun p : R * R =>
                             (fst p + - Rmean (map fst points))
                             * (snd p + - Rmean (map snd points))) points)
                = Rsum (map (fun p : R * R =>
                               (fst p - Rmean (map fst points))
                               * (snd p - Rmean (map snd points))) points))
    by (apply Rsum_map_ext; intros; ring).
  rewrite Hxx, Hxy.
  assert (HB : Rsum (map (fun p : R * R =>
                            (fst p - Rmean (map fst points))
                            * (fst p - Rmean (map fst points))) points)
               / INR (List.length points) <> 0).
  { intros E. apply Rmult_integral in E. destruct E as [E|E]; [lra|].
    pose proof (Rinv_0_lt_compat _ Hn). lra. }
  cbn [fdiv]. rewrite (Reqb_false HB).
  cbn [fmul fsub fneg fadd].
  f_equal. f_equal.
  - f_equal. unfold ols_slope. cbv zeta. field. lra.
  - f_equal. unfold ols_intercept, ols_slope. cbv zeta. field. lra.
Qed.

Lemma squared_error_decomposition points slope' intercept' :
  distinct_predictors points ->
  squared_error points slope' intercept'
  = squared_error points (ols_slope points) (ols_intercept points)
    + Rsum (map (fun p : R * R =>
                   ((slope' - ols_slope points)
                    * (fst p - Rmean (map fst points))
                    + (intercept' - ols_intercept points
                       + (slope' - ols_slope points)
                         * Rmean (map fst points)))
                   * ((slope' - ols_slope points)
                      * (fst p - Rmean (map fst points))
                      + (intercept' - ols_intercept points
                         + (slope' - ols_slope points)
                           * Rmean (map fst points))))
                points).
Proof.
  intros Hd.
  pose proof (points_nonempty points Hd) as Hne.
  pose proof (residuals_sum_to_zero points Hne) as H0.
  pose proof (residuals_orthogonal points Hd) as H1.
  set (a := ols_slope points) in *. set (b := ols_intercept points) in *.
  set (xbar := Rmean (map fst points)) in *.
  set (da := slope' - a). set (c := intercept' - b + da * xbar).
  unfold squared_error.
  rewrite (Rsum_map_ext
             (fun p => (snd p - (slope' * fst p + intercept'))
                       * (snd p - (slope' * fst p + intercept')))
             (fun p => (snd p - (a * fst p + b)) * (snd p - (a * fst p + b))
                       + ((-2 * da) * ((snd p - (a * fst p + b)) * (fst p - xbar))
                          + ((-2 * c) * (snd p - (a * fst p + b))
                             + (da * (fst p - xbar) + c) * (da * (fst p - xbar) + c)))))
    by (intros; subst da c; ring).
  rewrite !Rsum_map_add, !Rsum_map_scal, H0, H1. ring.
Qed.

Lemma least_squares_line_unique points slope intercept :
  distinct_predictors points ->
  least_squares_line points slope intercept ->
  slope = ols_slope points /\ intercept = ols_intercept points.
Proof.
  intros Hd Hbest.
  specialize (Hbest (ols_slope points) (ols_intercept points)).
  rewrite (squared_error_decomposition points slope intercept Hd) in Hbest.
  set (da := slope - ols_slope points) in *.
  set (c := intercept - ols_intercept points
            + da * Rmean (map fst points)) in *.
  set (xbar := Rmean (map fst points)) in *.
  assert (Hsq : forall r : R * R,
            0 <= (da * (fst r - xbar) + c) * (da * (fst r - xbar) + c))
    by (intros r; apply Rle_0_sqr).
  assert (Hzero : forall p, In p points -> da * (fst p - xbar) + c = 0).
  { intros p Hp.
    pose proof (Rsum_map_term _ points p Hsq Hp) as Hterm. cbv beta in Hterm.
    assert (Hp0 : (da * (fst p - xbar) + c) * (da * (fst p - xbar) + c) = 0)
      by (specialize (Hsq p); lra).
    apply Rmult_integral in Hp0. destruct Hp0; assumption. }
  destruct Hd as (p & q & Hp & Hq & Hne).
  pose proof (Hzero p Hp) as Ep. pose proof (Hzero q Hq) as Eq.
  assert (Hda : da = 0).
  { assert (E : da * (fst p - fst q) = 0) by lra.
    apply Rmult_integral in E. destruct E as [E|E]; [exact E | lra]. }
  assert (Hc : c = 0) by (rewrite Hda in Ep; lra).
  subst da c. split; [lra|]. rewrite Hda in Hc. lra.
Qed.

Set Implicit Arguments.

(** C9: in mean mode with regression the initial guess is
    [1, 1, intercept, slope].  Over the grid points where neither the
    truth nor the predictor is NaN, when their values are finite and
    the predictor takes two values at least, slope and intercept are
    those of the least-squares line of truth against the predictor:
    no line has a smaller squared error, no other line has the same,
    and the two are given by the closed form.  Both are NaN when there
    is no such grid point. *)
Theorem compute_initial_guess_regression
  (sm : list float -> list (list float) -> result (list float))
  (self : Estimator) (truth forecast_predictor : Cube) (flag : string)
  (n : option nat) :
  lower flag = "mean" ->
  List.length (flatten (data truth))
    = List.length (flatten (data forecast_predictor)) ->
  let valid :=
    valid_pairs (flatten (data forecast_predictor)) (flatten (data truth)) in
  (valid = [] ->
   compute_initial_guess sm self truth forecast_predictor flag true n
   = Ok [Fin 1; Fin 1; NaN; NaN])
  /\ (forall points,
        valid = map finite_pair points ->
        distinct_predictors points ->
        exists slope intercept,
          compute_initial_guess sm self truth forecast_predictor flag true n
          = Ok [Fin 1; Fin 1; Fin intercept; Fin slope]
          /\ least_squares_line points slope intercept
          /\ (forall slope' intercept',
                least_squares_line points slope' intercept' ->
                slope' = slope /\ intercept' = intercept)
          /\ slope = ols_slope points
          /\ intercept = ols_intercept points).
Proof.
  intros Hflag Hlen valid.
  assert (Hguess :
            compute_initial_guess sm self truth forecast_predictor flag true n
            = let? fit :=
                match valid with
                | [] => Ok (NaN, NaN)
                | _ => linregress (map fst valid) (map snd valid)
                end in
              Ok [Fin 1; Fin 1; snd fit; fst fit]).
  { unfold compute_initial_guess.
    rewrite (lower_mean_not_realizations _ Hflag). simpl negb.
    rewrite andb_false_r.
    replace (str_in (lower flag) ["realizations"]) with false
      by (rewrite Hflag; reflexivity).
    simpl andb. cbv iota.
    destruct (mask_selects_valid_pairs (flatten (data forecast_predictor))
                (flatten (data truth)) Hlen) as (mask & E1 & E2 & E3 & E4).
    rewrite E1. simpl rbind. rewrite E4, E2, E3. simpl rbind.
    fold valid.
    destruct valid as [|p ps]; [reflexivity|].
    simpl negb. cbv iota.
    destruct (linregress (map fst (p :: ps)) (map snd (p :: ps)))
      as [[gradient intercept]|e]; reflexivity. }
  split.
  - intros Hvalid. rewrite Hguess, Hvalid. reflexivity.
  - intros points Hvalid Hd.
    exists (ols_slope points), (ols_intercept points).
    split; [|split; [|split; [|split; reflexivity]]].
    + rewrite Hguess, Hvalid.
      destruct points as [|p points];
        [exfalso; exact (points_nonempty [] Hd eq_refl)|].
      change (match map finite_pair (p :: points) with
              | [] => Ok (NaN, NaN)
              | _ => linregress (map fst (map finite_pair (p :: points)))
                                (map snd (map finite_pair (p :: points)))
              end)
        with (linregress (map fst (map finite_pair (p :: points)))
                         (map snd (map finite_pair (p :: points)))).
      rewrite !map_map.
      change (fun x => fst (finite_pair x))
        with (fun x : R * R => Fin (fst x)).
      change (fun x => snd (finite_pair x))
        with (fun x : R * R => Fin (snd x)).
      rewrite (linregress_finite (p :: points) Hd). reflexivity.
    + apply ols_is_least_squares, Hd.
    + intros slope' intercept' Hbest.
      apply least_squares_line_unique; assumption.
Qed.

Lemma ols_example :
  ols_slope [(1, 3); (2, 5)] = 2 /\ ols_intercept [(1, 3); (2, 5)] = 1.
Proof.
  unfold ols_intercept, ols_slope, Rmean, Rsum. simpl. split; field.
Qed.

Lemma compute_initial_guess_regression_witness :
  lower "mean" = "mean"
  /\ List.length (flatten (data (example_field [Fin 5; Fin 3; Fin 5])))
     = List.length (flatten (data (example_field [NaN; Fin 1; Fin 2])))
  /\ valid_pairs [NaN; Fin 1; Fin 2] [Fin 5; Fin 3; Fin 5]
     = map finite_pair [(1, 3); (2, 5)]
  /\ distinct_predictors [(1, 3); (2, 5)]
  /\ compute_initial_guess (fun _ _ => Ok []) (example_estimator "mean")
       (example_field [Fin 5; Fin 3; Fin 5])
       (example_field [NaN; Fin 1; Fin 2]) "mean" true None
     = Ok [Fin 1; Fin 1; Fin 1; Fin 2].
Proof.
  assert (Hd : distinct_predictors [(1, 3); (2, 5)]).
  { exists (1, 3), (2, 5). simpl. split; [auto|]. split; [auto|]. lra. }
  split; [reflexivity|]. split; [reflexivity|]. split; [reflexivity|].
  split; [exact Hd|].
  destruct (proj2 (compute_initial_guess_regression (fun _ _ => Ok [])
                     (example_estimator "mean")
                     (example_field [Fin 5; Fin 3; Fin 5])
                     (example_field [NaN; Fin 1; Fin 2]) "mean" None
                     eq_refl eq_refl)
                  [(1, 3); (2, 5)] eq_refl Hd)
    as (slope & intercept & Hguess & _ & _ & Hslope & Hintercept).
  rewrite Hguess, Hslope, Hintercept.
  rewrite (proj1 ols_example), (proj2 ols_example). reflexivity.
Defined.

(** ** Unit conversion *)

Lemma unit_eqb_refl u : unit_eqb u u = true.
Proof.
  unfold unit_eqb. rewrite !String.eqb_refl.
  rewrite !Reqb_true by reflexivity. reflexivity.
Qed.

Lemma unit_eqb_eq u w : unit_eqb u w = true -> u = w.
Proof.
  unfold unit_eqb. destruct u as [n1 d1 s1 o1], w as [n2 d2 s2 o2]. simpl.
  intros H. apply andb_prop in H as [H Ho]. apply andb_prop in H as [H Hs].
  apply andb_prop in H as [Hn Hd].
  apply String.eqb_eq in Hn, Hd. unfold Reqb in Hs, Ho.
  destruct (Req_dec_T s1 s2); [|discriminate].
  destruct (Req_dec_T o1 o2); [|discriminate].
  congruence.
Qed.

(** A cube that has the requested unit already is left as it is. *)
Lemma convert_units_same c u : units c = u -> convert_units c u = Ok c.
Proof. intros <-. unfold convert_units. rewrite unit_eqb_refl. reflexivity. Qed.

(** ** Computations that leave the cubes of the store alone *)

Lemma keeps_cubes_ret {A} (a : A) : keeps_cubes (ret a).
Proof. intros s r s' [= <- <-]. auto. Qed.

Lemma keeps_cubes_raise {A} (e : exn) : keeps_cubes (@raise A e).
Proof. intros s r s' [= <- <-]. auto. Qed.

Lemma keeps_cubes_lift {A} (x : result A) : keeps_cubes (lift x).
Proof. intros s r s' [= <- <-]. auto. Qed.

Lemma keeps_cubes_warn w : keeps_cubes (warn w).
Proof. intros s r s' [= <- <-]. auto. Qed.

Lemma keeps_cubes_log g : keeps_cubes (log_minimiser_call g).
Proof. intros s r s' [= <- <-]. auto. Qed.

Lemma keeps_cubes_bind {A B} (c : M A) (k : A -> M B) :
  keeps_cubes c -> (forall a, keeps_cubes (k a)) -> keeps_cubes (bind c k).
Proof.
  intros Hc Hk s r s'. unfold bind.
  destruct (c s) as [[a|e] s1] eqn:E.
  - intros H. destruct (Hc _ _ _ E) as [H1 H2].
    destruct (Hk a _ _ _ H) as [H3 H4]. split; congruence.
  - intros [= <- <-]. exact (Hc _ _ _ E).
Qed.

(** ** The coefficient estimator *)

Section EstimatorProperties.

Variable Phi : R -> R.
Variable minimize :
  (list float -> result float) -> list float -> nat -> result OptimizeResult.
Variable sm_OLS_fit_params :
  list float -> list (list float) -> result (list float).
Variable repr_floats : list float -> string.


Lemma percentage_change_keeps_cubes allvecs :
  keeps_cubes
    (calculate_percentage_change_in_last_iteration repr_floats allvecs).
Proof.
  unfold calculate_percentage_change_in_last_iteration.
  destruct (rev allvecs) as [|last [|last_but_one rest]];
    try apply keeps_cubes_raise.
  repeat first
    [ apply keeps_cubes_bind; [|intros ?]
    | apply keeps_cubes_ret
    | apply keeps_cubes_lift
    | apply keeps_cubes_warn
    | match goal with
      | |- keeps_cubes (if ?x then _ else _) => destruct x
      end ].
Qed.

Lemma estimate_with_nan_guess self current_forecast s date historic
  truth_cube initial_guess :
  reaches_initial_guess sm_OLS_fit_params self current_forecast s date
                        historic truth_cube initial_guess ->
  np_any (map isnan initial_guess) = true ->
  estimate_coefficients_for_ngr Phi minimize sm_OLS_fit_params repr_floats
    self current_forecast s
  = (Ok [(date, initial_guess)],
     mkStore historic truth_cube (warnings s) (minimiser_calls s)).
Proof.
  intros (Hc & Hd & Hh & Ht & n & fp & fv & Hp & Hv & Hg) Hnan.
  unfold estimate_coefficients_for_ngr, bind, lift,
    convert_historic_forecast, convert_truth, get_historic_forecast,
    get_truth, ret.
  rewrite Hc, Hd, Hh. cbn [historic_forecast truth warnings minimiser_calls].
  rewrite Ht. cbn [historic_forecast truth warnings minimiser_calls].
  rewrite Hp, Hv.
  unfold ESTIMATE_COEFFICIENTS_FROM_LINEAR_MODEL_FLAG. rewrite Hg, Hnan.
  reflexivity.
Qed.

(** Whatever the estimation returns, it has one entry, keyed by the
    first time point of the current forecast. *)
Lemma estimate_single_entry self current_forecast s d s' :
  estimate_coefficients_for_ngr Phi minimize sm_OLS_fit_params repr_floats
    self current_forecast s = (Ok d, s') ->
  exists v, first_date current_forecast = Ok (fst v) /\ d = [v].
Proof.
  unfold estimate_coefficients_for_ngr, bind, lift,
    convert_historic_forecast, convert_truth, get_historic_forecast,
    get_truth, ret.
  destruct (check_predictor_of_mean_flag _); [|intros [=]].
  destruct (first_date current_forecast) as [date|]; [|intros [=]].
  destruct (convert_units (historic_forecast s) _); [|intros [=]].
  cbn [historic_forecast truth warnings minimiser_calls].
  destruct (convert_units (truth s) _); [|intros [=]].
  cbn [historic_forecast truth warnings minimiser_calls].
  destruct (derive_predictor _ _) as [[n fp]|]; [|intros [=]].
  destruct (collapsed VARIANCE _); [|intros [=]].
  destruct (compute_initial_guess _ _ _ _ _ _ _) as [g|]; [|intros [=]].
  destruct (np_any (map isnan g)); cbn [negb].
  - intros [= <- <-]. exists (date, g). auto.
  - match goal with
    | |- context [crps_minimiser_wrapper ?a ?b ?c ?d ?e ?f ?g ?h ?i ?j] =>
        destruct (crps_minimiser_wrapper a b c d e f g h i j) as [[x|] s2]
    end; [|intros [=]].
    intros [= <- <-]. exists (date, x). auto.
Qed.

(** The minimiser leaves the cubes of the store alone. *)
Lemma crps_minimiser_wrapper_keeps_cubes g fp t fv flag dist :
  keeps_cubes
    (crps_minimiser_wrapper Phi minimize repr_floats g fp t fv flag dist).
Proof.
  unfold crps_minimiser_wrapper.
  repeat first
    [ apply keeps_cubes_bind; [|intros ?]
    | apply keeps_cubes_ret
    | apply keeps_cubes_raise
    | apply keeps_cubes_lift
    | apply keeps_cubes_warn
    | apply keeps_cubes_log
    | apply percentage_change_keeps_cubes
    | match goal with
      | |- keeps_cubes (match ?x with _ => _ end) => destruct x
      | |- keeps_cubes (let '(_, _) := ?x in _) => destruct x
      end ].
Qed.

(** The cubes handed to the estimation are converted in place. *)
Lemma estimate_converts_inputs self current_forecast s d s' :
  estimate_coefficients_for_ngr Phi minimize sm_OLS_fit_params repr_floats
    self current_forecast s = (Ok d, s') ->
  convert_units (historic_forecast s) (desired_units self)
    = Ok (historic_forecast s')
  /\ convert_units (truth s) (desired_units self) = Ok (truth s').
Proof.
  unfold estimate_coefficients_for_ngr, bind, lift,
    convert_historic_forecast, convert_truth, get_historic_forecast,
    get_truth, ret.
  destruct (check_predictor_of_mean_flag _); [|intros [=]].
  destruct (first_date current_forecast) as [date|]; [|intros [=]].
  destruct (convert_units (historic_forecast s) _) as [h|]; [|intros [=]].
  cbn [historic_forecast truth warnings minimiser_calls].
  destruct (convert_units (truth s) _) as [t|]; [|intros [=]].
  cbn [historic_forecast truth warnings minimiser_calls].
  destruct (derive_predictor _ _) as [[n fp]|]; [|intros [=]].
  destruct (collapsed VARIANCE _) as [fv|]; [|intros [=]].
  destruct (compute_initial_guess _ _ _ _ _ _ _) as [g|]; [|intros [=]].
  destruct (np_any (map isnan g)); cbn [negb].
  - intros [= <- <-]. auto.
  - intros H.
    match type of H with
    | context [crps_minimiser_wrapper ?a ?b ?c ?d ?e ?f ?g ?h ?i ?j] =>
        destruct (crps_minimiser_wrapper a b c d e f g h i j) as [[x|] s2]
          eqn:E
    end; [|discriminate].
    injection H as <- <-.
    destruct (crps_minimiser_wrapper_keeps_cubes _ _ _ _ _ _ _ E) as [H1 H2].
    simpl in H1, H2. rewrite H1, H2. auto.
Qed.

(** C10: when the initial guess of an estimation contains a NaN, the
    estimation returns normally, the coefficient set holds that guess
    under the date of the forecast, and the minimiser has not been
    called. *)
Theorem nan_initial_guess_skips_minimiser self current_forecast s date
  historic truth_cube initial_guess :
  reaches_initial_guess sm_OLS_fit_params self current_forecast s date
                        historic truth_cube initial_guess ->
  In NaN initial_guess ->
  fst (estimate_coefficients_for_ngr Phi minimize sm_OLS_fit_params
         repr_floats self current_forecast s)
    = Ok [(date, initial_guess)]
  /\ minimiser_calls
       (snd (estimate_coefficients_for_ngr Phi minimize sm_OLS_fit_params
               repr_floats self current_forecast s))
     = minimiser_calls s.
Proof.
  intros Hreach Hnan.
  assert (Hany : np_any (map isnan initial_guess) = true).
  { unfold np_any. apply existsb_exists. exists true. split; [|reflexivity].
    apply in_map_iff. exists NaN. auto. }
  rewrite (estimate_with_nan_guess Hreach Hany). auto.
Qed.

End EstimatorProperties.

(** The example estimation reaches the guess [1, 1, NaN, NaN]: the
    truth is missing everywhere, so the regression has no valid pair. *)
Lemma example_reaches_nan_guess (times : list Z) (t : Z) :
  reaches_initial_guess example_OLS (example_estimator "mean")
    (example_ensemble (t :: times)) example_store t
    (example_ensemble [0%Z]) (example_field [NaN])
    [Fin 1; Fin 1; NaN; NaN].
Proof.
  unfold reaches_initial_guess.
  split; [reflexivity|]. split; [reflexivity|].
  split; [apply convert_units_same; reflexivity|].
  split; [apply convert_units_same; reflexivity|].
  do 3 eexists.
  split; [reflexivity|]. split; [reflexivity|].
  reflexivity.
Qed.

Lemma nan_initial_guess_skips_minimiser_witness :
  reaches_initial_guess example_OLS (example_estimator "mean")
    (example_ensemble [0%Z]) example_store 0%Z
    (example_ensemble [0%Z]) (example_field [NaN])
    [Fin 1; Fin 1; NaN; NaN]
  /\ In NaN [Fin 1; Fin 1; NaN; NaN]
  /\ fst (estimate_coefficients_for_ngr example_Phi example_minimize
         example_OLS example_repr (example_estimator "mean")
         (example_ensemble [0%Z]) example_store)
    = Ok [(0%Z, [Fin 1; Fin 1; NaN; NaN])]
  /\ minimiser_calls
       (snd (estimate_coefficients_for_ngr example_Phi example_minimize
               example_OLS example_repr (example_estimator "mean")
               (example_ensemble [0%Z]) example_store))
     = [].
Proof.
  split; [exact (example_reaches_nan_guess [] 0)|].
  split; [simpl; auto|].
  apply (nan_initial_guess_skips_minimiser example_Phi example_minimize
           example_repr (example_reaches_nan_guess [] 0)).
  simpl. auto.
Defined.

Lemma example_two_dates_reaches_nan_guess :
  reaches_initial_guess example_OLS (example_estimator "mean")
    example_two_dates example_store 0%Z
    (example_ensemble [0%Z]) (example_field [NaN])
    [Fin 1; Fin 1; NaN; NaN].
Proof.
  destruct (example_reaches_nan_guess [] 0) as (H1 & _ & H3).
  split; [exact H1|]. split; [reflexivity | exact H3].
Qed.

(** C3: a current forecast with the two validity dates 0 and 24 gets a
    coefficient set with the single entry of date 0: so it is on the
    example store, and so it is on every store, with every estimator,
    whenever the estimation returns. *)
Theorem estimate_keeps_first_date_only :
  fst (estimate_coefficients_for_ngr example_Phi example_minimize
         example_OLS example_repr (example_estimator "mean")
         example_two_dates example_store)
    = Ok [(0%Z, [Fin 1; Fin 1; NaN; NaN])]
  /\ forall Phi minimize sm repr self s,
       match fst (estimate_coefficients_for_ngr Phi minimize sm repr self
                    example_two_dates s) with
       | Ok d => dict_keys d = [0%Z]
       | Err _ => True
       end.
Proof.
  split.
  - rewrite (estimate_with_nan_guess example_Phi example_minimize
               example_repr example_two_dates_reaches_nan_guess eq_refl).
    reflexivity.
  - intros Phi minimize sm repr self s.
    destruct (estimate_coefficients_for_ngr Phi minimize sm repr self
                example_two_dates s) as [[d|e] s'] eqn:H; [|exact I].
    destruct (estimate_single_entry _ _ _ _ _ _ _ H) as ([t v] & Ht & ->).
    simpl in Ht. injection Ht as <-. reflexivity.
Qed.

(** The example estimation in degrees Celsius converts both cubes. *)
Lemma example_reaches_nan_guess_celsius :
  reaches_initial_guess example_OLS example_estimator_celsius
    (example_ensemble [0%Z]) example_store 0%Z
    example_ensemble_celsius example_truth_celsius
    [Fin 1; Fin 1; NaN; NaN].
Proof.
  unfold reaches_initial_guess.
  split; [reflexivity|]. split; [reflexivity|].
  split; [reflexivity|]. split; [reflexivity|].
  do 3 eexists.
  split; [reflexivity|]. split; [reflexivity|].
  reflexivity.
Qed.

(** C7, as the module has it: a successful estimation leaves each of
    the historic forecast and the truth converted to the desired unit,
    in place; a cube that had the desired unit already is unchanged. *)
Theorem estimation_converts_inputs_in_place
  (Phi : R -> R)
  (minimize : (list float -> result float) -> list float -> nat ->
              result OptimizeResult)
  (sm : list float -> list (list float) -> result (list float))
  (repr : list float -> string)
  (self : Estimator) (current_forecast : Cube) (s s' : Store)
  (d : CoefficientSet) :
  estimate_coefficients_for_ngr Phi minimize sm repr self current_forecast s
    = (Ok d, s') ->
  convert_units (historic_forecast s) (desired_units self)
    = Ok (historic_forecast s')
  /\ convert_units (truth s) (desired_units self) = Ok (truth s')
  /\ (units (historic_forecast s) = desired_units self ->
      historic_forecast s' = historic_forecast s)
  /\ (units (truth s) = desired_units self -> truth s' = truth s).
Proof.
  intros H.
  destruct (estimate_converts_inputs _ _ _ _ _ _ _ H) as [Hh Ht].
  repeat split; try assumption.
  - intros Hu. rewrite (convert_units_same _ Hu) in Hh. congruence.
  - intros Hu. rewrite (convert_units_same _ Hu) in Ht. congruence.
Qed.

Lemma estimation_converts_inputs_in_place_witness :
  estimate_coefficients_for_ngr example_Phi example_minimize example_OLS
    example_repr example_estimator_celsius (example_ensemble [0%Z])
    example_store
  = (Ok [(0%Z, [Fin 1; Fin 1; NaN; NaN])],
     mkStore example_ensemble_celsius example_truth_celsius [] [])
  /\ convert_units (example_ensemble [0%Z]) celsius
     = Ok example_ensemble_celsius
  /\ convert_units (example_field [NaN]) celsius = Ok example_truth_celsius.
Proof.
  pose proof (@estimation_converts_inputs_in_place
                example_Phi example_minimize example_OLS example_repr
                example_estimator_celsius (example_ensemble [0%Z])
                example_store _ _
                (estimate_with_nan_guess example_Phi example_minimize
                   example_repr example_reaches_nan_guess_celsius eq_refl))
    as H.
  split.
  - exact (estimate_with_nan_guess example_Phi example_minimize
             example_repr example_reaches_nan_guess_celsius eq_refl).
  - split; [exact (proj1 H) | exact (proj1 (proj2 H))].
Defined.

(** C7, as it is stated, fails: an estimation in degrees Celsius on
    cubes in kelvin returns normally and leaves a historic forecast and
    a truth that differ from the ones it was handed. *)
Lemma estimation_mutates_its_inputs :
  exists d s',
    estimate_coefficients_for_ngr example_Phi example_minimize example_OLS
      example_repr example_estimator_celsius (example_ensemble [0%Z])
      example_store = (Ok d, s')
    /\ historic_forecast s' <> historic_forecast example_store
    /\ truth s' <> truth example_store.
Proof.
  do 2 eexists. split.
  - apply (estimate_with_nan_guess example_Phi example_minimize
             example_repr example_reaches_nan_guess_celsius eq_refl).
  - simpl. split; intros H; apply (f_equal units) in H;
      apply (f_equal unit_name) in H; discriminate.
Qed.

(** ** Messages *)

Lemma prefix_app (n post : string) : String.prefix n (n ++ post) = true.
Proof.
  induction n as [|c n IH]; simpl.
  - destruct post; reflexivity.
  - destruct (ascii_dec c c); [exact IH | contradiction].
Qed.

Lemma mentions_contains (haystack needle : string) :
  mentions haystack needle -> contains needle haystack = true.
Proof.
  intros (pre & post & ->).
  induction pre as [|c pre IH].
  - change ("" ++ needle ++ post) with (needle ++ post).
    pose proof (prefix_app needle post) as H.
    destruct (needle ++ post); cbn [contains]; rewrite H; reflexivity.
  - cbn [append contains]. rewrite IH. apply orb_true_r.
Qed.

(** ** Unsupported distributions *)

(** The minimiser turns down a distribution that is not in its
    dictionary with a KeyError that names it. *)
Lemma crps_minimiser_wrapper_unknown_distribution
  (Phi : R -> R)
  (minimize : (list float -> result float) -> list float -> nat ->
              result OptimizeResult)
  (repr : list float -> string)
  (initial_guess : list float) (forecast_predictor truth_cube forecast_var : Cube)
  (flag dist : string) (s : Store) :
  dist <> "gaussian" -> dist <> "truncated gaussian" ->
  exists msg,
    fst (crps_minimiser_wrapper Phi minimize repr initial_guess
           forecast_predictor truth_cube forecast_var flag dist s)
      = Err (KeyError msg)
    /\ mentions msg dist.
Proof.
  intros H1 H2.
  unfold crps_minimiser_wrapper, bind, log_minimiser_call, raise.
  cbn [dict_get minimisation_dict].
  destruct (String.eqb_spec dist "gaussian") as [->|_]; [contradiction|].
  destruct (String.eqb_spec dist "truncated gaussian") as [->|_];
    [contradiction|].
  eexists. split; [reflexivity|].
  exists "Distribution requested ". eexists. reflexivity.
Qed.

(** C2: the controller asked for the unsupported distribution "poisson"
    with a supported calibration method does not raise an error about
    the distribution: it stops on the unbound local [optimised_coeffs],
    and the message does not name the distribution. *)
Theorem process_unknown_distribution
  (Phi : R -> R)
  (minimize : (list float -> result float) -> list float -> nat ->
              result OptimizeResult)
  (sm : list float -> list (list float) -> result (list float))
  (repr : list float -> string)
  (importable : bool) (u : Unit) (current_forecast : Cube) (s : Store) :
  exists msg,
    fst (process Phi minimize sm repr importable
           (mkCalibration "ensemble model output statistics" "poisson" u
                          "mean")
           current_forecast s)
      = Err (UnboundLocalError msg)
    /\ ~ mentions msg "poisson".
Proof.
  eexists. split.
  - reflexivity.
  - intros H. apply mentions_contains in H. discriminate H.
Qed.

(** ** The coefficient applier *)

Section ApplierProperties.

Variable repr_floats : list float -> string.


Lemma np_dot_mean_rows a b flat :
  np_dot (map (fun x => [Fin 1; x]) flat) [a; b]
  = Ok (map (fun x => fadd (fadd fzero (fmul (Fin 1) a)) (fmul x b)) flat).
Proof.
  unfold np_dot.
  rewrite (@mapM_map_ok _ _ _
             (fun row => match row with
                         | [_; x] =>
                             fadd (fadd fzero (fmul (Fin 1) a)) (fmul x b)
                         | _ => NaN
                         end)).
  - rewrite map_map. reflexivity.
  - intros row Hin. apply in_map_iff in Hin as (x & <- & _). reflexivity.
Qed.

Lemma length_by_point rows n : List.length (by_point rows n) = n.
Proof. unfold by_point. rewrite length_map, length_seq. reflexivity. Qed.

Lemma collapsed_shape agg c r yl xl :
  shape (data c) = [r; yl; xl] ->
  collapsed agg c
  = Ok (with_data c
          (mkArray [yl; xl]
             (map agg (by_point (slices r (yl * xl) (items (data c)))
                                (yl * xl))))).
Proof.
  intros H. unfold collapsed, realization_slices. rewrite H. simpl.
  rewrite Nat.mul_1_r. reflexivity.
Qed.

(** What [_apply_params] computes in mean mode. *)
Lemma apply_params_mean fp fv coeffs flag t g d a b :
  lower flag = "mean" ->
  first_date fp = Ok t ->
  dict_get Z.eqb coeffs t = Some [g; d; a; b] ->
  shape (data fp) = [ylen fp; xlen fp] ->
  List.length (items (data fp)) = (ylen fp * xlen fp)%nat ->
  _apply_params repr_floats fp fv coeffs standard_names flag
  = Ok (with_data fp
          (mkArray [ylen fp; xlen fp]
             (map (fun x => fadd (fadd fzero (fmul (Fin 1) a)) (fmul x b))
                  (items (data fp)))),
        with_data fv (affine_array (fsquare g) (fsquare d) (data fv)),
        [("gamma", g); ("delta", d); ("alpha", a); ("beta", b)]).
Proof.
  intros Hflag Ht Hv Hshape Hlen. unfold _apply_params.
  rewrite Ht. simpl rbind. rewrite Hv. simpl rbind.
  rewrite Hflag.
  replace (("mean" =? "mean")%string || false) with true by reflexivity.
  cbv iota. unfold flatten. rewrite column_stack_ones_column. cbn [rbind].
  rewrite np_dot_mean_rows. cbn [rbind].
  unfold np_reshape. rewrite length_map, Hlen, Nat.eqb_refl. cbn [rbind].
  rewrite set_data_same_shape by (rewrite Hshape; reflexivity).
  cbn [rbind].
  rewrite set_data_same_shape by reflexivity.
  reflexivity.
Qed.

(** *** Dictionaries built from distinct keys *)

Lemma dict_set_fresh {V} (d : dict string V) k v :
  dict_get String.eqb d k = None ->
  dict_set String.eqb d k v = (d ++ [(k, v)])%list.
Proof.
  induction d as [|[k' v'] d IH]; simpl; [reflexivity|].
  destruct (String.eqb k k'); [discriminate|].
  intros H. rewrite (IH H). reflexivity.
Qed.

Lemma dict_get_app_fresh {V} (d : dict string V) k k' v :
  dict_get String.eqb d k = None -> k <> k' ->
  dict_get String.eqb (d ++ [(k', v)])%list k = None.
Proof.
  intros Hd Hk. induction d as [|[k1 v1] d IH]; simpl in *.
  - destruct (String.eqb_spec k k'); [contradiction | reflexivity].
  - destruct (String.eqb k k1); [discriminate | auto].
Qed.

Lemma dict_of_fresh {V} (ps : list (string * V)) :
  forall d,
    NoDup (map fst ps) ->
    (forall k, In k (map fst ps) -> dict_get String.eqb d k = None) ->
    fold_left (fun d kv => dict_set String.eqb d (fst kv) (snd kv)) ps d
    = (d ++ ps)%list.
Proof.
  induction ps as [|[k v] ps IH]; intros d Hnd Hfresh; simpl.
  - rewrite app_nil_r. reflexivity.
  - inversion Hnd as [|? ? Hnotin Hnd']; subst.
    rewrite dict_set_fresh by (apply Hfresh; simpl; auto).
    rewrite IH; [rewrite <- app_assoc; reflexivity | assumption |].
    intros k' Hin. apply dict_get_app_fresh.
    + apply Hfresh. simpl. auto.
    + intros ->. contradiction.
Qed.

Lemma str_of_Z_inj z z' : str_of_Z z = str_of_Z z' -> z = z'.
Proof.
  unfold str_of_Z. intros H.
  assert (Hn : forall w, Z.to_int w <> Decimal.Pos Decimal.Nil
                         /\ Z.to_int w <> Decimal.Neg Decimal.Nil).
  { intros [|p|p]; simpl; split; try discriminate;
      intros [= Hp]; exact (DecimalPos.Unsigned.to_uint_nonnil _ Hp). }
  apply DecimalZ.to_int_inj.
  assert (Hs : Some (Z.to_int z) = Some (Z.to_int z')).
  { rewrite <- (NilZero.isi _ (proj1 (Hn z)) (proj2 (Hn z))).
    rewrite <- (NilZero.isi _ (proj1 (Hn z')) (proj2 (Hn z'))).
    rewrite H. reflexivity. }
  congruence.
Qed.

Lemma beta_names_nodup rp : NoDup rp -> NoDup (map beta_name rp).
Proof.
  intros H. induction H as [|r rp Hnotin Hnd IH]; simpl; constructor;
    [|assumption].
  intros Hin. apply in_map_iff in Hin as (r' & Heq & Hin').
  unfold beta_name in Heq. injection Heq as Heq.
  apply str_of_Z_inj in Heq. subst. contradiction.
Qed.

Lemma map_fst_combine {A B} (l : list A) (l' : list B) :
  List.length l = List.length l' -> map fst (combine l l') = l.
Proof.
  revert l'. induction l as [|x l IH]; intros [|y l']; simpl;
    try discriminate; [reflexivity|].
  intros [= H]. rewrite (IH _ H). reflexivity.
Qed.

Lemma map_snd_combine {A B} (l : list A) (l' : list B) :
  List.length l = List.length l' -> map snd (combine l l') = l'.
Proof.
  revert l'. induction l as [|x l IH]; intros [|y l']; simpl;
    try discriminate; [reflexivity|].
  intros [= H]. rewrite (IH _ H). reflexivity.
Qed.

(** The dictionary of the coefficients of one date in realizations
    mode, and the weights read from it. *)
Lemma dict_of_coefficients rp (g d a : float) (bs : list float) :
  NoDup rp -> List.length bs = List.length rp ->
  dict_of String.eqb
    (combine ("gamma" :: "delta" :: "alpha" :: map beta_name rp)
             (g :: d :: a :: bs))
  = ([("gamma", g); ("delta", d); ("alpha", a)]
     ++ combine (map beta_name rp) bs)%list.
Proof.
  intros Hnd Hlen. unfold dict_of. simpl.
  assert (Hl : List.length (map beta_name rp) = List.length bs)
    by (rewrite length_map; auto).
  etransitivity; [apply dict_of_fresh | reflexivity].
  - rewrite (map_fst_combine _ _ Hl). apply beta_names_nodup, Hnd.
  - intros k Hin. rewrite (map_fst_combine _ _ Hl) in Hin.
    apply in_map_iff in Hin as (r & <- & _). reflexivity.
Qed.

Lemma beta_values_of_coefficients rp (g d a : float) bs :
  List.length bs = List.length rp ->
  map snd (filter (fun kv : string * float => startswith "beta" (fst kv))
             ([("gamma", g); ("delta", d); ("alpha", a)]
              ++ combine (map beta_name rp) bs)%list)
  = bs.
Proof.
  intros Hlen. simpl.
  assert (H : forall (names : list Z) (vs : list float),
             filter (fun kv : string * float => startswith "beta" (fst kv))
                    (combine (map beta_name names) vs)
             = combine (map beta_name names) vs).
  { induction names as [|r names IH]; intros [|v vs]; simpl; try reflexivity.
    rewrite IH. unfold startswith. destruct (str_of_Z r); reflexivity. }
  rewrite H. apply map_snd_combine. rewrite length_map. auto.
Qed.

Lemma column_stack_ones_rows (m : list (list float)) :
  column_stack (np_ones (List.length m)) m = Ok (map (cons (Fin 1)) m).
Proof.
  induction m as [|row m IH]; simpl; [reflexivity|].
  unfold np_ones in IH. rewrite IH. reflexivity.
Qed.

Lemma np_dot_rows a weights rows :
  Forall (fun row => List.length row = List.length weights) rows ->
  np_dot (map (cons (Fin 1)) rows) (a :: weights)
  = Ok (map (weighted_sum a weights) rows).
Proof.
  intros H. unfold np_dot.
  rewrite (@mapM_map_ok _ _ _
             (fun row => weighted_sum a weights (tl row))).
  - rewrite map_map. reflexivity.
  - intros row Hin. apply in_map_iff in Hin as (row' & <- & Hin).
    rewrite Forall_forall in H. specialize (H _ Hin).
    unfold dot_row. rewrite zip_with_same_length by (simpl; congruence).
    reflexivity.
Qed.

Lemma length_slices r n a : List.length (slices r n a) = r.
Proof.
  revert a. induction r as [|r IH]; intros a; simpl; [reflexivity|].
  rewrite IH. reflexivity.
Qed.

Lemma by_point_row_length rows n :
  Forall (fun row => List.length row = List.length rows) (by_point rows n).
Proof.
  unfold by_point. apply Forall_forall. intros row Hin.
  apply in_map_iff in Hin as (i & <- & _). apply length_map.
Qed.

(** What [_apply_params] computes in realizations mode, with the
    names of distinct realization numbers. *)
Lemma apply_params_realizations c fv coeffs flag t g d a bs r
  (numbers : list Z) :
  lower flag = "realizations" ->
  first_date c = Ok t ->
  dict_get Z.eqb coeffs t = Some (g :: d :: a :: bs) ->
  shape (data c) = [r; ylen c; xlen c] ->
  NoDup numbers ->
  List.length numbers = r ->
  List.length bs = r ->
  List.length (items (data fv)) = (ylen c * xlen c)%nat ->
  let names :=
    "gamma" :: "delta" :: "alpha" :: map beta_name numbers in
  let rows :=
    by_point (slices r (ylen c * xlen c) (items (data c)))
             (ylen c * xlen c) in
  _apply_params repr_floats c fv coeffs names flag
  = Ok (with_data c
          (mkArray [ylen c; xlen c]
                   (map (weighted_sum a (map fsquare bs)) rows)),
        with_data fv (affine_array (fsquare g) (fsquare d) (data fv)),
        _create_coefficient_cube c (g :: d :: a :: bs) names).
Proof.
  intros Hflag Ht Hv Hshape Hnd Hrp Hbs Hfv names rows.
  unfold _apply_params.
  rewrite Ht. cbn [rbind]. rewrite Hv. cbn [rbind].
  assert (Hlen : Nat.eqb (List.length (g :: d :: a :: bs))
                         (List.length names) = true).
  { subst names. simpl. rewrite length_map, Hrp, Hbs. apply Nat.eqb_refl. }
  rewrite Hlen. cbn [negb].
  rewrite Hflag.
  replace (str_in "realizations" ["mean"]) with false by reflexivity.
  replace (str_in "realizations" ["realizations"]) with true by reflexivity.
  subst names.
  rewrite dict_of_coefficients by (auto; congruence).
  rewrite beta_values_of_coefficients by congruence.
  replace (coeff _ "alpha") with (Ok a) by reflexivity.
  replace (coeff _ "gamma") with (Ok g) by reflexivity.
  replace (coeff _ "delta") with (Ok d) by reflexivity.
  cbn [rbind].
  unfold convert_cube_data_to_2d, realization_slices. rewrite Hshape.
  cbn [rbind tl shape_size fold_right]. rewrite Nat.mul_1_r. fold rows.
  unfold flatten. rewrite Hfv.
  replace (ylen c * xlen c)%nat with (List.length rows) at 1
    by (subst rows; apply length_by_point).
  rewrite column_stack_ones_rows. cbn [rbind].
  rewrite np_dot_rows.
  2:{ subst rows.
      eapply Forall_impl; [|apply by_point_row_length].
      intros row Hrow. cbv beta in Hrow.
      rewrite Hrow, length_slices, length_map. auto. }
  cbn [rbind].
  rewrite (collapsed_shape MEAN c Hshape). cbn [rbind].
  unfold np_reshape. rewrite length_map.
  replace (List.length rows) with (ylen c * xlen c)%nat
    by (subst rows; symmetry; apply length_by_point).
  rewrite Nat.eqb_refl. cbn [rbind].
  rewrite set_data_same_shape by reflexivity. cbn [rbind].
  rewrite set_data_same_shape by reflexivity.
  reflexivity.
Qed.

(** The entry point in the two modes. *)
Lemma apply_params_entry_mean c coeffs names flag r :
  lower flag = "mean" ->
  shape (data c) = [r; ylen c; xlen c] ->
  exists mean_cube var_cube,
    collapsed MEAN c = Ok mean_cube
    /\ collapsed VARIANCE c = Ok var_cube
    /\ apply_params_entry repr_floats (mkApplier c coeffs names flag)
       = _apply_params repr_floats mean_cube var_cube coeffs names flag.
Proof.
  intros Hflag Hshape.
  do 2 eexists. split; [apply (collapsed_shape MEAN c Hshape)|].
  split; [apply (collapsed_shape VARIANCE c Hshape)|].
  unfold apply_params_entry, check_predictor_of_mean_flag.
  cbn [applier_predictor_of_mean_flag applier_current_forecast
       applier_coeff_names applier_optimised_coeffs].
  rewrite Hflag.
  replace (str_in "mean" ["mean"; "realizations"]) with true by reflexivity.
  replace (str_in "mean" ["mean"]) with true by reflexivity.
  cbn [rbind].
  rewrite (collapsed_shape MEAN c Hshape). cbn [rbind].
  rewrite (collapsed_shape VARIANCE c Hshape). cbn [rbind].
  reflexivity.
Qed.





Lemma affine_non_negative g d values :
  g * g < overflow_threshold ->
  d * d < overflow_threshold ->
  non_negative_field values ->
  variance_calibrated_by g d values
    (map (fun v => fadd (fsquare (Fin g)) (fmul (fsquare (Fin d)) v)) values).
Proof.
  intros Hg Hd H. rewrite (fsquare_Fin Hg), (fsquare_Fin Hd).
  induction H as [|v values (x & -> & Hx) _ IH]; simpl;
    constructor; [|exact IH].
  exists x. split; [reflexivity|]. split; [reflexivity|]. nra.
Qed.

End ApplierProperties.






(** C6, as the module has it: for real gamma and delta and a raw
    variance field without negative values, when the squares of gamma
    and delta and gamma^2 + delta^2 * raw variance stay in the range of
    the floating-point numbers, [_apply_params] returns, in either
    mode, the variance gamma^2 + delta^2 * raw variance at every grid
    point, and none of these values is negative. *)
Theorem calibrated_variance_non_negative
  (repr : list float -> string) (fp fv : Cube) (coeffs : CoefficientSet)
  (t : datetime) (g d : R) (a : float) :
  first_date fp = Ok t ->
  non_negative_field (items (data fv)) ->
  variance_in_range g d (items (data fv)) ->
  (forall flag b,
     lower flag = "mean" ->
     dict_get Z.eqb coeffs t = Some [Fin g; Fin d; a; b] ->
     shape (data fp) = [ylen fp; xlen fp] ->
     List.length (items (data fp)) = (ylen fp * xlen fp)%nat ->
     exists pred var cc,
       _apply_params repr fp fv coeffs standard_names flag
         = Ok (pred, var, cc)
       /\ variance_calibrated_by g d (items (data fv)) (items (data var)))
  /\ (forall flag bs r,
        lower flag = "realizations" ->
        dict_get Z.eqb coeffs t = Some (Fin g :: Fin d :: a :: bs) ->
        shape (data fp) = [r; ylen fp; xlen fp] ->
        NoDup (realization_points fp) ->
        List.length (realization_points fp) = r ->
        List.length bs = r ->
        List.length (items (data fv)) = (ylen fp * xlen fp)%nat ->
        exists pred var cc,
          _apply_params repr fp fv coeffs
            ("gamma" :: "delta" :: "alpha"
             :: map beta_name (realization_points fp)) flag
            = Ok (pred, var, cc)
          /\ variance_calibrated_by g d (items (data fv))
                                    (items (data var))).
Proof.
  intros Ht Hfv (Hg & Hd & _).
  pose proof single_below_double as Hsingle.
  assert (Hg' : g * g < overflow_threshold) by lra.
  assert (Hd' : d * d < overflow_threshold) by lra.
  split.
  - intros flag b Hflag Hv Hshape Hlen.
    do 3 eexists. split.
    + apply (@apply_params_mean repr fp fv coeffs flag t
               (Fin g) (Fin d) a b); assumption.
    + apply affine_non_negative; assumption.
  - intros flag bs r Hflag Hv Hshape Hnd Hrp Hbs Hlen.
    do 3 eexists. split.
    + apply (@apply_params_realizations repr fp fv coeffs flag t
               (Fin g) (Fin d) a bs r (realization_points fp)); assumption.
    + apply affine_non_negative; assumption.
Qed.

Lemma calibrated_variance_non_negative_witness :
  first_date (example_field [Fin 1; Fin 2]) = Ok 0%Z
  /\ non_negative_field (items (data (example_field [Fin 0; Fin 3])))
  /\ variance_in_range 2 (-1) (items (data (example_field [Fin 0; Fin 3])))
  /\ exists pred var cc,
       _apply_params example_repr (example_field [Fin 1; Fin 2])
         (example_field [Fin 0; Fin 3])
         [(0%Z, [Fin 2; Fin (-1); Fin 0; Fin 1])] standard_names "mean"
         = Ok (pred, var, cc)
       /\ variance_calibrated_by 2 (-1) [Fin 0; Fin 3] (items (data var)).
Proof.
  assert (H : non_negative_field [Fin 0; Fin 3]).
  { repeat constructor; eexists; (split; [reflexivity | lra]). }
  assert (Hrange : variance_in_range 2 (-1) [Fin 0; Fin 3]).
  { pose proof single_overflow_threshold_large.
    split; [lra|]. split; [lra|].
    repeat constructor; intros x [= <-]; lra. }
  split; [reflexivity|]. split; [exact H|]. split; [exact Hrange|].
  exact (proj1 (@calibrated_variance_non_negative example_repr
                  (example_field [Fin 1; Fin 2])
                  (example_field [Fin 0; Fin 3])
                  [(0%Z, [Fin 2; Fin (-1); Fin 0; Fin 1])] 0%Z 2 (-1)
                  (Fin 0) eq_refl H Hrange)
               "mean" (Fin 1) eq_refl eq_refl eq_refl eq_refl).
Defined.

(** C6, as it is stated, fails: with delta = 2^600 the square of delta
    overflows to infinity, and at a grid point where the raw variance
    is 0 the calibrated variance is [inf * 0], which is NaN and not a
    non-negative number. *)
Lemma calibrated_variance_nan_on_overflow :
  non_negative_field (items (data (example_field [Fin 0; Fin 3])))
  /\ exists pred var cc,
       _apply_params example_repr (example_field [Fin 1; Fin 2])
         (example_field [Fin 0; Fin 3])
         [(0%Z, [Fin 0; Fin example_large_delta; Fin 0; Fin 1])]
         standard_names "mean"
       = Ok (pred, var, cc)
       /\ items (data var) = [NaN; PInf]
       /\ ~ variance_calibrated_by 0 example_large_delta [Fin 0; Fin 3]
                                   (items (data var)).
Proof.
  split.
  { repeat constructor; eexists; (split; [reflexivity | lra]). }
  assert (Hlarge : fsquare (Fin example_large_delta) = PInf).
  { unfold fsquare. rewrite Rltb_false; [reflexivity|].
    unfold example_large_delta, example_large_delta_Z, overflow_threshold,
      overflow_threshold_Z. lra. }
  do 3 eexists. split.
  { apply (@apply_params_mean example_repr (example_field [Fin 1; Fin 2])
             (example_field [Fin 0; Fin 3])
             [(0%Z, [Fin 0; Fin example_large_delta; Fin 0; Fin 1])]
             "mean" 0%Z (Fin 0) (Fin example_large_delta) (Fin 0) (Fin 1));
      reflexivity. }
  cbn [with_data data items affine_array example_field map].
  rewrite Hlarge, fsquare_zero.
  assert (Hitems : [fadd (Fin 0) (fmul PInf (Fin 0));
                    fadd (Fin 0) (fmul PInf (Fin 3))] = [NaN; PInf]).
  { simpl. unfold scale_inf. real_tests. reflexivity. }
  rewrite Hitems. split; [reflexivity|].
  intros H. inversion H as [|v w raw calibrated (x & _ & Hw & _) _].
  discriminate Hw.
Qed.

(** ** The objective functions *)

Lemma sqrt_PI_pos : 0 < sqrt PI.
Proof. apply sqrt_lt_R0, PI_RGT_0. Qed.

(** When the minimum of [mu / sigma] is not finite the Gaussian
    objective returns the sentinel; the truncated one also does when
    the minimum is below -3. *)
Lemma normal_crps_minimiser_guard (Phi : R -> R) ig p tr var sp flag
  mu sigma ratio lowest v :
  objective_mu ig p tr flag = Ok mu ->
  objective_sigma ig var = Ok sigma ->
  zip_with fdiv mu sigma = Ok ratio ->
  np_min ratio = Ok lowest ->
  isfinite lowest = false ->
  normal_crps_minimiser Phi ig p tr var sp flag = Ok v ->
  v = BAD_VALUE.
Proof.
  intros Hmu Hsigma Hratio Hmin Hfin. unfold normal_crps_minimiser.
  rewrite Hmu, Hsigma. cbn [rbind].
  repeat first
    [ rewrite Hratio; cbn [rbind]
    | rewrite Hmin; cbn [rbind]
    | match goal with
      | |- rbind ?x _ = _ -> _ =>
          destruct x; cbn [rbind]; [|discriminate]
      end ].
  rewrite Hfin. cbn [negb]. congruence.
Qed.

Lemma truncated_normal_crps_minimiser_guard (Phi : R -> R) ig p tr var sp
  flag mu sigma ratio lowest v :
  objective_mu ig p tr flag = Ok mu ->
  objective_sigma ig var = Ok sigma ->
  zip_with fdiv mu sigma = Ok ratio ->
  np_min ratio = Ok lowest ->
  isfinite lowest = false \/ flt lowest (Fin (-3)) = true ->
  truncated_normal_crps_minimiser Phi ig p tr var sp flag = Ok v ->
  v = BAD_VALUE.
Proof.
  intros Hmu Hsigma Hratio Hmin Hguard.
  unfold truncated_normal_crps_minimiser.
  rewrite Hmu, Hsigma. cbn [rbind].
  repeat first
    [ rewrite Hratio; cbn [rbind]
    | rewrite Hmin; cbn [rbind]
    | match goal with
      | |- rbind ?x _ = _ -> _ =>
          destruct x; cbn [rbind]; [|discriminate]
      end ].
  destruct Hguard as [H|H]; rewrite H; cbn [negb orb];
    rewrite ?orb_true_r; congruence.
Qed.

(** C4: with gamma = 0 and a raw variance of 0 at the first of two grid
    points, [mu / sigma] is [+inf, 1]: it is infinite at the first point,
    its minimum is finite, and the Gaussian objective returns the
    computed score, a value below 2, not the sentinel 999999. *)
Theorem normal_crps_minimiser_misses_positive_infinity (Phi : R -> R) :
  let initial_guess := [Fin 0; Fin 1; Fin 0; Fin 1] in
  let predictor := Predictor1D [Fin 1; Fin 1] in
  let truth_data := [Fin 2; Fin 1] in
  let variance := [Fin 0; Fin 1] in
  (exists mu sigma,
     objective_mu initial_guess predictor truth_data "mean" = Ok mu
     /\ objective_sigma initial_guess variance = Ok sigma
     /\ zip_with fdiv mu sigma = Ok [PInf; Fin 1]
     /\ np_min [PInf; Fin 1] = Ok (Fin 1))
  /\ exists v,
       normal_crps_minimiser Phi initial_guess predictor truth_data variance
         (Fin (sqrt PI)) "mean" = Ok (Fin v)
       /\ v < 2
       /\ Fin v <> BAD_VALUE.
Proof.
  intros initial_guess predictor truth_data variance.
  subst initial_guess predictor truth_data variance.
  assert (Hmu : objective_mu [Fin 0; Fin 1; Fin 0; Fin 1]
                  (Predictor1D [Fin 1; Fin 1]) [Fin 2; Fin 1] "mean"
                = Ok [Fin 1; Fin 1]).
  { unfold objective_mu, np_dot, dot_row, np_sum. simpl.
    repeat f_equal; ring. }
  assert (Hsigma : objective_sigma [Fin 0; Fin 1; Fin 0; Fin 1]
                     [Fin 0; Fin 1]
                   = Ok [Fin 0; Fin 1]).
  { unfold objective_sigma, index. cbn [nth_error rbind map].
    rewrite fsquare_zero, fsquare_one. simpl.
    replace (0 + 1 * 0) with 0 by ring.
    replace (0 + 1 * 1) with 1 by ring.
    real_tests. rewrite sqrt_0, sqrt_1. reflexivity. }
  assert (Hratio : zip_with fdiv [Fin 1; Fin 1] [Fin 0; Fin 1]
                   = Ok [PInf; Fin 1]).
  { simpl. unfold scale_inf. real_tests. repeat f_equal. field. }
  split.
  - exists [Fin 1; Fin 1], [Fin 0; Fin 1]. repeat split; assumption.
  - unfold normal_crps_minimiser. rewrite Hmu, Hsigma. cbn [rbind].
    rewrite Hratio. cbn [rbind np_min fold_left fmin2 flt isfinite negb].
    pose proof sqrt_PI_pos as Hpi.
    repeat (progress (cbn [zip_with map rbind fmul fadd fsub fneg fdiv
                           norm_cdf norm_pdf];
                      unfold scale_inf; real_tests)).
    unfold np_nansum, np_sum. cbn [map isnan fold_left fadd fzero].
    eexists. split; [reflexivity|].
    replace ((1 + - (1)) / 1) with 0 by field.
    replace (- (0 * 0) / 2) with 0 by field.
    rewrite exp_0.
    assert (H2 : 1 <= sqrt (2 * PI)).
    { rewrite <- sqrt_1 at 1. apply sqrt_le_1_alt. pose proof PI2_1. lra. }
    assert (Hi2 : 1 / sqrt (2 * PI) <= 1).
    { pose proof (Rinv_le_contravar 1 (sqrt (2 * PI)) Rlt_0_1 H2) as H.
      rewrite Rinv_1 in H. lra. }
    assert (Hi1 : 0 < 1 / sqrt PI).
    { unfold Rdiv. rewrite Rmult_1_l. apply Rinv_0_lt_compat, Hpi. }
    split; [lra|].
    unfold BAD_VALUE. intros [= H]. lra.
Qed.

(* ===================================================================== *)
(** * Further properties *)
(* ===================================================================== *)

Unset Implicit Arguments.

(** ** The minimiser *)

Section MinimiserProperties.

Variable Phi : R -> R.
Variable minimize :
  (list float -> result float) -> list float -> nat -> result OptimizeResult.
Variable repr_floats : list float -> string.

(** X1: a distribution that is not in the dictionary of the minimiser
    is turned down with a KeyError naming it, before the predictor mode
    is looked at and without the optimiser being run: the store only
    gains the record of the call. *)
Theorem wrapper_rejects_unknown_distribution (initial_guess : list float)
  (forecast_predictor truth_cube forecast_var : Cube) (flag dist : string)
  (s : Store) :
  dist <> "gaussian" -> dist <> "truncated gaussian" ->
  exists msg,
    crps_minimiser_wrapper Phi minimize repr_floats initial_guess
      forecast_predictor truth_cube forecast_var flag dist s
    = (Err (KeyError msg),
       mkStore (historic_forecast s) (truth s) (warnings s)
               (minimiser_calls s ++ [initial_guess]))
    /\ mentions msg dist.
Proof.
  intros H1 H2.
  unfold crps_minimiser_wrapper, bind, log_minimiser_call, raise.
  cbn [dict_get minimisation_dict].
  destruct (String.eqb_spec dist "gaussian") as [->|_]; [contradiction|].
  destruct (String.eqb_spec dist "truncated gaussian") as [->|_];
    [contradiction|].
  eexists. split; [reflexivity|].
  exists "Distribution requested ". eexists. reflexivity.
Qed.

(** The percentage change of a coefficient that moved within the
    tolerance. *)
Lemma small_change_within_tolerance (a b : float) :
  within_tolerance a b ->
  fgt (fmul (fabs (fdiv (fsub a b) b)) (Fin 100))
      TOLERATED_PERCENTAGE_CHANGE = false.
Proof.
  intros (x & y & -> & -> & Hy & Hsmall).
  unfold fgt, TOLERATED_PERCENTAGE_CHANGE.
  cbn [fsub fneg fadd fdiv]. rewrite Reqb_false by exact Hy.
  cbn [fabs fmul flt]. apply Rltb_false.
  assert (Hpos : 0 < Rabs y) by (apply Rabs_pos_lt; exact Hy).
  replace ((x + - y) / y) with ((x - y) * / y) by (unfold Rdiv; ring).
  rewrite Rabs_mult, Rabs_inv.
  assert (Hinv : 0 < / Rabs y) by (apply Rinv_0_lt_compat; exact Hpos).
  assert (Hle : Rabs (x - y) * 100 * / Rabs y <= 5 * Rabs y * / Rabs y)
    by (apply Rmult_le_compat_r; [lra | exact Hsmall]).
  replace (5 * Rabs y * / Rabs y) with 5 in Hle by (field; lra).
  lra.
Qed.

(** X2: when every coefficient of the last but one iterate is finite
    and not zero and the last iterate differs from it by at most five
    per cent in every coefficient, as it does when the optimiser has
    settled on a point, no warning about the last iteration is raised
    and nothing else changes. *)
Theorem small_change_raises_no_warning (earlier : list (list float))
  (last_but_one last : list float) (s : Store) :
  Forall2 within_tolerance last last_but_one ->
  calculate_percentage_change_in_last_iteration repr_floats
    (earlier ++ [last_but_one; last]) s
  = (Ok tt, s).
Proof.
  intros Hsmall.
  assert (Hlen : List.length last = List.length last_but_one)
    by (eapply Forall2_length; exact Hsmall).
  unfold calculate_percentage_change_in_last_iteration.
  rewrite rev_app_distr. cbn [rev app].
  unfold bind, lift.
  rewrite (zip_with_same_length fsub last last_but_one Hlen).
  rewrite zip_with_same_length by (rewrite length_map, length_combine; lia).
  assert (H : np_any
                (map (fun v => fgt v TOLERATED_PERCENTAGE_CHANGE)
                   (map (fun v => fmul (fabs v) (Fin 100))
                      (map (fun p => fdiv (fst p) (snd p))
                         (combine
                            (map (fun p => fsub (fst p) (snd p))
                                 (combine last last_but_one))
                            last_but_one))))
              = false).
  { unfold np_any. clear Hlen.
    induction Hsmall as [|a b last last_but_one Hab _ IH]; [reflexivity|].
    cbn [combine map existsb fst snd].
    rewrite (small_change_within_tolerance a b Hab). exact IH. }
  rewrite H. reflexivity.
Qed.

Lemma np_any_map {A} (f : A -> bool) (l : list A) :
  np_any (map f l) = existsb f l.
Proof.
  unfold np_any. induction l as [|a l IH]; simpl; [reflexivity|].
  rewrite IH. reflexivity.
Qed.

(** The outcome of the check of the last iteration on two iterates of
    one length: it never raises, and it warns when some coefficient
    changed by more than the tolerated percentage. *)
Lemma percentage_change_outcome (earlier : list (list float))
  (last_but_one last : list float) (s : Store) :
  List.length last = List.length last_but_one ->
  exists w,
    calculate_percentage_change_in_last_iteration repr_floats
      (earlier ++ [last_but_one; last]) s
    = (Ok tt,
       if existsb (fun v => fgt v TOLERATED_PERCENTAGE_CHANGE)
                  (percentage_changes last last_but_one)
       then mkStore (historic_forecast s) (truth s) (warnings s ++ [w])
                    (minimiser_calls s)
       else s).
Proof.
  intros Hlen.
  unfold calculate_percentage_change_in_last_iteration.
  rewrite rev_app_distr. cbn [rev app].
  unfold bind, lift.
  rewrite (zip_with_same_length fsub last last_but_one Hlen).
  rewrite zip_with_same_length by (rewrite length_map, length_combine; lia).
  assert (H : map (fun v => fmul (fabs v) (Fin 100))
                (map (fun p => fdiv (fst p) (snd p))
                   (combine
                      (map (fun p => fsub (fst p) (snd p))
                           (combine last last_but_one)) last_but_one))
              = percentage_changes last last_but_one).
  { unfold percentage_changes. clear.
    revert last_but_one.
    induction last as [|x l IH]; intros [|y l']; try reflexivity.
    cbn [combine map fst snd]. rewrite IH. reflexivity. }
  rewrite H. rewrite np_any_map.
  destruct (existsb _ (percentage_changes last last_but_one)).
  - rewrite (zip_with_same_length fsub last_but_one last (eq_sym Hlen)).
    unfold warn. eexists. reflexivity.
  - exists (mkWarning UserWarning ""). reflexivity.
Qed.

(** X3: a coefficient that was exactly zero in the last but one iterate
    and is not zero in the last one always makes the module raise its
    warning about the last iteration, as the change is infinite: the
    check returns, the warnings raised before are kept, and the warning
    of the module is among the warnings after it. *)
Theorem coefficient_leaving_zero_raises_warning
  (earlier : list (list float)) (last_but_one last : list float)
  (i : nat) (x : R) (s : Store) :
  List.length last = List.length last_but_one ->
  nth_error last_but_one i = Some (Fin 0) ->
  nth_error last i = Some (Fin x) ->
  x <> 0 ->
  exists s' w,
    calculate_percentage_change_in_last_iteration repr_floats
      (earlier ++ [last_but_one; last]) s
    = (Ok tt, s')
    /\ incl (warnings s) (warnings s')
    /\ In w (warnings s')
    /\ category w = UserWarning
    /\ mentions (warning_message w)
         "The final iteration resulted in a percentage change ".
Proof.
  intros Hlen Hprev Hlast Hx.
  unfold calculate_percentage_change_in_last_iteration.
  rewrite rev_app_distr. cbn [rev app].
  unfold bind, lift.
  rewrite (zip_with_same_length fsub last last_but_one Hlen).
  rewrite zip_with_same_length by (rewrite length_map, length_combine; lia).
  assert (H : map (fun v => fmul (fabs v) (Fin 100))
                (map (fun p => fdiv (fst p) (snd p))
                   (combine
                      (map (fun p => fsub (fst p) (snd p))
                           (combine last last_but_one)) last_but_one))
              = percentage_changes last last_but_one).
  { unfold percentage_changes. clear.
    revert last_but_one.
    induction last as [|a l IH]; intros [|b l']; try reflexivity.
    cbn [combine map fst snd]. rewrite IH. reflexivity. }
  rewrite H. rewrite np_any_map.
  replace (existsb _ (percentage_changes last last_but_one)) with true.
  - rewrite (zip_with_same_length fsub last_but_one last (eq_sym Hlen)).
    unfold warn. do 2 eexists. split; [reflexivity|].
    cbn [warnings category warning_message].
    split; [apply incl_appl, incl_refl|].
    split; [apply in_or_app; right; left; reflexivity|].
    split; [reflexivity|].
    exists newline. eexists. reflexivity.
  - symmetry. apply existsb_exists.
    exists PInf. split; [|reflexivity].
    unfold percentage_changes. apply in_map_iff.
    exists (Fin x, Fin 0). split.
    + cbn [fst snd fsub fneg fadd fdiv]. rewrite Reqb_true by reflexivity.
      unfold scale_inf. rewrite Reqb_false by lra.
      destruct (Rltb 0 (x + - 0)); simpl; unfold scale_inf;
        real_tests; reflexivity.
    + clear - Hprev Hlast. revert last_but_one i Hprev Hlast.
      induction last as [|a l IH]; intros [|b l'] [|i] Hprev Hlast;
        try discriminate.
      * simpl in *. left. congruence.
      * simpl in *. right. eapply IH; eassumption.
Qed.

(** X4: a minimisation that did not converge is not an error: in mean
    mode the minimiser records the warning and still returns the point
    the optimiser stopped at, and the call is logged once. *)
Theorem wrapper_returns_last_point_without_convergence
  (initial_guess : list float) (forecast_predictor truth_cube forecast_var : Cube)
  (flag dist : string) (f : objective) (res : OptimizeResult)
  (earlier : list (list float)) (last_but_one last : list float) (s : Store) :
  lower flag = "mean" ->
  dict_get String.eqb (minimisation_dict Phi) dist = Some f ->
  minimize (mean_objective f forecast_predictor truth_cube forecast_var flag)
           initial_guess MAX_ITERATIONS = Ok res ->
  opt_success res = false ->
  opt_allvecs res = (earlier ++ [last_but_one; last])%list ->
  List.length last = List.length last_but_one ->
  exists later,
    crps_minimiser_wrapper Phi minimize repr_floats initial_guess
      forecast_predictor truth_cube forecast_var flag dist s
    = (Ok (opt_x res),
       mkStore (historic_forecast s) (truth s)
               (warnings s
                ++ non_convergence_warning (opt_message res) :: later)
               (minimiser_calls s ++ [initial_guess])).
Proof.
  intros Hflag Hdict Hmin Hsucc Hvecs Hlen.
  unfold crps_minimiser_wrapper, bind, log_minimiser_call, lift, ret.
  rewrite Hdict. unfold check_predictor_of_mean_flag. rewrite Hflag.
  replace (str_in "mean" ["mean"; "realizations"]) with true by reflexivity.
  replace (str_in "mean" ["mean"]) with true by reflexivity.
  cbv iota beta.
  change (minimize _ initial_guess MAX_ITERATIONS)
    with (minimize (mean_objective f forecast_predictor truth_cube
                                   forecast_var flag)
                   initial_guess MAX_ITERATIONS).
  rewrite Hmin, Hsucc. cbn [negb]. unfold warn at 1.
  cbn [historic_forecast truth warnings minimiser_calls].
  rewrite Hvecs.
  match goal with
  | |- context [calculate_percentage_change_in_last_iteration _ _ ?st] =>
      destruct (percentage_change_outcome earlier last_but_one last st Hlen)
        as (w & Hout)
  end.
  rewrite Hout.
  destruct (existsb _ (percentage_changes last last_but_one)).
  - exists [w]. cbn [historic_forecast truth warnings minimiser_calls].
    rewrite <- app_assoc. reflexivity.
  - exists []. reflexivity.
Qed.

End MinimiserProperties.

(** ** The objective functions on whole grids *)

Lemma combine_nth_error_In {A B} (a : list A) (b : list B) i x y :
  nth_error a i = Some x -> nth_error b i = Some y -> In (x, y) (combine a b).
Proof.
  revert b i. induction a as [|x' a IH]; intros [|y' b] [|i] Ha Hb;
    try discriminate; simpl in *.
  - left. congruence.
  - right. eapply IH; eassumption.
Qed.

(** Solve the side conditions on the lengths of zipped arrays. *)
Ltac same_length :=
  repeat rewrite ?length_map, ?length_combine; lia.

(** With arrays on one grid the Gaussian objective does not raise: it
    returns the sentinel or the score, as the minimum of [mu / sigma]
    decides. *)
Lemma normal_crps_minimiser_total (Phi : R -> R) ig p tr var sp flag
  mu sigma lowest :
  objective_mu ig p tr flag = Ok mu ->
  objective_sigma ig var = Ok sigma ->
  List.length tr = List.length mu ->
  List.length sigma = List.length mu ->
  np_min (map (fun q => fdiv (fst q) (snd q)) (combine mu sigma))
    = Ok lowest ->
  exists score,
    normal_crps_minimiser Phi ig p tr var sp flag
    = Ok (if negb (isfinite lowest) then BAD_VALUE else score).
Proof.
  intros Hmu Hsigma Htr Hlen Hmin. unfold normal_crps_minimiser.
  rewrite Hmu, Hsigma. cbn [rbind].
  rewrite (zip_with_same_length fsub tr mu Htr). cbn [rbind].
  rewrite zip_with_same_length by same_length. cbn [rbind].
  rewrite zip_with_same_length by same_length. cbn [rbind].
  rewrite zip_with_same_length by same_length. cbn [rbind].
  rewrite zip_with_same_length by same_length. cbn [rbind].
  rewrite (zip_with_same_length fdiv mu sigma (eq_sym Hlen)). cbn [rbind].
  rewrite Hmin. cbn [rbind].
  eexists. destruct (negb (isfinite lowest)); reflexivity.
Qed.

Lemma truncated_normal_crps_minimiser_total (Phi : R -> R) ig p tr var sp
  flag mu sigma lowest :
  objective_mu ig p tr flag = Ok mu ->
  objective_sigma ig var = Ok sigma ->
  List.length tr = List.length mu ->
  List.length sigma = List.length mu ->
  np_min (map (fun q => fdiv (fst q) (snd q)) (combine mu sigma))
    = Ok lowest ->
  exists score,
    truncated_normal_crps_minimiser Phi ig p tr var sp flag
    = Ok (if negb (isfinite lowest) || flt lowest (Fin (-3))
          then BAD_VALUE else score).
Proof.
  intros Hmu Hsigma Htr Hlen Hmin. unfold truncated_normal_crps_minimiser.
  rewrite Hmu, Hsigma. cbn [rbind].
  rewrite (zip_with_same_length fsub tr mu Htr). cbn [rbind].
  rewrite zip_with_same_length by same_length. cbn [rbind].
  rewrite (zip_with_same_length fdiv mu sigma (eq_sym Hlen)). cbn [rbind].
  repeat (rewrite zip_with_same_length by same_length; cbn [rbind]).
  rewrite Hmin. cbn [rbind].
  eexists.
  destruct (negb (isfinite lowest) || flt lowest (Fin (-3))); reflexivity.
Qed.

(** [np.min] keeps a NaN or a minus infinity that it meets. *)
Lemma fmin2_low_l a y :
  nan_or_minus_infinity a -> nan_or_minus_infinity (fmin2 a y).
Proof.
  intros [->| ->]; [left; reflexivity|].
  destruct y; simpl; unfold nan_or_minus_infinity; auto.
Qed.

Lemma fmin2_low_r a y :
  nan_or_minus_infinity y -> nan_or_minus_infinity (fmin2 a y).
Proof.
  intros [->| ->]; destruct a; simpl; unfold nan_or_minus_infinity; auto.
Qed.

Lemma fold_fmin2_low l acc :
  nan_or_minus_infinity acc \/ (exists x, In x l /\ nan_or_minus_infinity x) ->
  nan_or_minus_infinity (fold_left fmin2 l acc).
Proof.
  revert acc. induction l as [|y l IH]; intros acc [H|(x & Hin & Hx)]; simpl.
  - exact H.
  - contradiction.
  - apply IH. left. apply fmin2_low_l, H.
  - destruct Hin as [->|Hin].
    + apply IH. left. apply fmin2_low_r, Hx.
    + apply IH. right. exists x. auto.
Qed.

Lemma np_min_low l x :
  In x l -> nan_or_minus_infinity x ->
  exists lowest, np_min l = Ok lowest /\ isfinite lowest = false.
Proof.
  intros Hin Hx. destruct l as [|a l]; [contradiction|].
  simpl. eexists. split; [reflexivity|].
  assert (H : nan_or_minus_infinity (fold_left fmin2 l a)).
  { apply fold_fmin2_low. destruct Hin as [->|Hin]; [left; exact Hx|].
    right. exists x. auto. }
  destruct H as [->| ->]; reflexivity.
Qed.

(** [np.min] goes below a bound as soon as one entry does, unless it
    is NaN. *)
Lemma flt_trans x y c :
  flt x y = true -> flt y (Fin c) = true -> flt x (Fin c) = true.
Proof.
  destruct x as [a| | |], y as [b| | |]; simpl; try discriminate; auto.
  unfold Rltb. destruct (Rlt_dec a b), (Rlt_dec b c); try discriminate.
  intros _ _. destruct (Rlt_dec a c); [reflexivity | lra].
Qed.

(** Settle goals that compare reals through [Rltb]. *)
Ltac real_cases :=
  unfold Rltb in *;
  repeat match goal with
  | H : context [Rlt_dec ?a ?b] |- _ => destruct (Rlt_dec a b)
  | |- context [Rlt_dec ?a ?b] => destruct (Rlt_dec a b)
  end;
  try discriminate; try reflexivity; auto; try lra.

Lemma fmin2_below_l c a y :
  a = NaN \/ flt a (Fin c) = true ->
  fmin2 a y = NaN \/ flt (fmin2 a y) (Fin c) = true.
Proof.
  intros [->|Ha]; [left; reflexivity|].
  destruct a as [a| | |], y as [b| | |]; simpl in *; try discriminate; auto;
    right; try exact Ha.
  all: destruct (Rltb b a) eqn:E; simpl; real_cases.
Qed.

Lemma fmin2_below_r c a y :
  y = NaN \/ flt y (Fin c) = true ->
  fmin2 a y = NaN \/ flt (fmin2 a y) (Fin c) = true.
Proof.
  intros [->|Hy]; [left; destruct a; reflexivity|].
  destruct a as [a| | |], y as [b| | |]; simpl in *; try discriminate; auto;
    right; try exact Hy.
  all: destruct (Rltb b a) eqn:E; simpl; real_cases.
Qed.

Lemma fold_fmin2_below c l acc :
  (acc = NaN \/ flt acc (Fin c) = true)
  \/ (exists x, In x l /\ (x = NaN \/ flt x (Fin c) = true)) ->
  fold_left fmin2 l acc = NaN \/ flt (fold_left fmin2 l acc) (Fin c) = true.
Proof.
  revert acc. induction l as [|y l IH]; intros acc [H|(x & Hin & Hx)]; simpl.
  - exact H.
  - contradiction.
  - apply IH. left. apply fmin2_below_l, H.
  - destruct Hin as [->|Hin].
    + apply IH. left. apply fmin2_below_r, Hx.
    + apply IH. right. exists x. auto.
Qed.

Lemma np_min_below c l x :
  In x l -> flt x (Fin c) = true ->
  exists lowest,
    np_min l = Ok lowest
    /\ negb (isfinite lowest) || flt lowest (Fin c) = true.
Proof.
  intros Hin Hx. destruct l as [|a l]; [contradiction|].
  simpl. eexists. split; [reflexivity|].
  assert (H : fold_left fmin2 l a = NaN
              \/ flt (fold_left fmin2 l a) (Fin c) = true).
  { apply fold_fmin2_below. destruct Hin as [->|Hin]; [left; auto|].
    right. exists x. auto. }
  destruct H as [-> | ->]; [reflexivity | apply orb_true_r].
Qed.

(** X5: when [mu / sigma] is NaN or minus infinity at some grid point,
    both objective functions return the sentinel, on every grid where
    the arrays have one length. *)
Theorem nan_or_minus_infinity_gives_sentinel (Phi : R -> R)
  (initial_guess : list float) (forecast_predictor : predictor_data)
  (truth_data forecast_var : list float) (sqrt_pi : float) (flag : string)
  (mu sigma : list float) (i : nat) (m sd : float) :
  objective_mu initial_guess forecast_predictor truth_data flag = Ok mu ->
  objective_sigma initial_guess forecast_var = Ok sigma ->
  List.length truth_data = List.length mu ->
  List.length sigma = List.length mu ->
  nth_error mu i = Some m ->
  nth_error sigma i = Some sd ->
  nan_or_minus_infinity (fdiv m sd) ->
  normal_crps_minimiser Phi initial_guess forecast_predictor truth_data
    forecast_var sqrt_pi flag = Ok BAD_VALUE
  /\ truncated_normal_crps_minimiser Phi initial_guess forecast_predictor
       truth_data forecast_var sqrt_pi flag = Ok BAD_VALUE.
Proof.
  intros Hmu Hsigma Htr Hlen Hm Hsd Hlow.
  assert (Hin : In (fdiv m sd)
                   (map (fun q => fdiv (fst q) (snd q)) (combine mu sigma))).
  { apply in_map_iff. exists (m, sd). split; [reflexivity|].
    eapply combine_nth_error_In; eassumption. }
  destruct (np_min_low _ _ Hin Hlow) as (lowest & Hmin & Hfin).
  destruct (normal_crps_minimiser_total Phi initial_guess forecast_predictor
              truth_data forecast_var sqrt_pi flag _ _ _
              Hmu Hsigma Htr Hlen Hmin) as (s1 & H1).
  destruct (truncated_normal_crps_minimiser_total Phi initial_guess
              forecast_predictor truth_data forecast_var sqrt_pi flag _ _ _
              Hmu Hsigma Htr Hlen Hmin) as (s2 & H2).
  rewrite H1, H2, Hfin. split; reflexivity.
Qed.

(** X6: when [mu / sigma] is below -3 at some grid point, the truncated
    objective returns the sentinel, on every grid where the arrays have
    one length. *)
Theorem below_threshold_gives_sentinel (Phi : R -> R)
  (initial_guess : list float) (forecast_predictor : predictor_data)
  (truth_data forecast_var : list float) (sqrt_pi : float) (flag : string)
  (mu sigma : list float) (i : nat) (m sd : float) :
  objective_mu initial_guess forecast_predictor truth_data flag = Ok mu ->
  objective_sigma initial_guess forecast_var = Ok sigma ->
  List.length truth_data = List.length mu ->
  List.length sigma = List.length mu ->
  nth_error mu i = Some m ->
  nth_error sigma i = Some sd ->
  flt (fdiv m sd) (Fin (-3)) = true ->
  truncated_normal_crps_minimiser Phi initial_guess forecast_predictor
    truth_data forecast_var sqrt_pi flag = Ok BAD_VALUE.
Proof.
  intros Hmu Hsigma Htr Hlen Hm Hsd Hlow.
  assert (Hin : In (fdiv m sd)
                   (map (fun q => fdiv (fst q) (snd q)) (combine mu sigma))).
  { apply in_map_iff. exists (m, sd). split; [reflexivity|].
    eapply combine_nth_error_In; eassumption. }
  destruct (np_min_below _ _ _ Hin Hlow) as (lowest & Hmin & Hguard).
  destruct (truncated_normal_crps_minimiser_total Phi initial_guess
              forecast_predictor truth_data forecast_var sqrt_pi flag _ _ _
              Hmu Hsigma Htr Hlen Hmin) as (s2 & H2).
  rewrite H2, Hguard. reflexivity.
Qed.

(** ** Symmetries of the objective functions *)

Lemma fsquare_fneg x : fsquare (fneg x) = fsquare x.
Proof.
  destruct x as [r| | |]; simpl; try reflexivity.
  replace (- r * - r) with (r * r) by ring. reflexivity.
Qed.

Lemma objective_sigma_even g d rest var :
  objective_sigma (fneg g :: fneg d :: rest) var
  = objective_sigma (g :: d :: rest) var.
Proof.
  unfold objective_sigma. simpl. rewrite !fsquare_fneg. reflexivity.
Qed.

Lemma objective_mu_tail g d g' d' rest p tr flag :
  objective_mu (g' :: d' :: rest) p tr flag
  = objective_mu (g :: d :: rest) p tr flag.
Proof. reflexivity. Qed.

(** X7: the two objective functions are even in gamma and in delta:
    changing the sign of both first coefficients changes nothing,
    whatever the arrays are. *)
Theorem objectives_even_in_gamma_delta (Phi : R -> R) (g d : float)
  (rest : list float) (forecast_predictor : predictor_data)
  (truth_data forecast_var : list float) (sqrt_pi : float) (flag : string) :
  normal_crps_minimiser Phi (fneg g :: fneg d :: rest) forecast_predictor
    truth_data forecast_var sqrt_pi flag
  = normal_crps_minimiser Phi (g :: d :: rest) forecast_predictor
      truth_data forecast_var sqrt_pi flag
  /\ truncated_normal_crps_minimiser Phi (fneg g :: fneg d :: rest)
       forecast_predictor truth_data forecast_var sqrt_pi flag
     = truncated_normal_crps_minimiser Phi (g :: d :: rest)
         forecast_predictor truth_data forecast_var sqrt_pi flag.
Proof.
  unfold normal_crps_minimiser, truncated_normal_crps_minimiser.
  rewrite objective_sigma_even.
  rewrite (objective_mu_tail g d (fneg g) (fneg d)).
  split; reflexivity.
Qed.

Lemma objective_mu_even_in_beta g d a bs p tr flag :
  lower flag = "realizations" ->
  objective_mu (g :: d :: a :: map fneg bs) p tr flag
  = objective_mu (g :: d :: a :: bs) p tr flag.
Proof.
  intros Hflag. unfold objective_mu, objective_beta. rewrite Hflag.
  replace (str_in "realizations" ["mean"]) with false by reflexivity.
  replace (str_in "realizations" ["realizations"]) with true by reflexivity.
  cbn [index nth_error skipn rbind]. rewrite map_map.
  rewrite (map_ext _ fsquare fsquare_fneg). reflexivity.
Qed.

(** X8: in realizations mode the two objective functions are even in
    every beta: the weights enter squared, so their signs are free. *)
Theorem objectives_even_in_betas (Phi : R -> R) (g d a : float)
  (bs : list float) (forecast_predictor : predictor_data)
  (truth_data forecast_var : list float) (sqrt_pi : float) (flag : string) :
  lower flag = "realizations" ->
  normal_crps_minimiser Phi (g :: d :: a :: map fneg bs) forecast_predictor
    truth_data forecast_var sqrt_pi flag
  = normal_crps_minimiser Phi (g :: d :: a :: bs) forecast_predictor
      truth_data forecast_var sqrt_pi flag
  /\ truncated_normal_crps_minimiser Phi (g :: d :: a :: map fneg bs)
       forecast_predictor truth_data forecast_var sqrt_pi flag
     = truncated_normal_crps_minimiser Phi (g :: d :: a :: bs)
         forecast_predictor truth_data forecast_var sqrt_pi flag.
Proof.
  intros Hflag.
  unfold normal_crps_minimiser, truncated_normal_crps_minimiser.
  rewrite (objective_mu_even_in_beta g d a bs forecast_predictor truth_data
             flag Hflag).
  split; reflexivity.
Qed.

Lemma objectives_even_in_betas_witness :
  lower "realizations" = "realizations"
  /\ normal_crps_minimiser example_Phi
       [Fin 1; Fin 1; Fin 0; fneg (Fin 1); fneg (Fin 2)]
       (Predictor2D [[Fin 1; Fin 3]]) [Fin 2] [Fin 2] (Fin (sqrt PI))
       "realizations"
     = normal_crps_minimiser example_Phi
         [Fin 1; Fin 1; Fin 0; Fin 1; Fin 2]
         (Predictor2D [[Fin 1; Fin 3]]) [Fin 2] [Fin 2] (Fin (sqrt PI))
         "realizations".
Proof.
  split; [reflexivity|].
  exact (proj1 (objectives_even_in_betas example_Phi (Fin 1) (Fin 1) (Fin 0)
                  [Fin 1; Fin 2] (Predictor2D [[Fin 1; Fin 3]]) [Fin 2]
                  [Fin 2] (Fin (sqrt PI)) "realizations" eq_refl)).
Defined.

(** X9: on a grid without points the two objective functions raise a
    ValueError, as the minimum of an empty array has no value. *)
Theorem objectives_raise_on_empty_grid (Phi : R -> R) (g d : float)
  (rest beta : list float) (sqrt_pi : float) (flag : string) :
  objective_beta (g :: d :: rest) flag = Ok beta ->
  (exists msg,
     normal_crps_minimiser Phi (g :: d :: rest) (Predictor1D []) [] []
       sqrt_pi flag = Err (ValueError msg))
  /\ (exists msg,
        truncated_normal_crps_minimiser Phi (g :: d :: rest)
          (Predictor1D []) [] [] sqrt_pi flag = Err (ValueError msg)).
Proof.
  intros Hbeta.
  unfold normal_crps_minimiser, truncated_normal_crps_minimiser,
    objective_mu.
  rewrite Hbeta. split; eexists; reflexivity.
Qed.

Lemma objectives_raise_on_empty_grid_witness :
  objective_beta [Fin 1; Fin 1; Fin 0; Fin 1] "mean" = Ok [Fin 0; Fin 1]
  /\ exists msg,
       normal_crps_minimiser example_Phi [Fin 1; Fin 1; Fin 0; Fin 1]
         (Predictor1D []) [] [] (Fin (sqrt PI)) "mean"
       = Err (ValueError msg).
Proof.
  split; [reflexivity|].
  exact (proj1 (objectives_raise_on_empty_grid example_Phi (Fin 1) (Fin 1)
                  [Fin 0; Fin 1] [Fin 0; Fin 1] (Fin (sqrt PI)) "mean"
                  eq_refl)).
Defined.

(** ** The applier and the objective functions together *)

Section ApplierFurther.

Variable repr_floats : list float -> string.

(** X10: in mean mode the applier returns what the objective functions
    evaluate: the calibrated predictor is their [mu] and the calibrated
    variance is the square their [sigma] is the root of, for the same
    coefficients and fields. *)
Theorem applier_returns_objective_mu_and_variance
  (fp fv : Cube) (coeffs : CoefficientSet) (flag : string) (t : datetime)
  (g d a b : float) (truth_data : list float) :
  lower flag = "mean" ->
  first_date fp = Ok t ->
  dict_get Z.eqb coeffs t = Some [g; d; a; b] ->
  shape (data fp) = [ylen fp; xlen fp] ->
  List.length (items (data fp)) = (ylen fp * xlen fp)%nat ->
  List.length truth_data = List.length (items (data fp)) ->
  exists pred var cc,
    _apply_params repr_floats fp fv coeffs standard_names flag
      = Ok (pred, var, cc)
    /\ objective_mu [g; d; a; b] (Predictor1D (flatten (data fp)))
         truth_data flag
       = Ok (items (data pred))
    /\ objective_sigma [g; d; a; b] (flatten (data fv))
       = Ok (map fsqrt (items (data var))).
Proof.
  intros Hflag Ht Hv Hshape Hlen Htruth.
  do 3 eexists. split; [|split].
  - apply (@apply_params_mean repr_floats fp fv coeffs flag t g d a b);
      assumption.
  - unfold objective_mu, objective_beta. rewrite Hflag.
    replace (str_in "mean" ["mean"]) with true by reflexivity.
    cbn [skipn rbind predictor_columns]. unfold flatten.
    rewrite Htruth, column_stack_ones_column. cbn [rbind].
    rewrite np_dot_mean_rows. reflexivity.
  - unfold objective_sigma, flatten. cbn [index nth_error rbind].
    cbn [with_data data affine_array items]. rewrite map_map. reflexivity.
Qed.

Lemma Forall2_map_r_pointwise {A B} (P : A -> B -> Prop) (f : A -> B) l :
  (forall x, P x (f x)) -> Forall2 P l (map f l).
Proof.
  intros H. induction l as [|x l IH]; simpl; constructor; auto.
Qed.

Lemma linear_point (a b : R) (x : float) :
  linear_in_predictor a b x
    (fadd (fadd fzero (fmul (Fin 1) (Fin a))) (fmul x (Fin b))).
Proof.
  destruct x as [r| | |]; simpl; auto. f_equal. ring.
Qed.

(** X11: in mean mode with real alpha and beta the calibrated predictor
    is alpha + beta * raw predictor at every grid point with a finite
    forecast, and NaN where the forecast is NaN. *)
Theorem calibrated_predictor_is_linear
  (fp fv : Cube) (coeffs : CoefficientSet) (flag : string) (t : datetime)
  (g d : float) (a b : R) :
  lower flag = "mean" ->
  first_date fp = Ok t ->
  dict_get Z.eqb coeffs t = Some [g; d; Fin a; Fin b] ->
  shape (data fp) = [ylen fp; xlen fp] ->
  List.length (items (data fp)) = (ylen fp * xlen fp)%nat ->
  exists pred var cc,
    _apply_params repr_floats fp fv coeffs standard_names flag
      = Ok (pred, var, cc)
    /\ shape (data pred) = [ylen fp; xlen fp]
    /\ Forall2 (linear_in_predictor a b) (items (data fp))
               (items (data pred)).
Proof.
  intros Hflag Ht Hv Hshape Hlen.
  do 3 eexists. split; [|split].
  - apply (@apply_params_mean repr_floats fp fv coeffs flag t g d
             (Fin a) (Fin b)); assumption.
  - reflexivity.
  - cbn [with_data data items].
    apply Forall2_map_r_pointwise. intros x. apply linear_point.
Qed.

(** X12: the calibrated fields do not depend on the signs of gamma and
    delta, nor, in realizations mode, on the signs of the betas. *)
Theorem calibration_ignores_signs
  (fp fv : Cube) (coeffs coeffs' : CoefficientSet) (t : datetime)
  (g d a : float) :
  first_date fp = Ok t ->
  (forall flag b,
     lower flag = "mean" ->
     dict_get Z.eqb coeffs t = Some [g; d; a; b] ->
     dict_get Z.eqb coeffs' t = Some [fneg g; fneg d; a; b] ->
     shape (data fp) = [ylen fp; xlen fp] ->
     List.length (items (data fp)) = (ylen fp * xlen fp)%nat ->
     exists pred var cc cc',
       _apply_params repr_floats fp fv coeffs standard_names flag
         = Ok (pred, var, cc)
       /\ _apply_params repr_floats fp fv coeffs' standard_names flag
          = Ok (pred, var, cc'))
  /\ (forall flag bs r,
        lower flag = "realizations" ->
        dict_get Z.eqb coeffs t = Some (g :: d :: a :: bs) ->
        dict_get Z.eqb coeffs' t
          = Some (fneg g :: fneg d :: a :: map fneg bs) ->
        shape (data fp) = [r; ylen fp; xlen fp] ->
        NoDup (realization_points fp) ->
        List.length (realization_points fp) = r ->
        List.length bs = r ->
        List.length (items (data fv)) = (ylen fp * xlen fp)%nat ->
        exists pred var cc cc',
          _apply_params repr_floats fp fv coeffs
            ("gamma" :: "delta" :: "alpha"
             :: map beta_name (realization_points fp)) flag
            = Ok (pred, var, cc)
          /\ _apply_params repr_floats fp fv coeffs'
               ("gamma" :: "delta" :: "alpha"
                :: map beta_name (realization_points fp)) flag
             = Ok (pred, var, cc')).
Proof.
  intros Ht. split.
  - intros flag b Hflag Hv Hv' Hshape Hlen.
    do 4 eexists. split.
    + apply (@apply_params_mean repr_floats fp fv coeffs flag t g d a b);
        assumption.
    + rewrite (@apply_params_mean repr_floats fp fv coeffs' flag t
                 (fneg g) (fneg d) a b); try assumption.
      rewrite !fsquare_fneg. reflexivity.
  - intros flag bs r Hflag Hv Hv' Hshape Hnd Hrp Hbs Hlen.
    do 4 eexists. split.
    + apply (@apply_params_realizations repr_floats fp fv coeffs flag t
               g d a bs r (realization_points fp)); assumption.
    + rewrite (@apply_params_realizations repr_floats fp fv coeffs' flag t
                 (fneg g) (fneg d) a (map fneg bs) r
                 (realization_points fp)); try assumption;
        [|rewrite length_map; assumption].
      rewrite !fsquare_fneg. rewrite map_map.
      rewrite (map_ext _ fsquare fsquare_fneg). reflexivity.
Qed.

(** X13: when the coefficient set has no entry for the first time point
    of the forecast, the applier raises a KeyError, in [_apply_params]
    and from the entry point in mean mode. *)
Theorem missing_date_is_a_key_error
  (fp fv current_forecast : Cube) (coeffs : CoefficientSet)
  (names : list string) (flag mean_flag : string) (t : datetime) (r : nat) :
  dict_get Z.eqb coeffs t = None ->
  (first_date fp = Ok t ->
   exists msg,
     _apply_params repr_floats fp fv coeffs names flag = Err (KeyError msg))
  /\ (first_date current_forecast = Ok t ->
      lower mean_flag = "mean" ->
      shape (data current_forecast)
        = [r; ylen current_forecast; xlen current_forecast] ->
      exists msg,
        apply_params_entry repr_floats
          (mkApplier current_forecast coeffs names mean_flag)
        = Err (KeyError msg)).
Proof.
  intros Hnone.
  assert (H : forall c v, first_date c = Ok t ->
            exists msg,
              _apply_params repr_floats c v coeffs names mean_flag
              = Err (KeyError msg)
              /\ _apply_params repr_floats c v coeffs names flag
                 = Err (KeyError msg)).
  { intros c v Ht. unfold _apply_params. rewrite Ht. cbn [rbind].
    rewrite Hnone. eexists. split; reflexivity. }
  split.
  - intros Ht. destruct (H fp fv Ht) as (msg & _ & Hm).
    exists msg. exact Hm.
  - intros Ht Hflag Hshape.
    destruct (@apply_params_entry_mean repr_floats current_forecast coeffs
                names mean_flag r Hflag Hshape) as (m & vc & Hm & _ & ->).
    rewrite (collapsed_shape MEAN _ Hshape) in Hm. injection Hm as <-.
    match goal with
    | |- exists msg, _apply_params _ ?c _ _ _ _ = _ =>
        destruct (H c vc Ht) as (msg & Hmsg & _)
    end.
    exists msg. exact Hmsg.
Qed.

Lemma np_reshape_inv a yl xl arr :
  np_reshape a yl xl = Ok arr ->
  arr = mkArray [yl; xl] a /\ List.length a = (yl * xl)%nat.
Proof.
  unfold np_reshape. destruct (Nat.eqb_spec (List.length a) (yl * xl));
    [|discriminate].
  intros [= <-]. auto.
Qed.

Lemma set_data_inv c a c' :
  set_data c a = Ok c' -> c' = with_data c a /\ shape (data c) = shape a.
Proof.
  unfold set_data, shape_eqb.
  destruct (list_eq_dec Nat.eq_dec (shape (data c)) (shape a));
    [|discriminate].
  intros [= <-]. auto.
Qed.

(** X14: whenever [_apply_params] returns, the calibrated predictor is
    laid out on the (y, x) grid of the forecast, the calibrated
    variance keeps the shape of the raw variance, and the coefficient
    record lists the coefficient names with the coefficients of the
    date, in their order. *)
Theorem apply_params_result_layout
  (fp fv : Cube) (coeffs : CoefficientSet) (names : list string)
  (flag : string) (pred var : Cube) (cc : list coefficient_cube) :
  _apply_params repr_floats fp fv coeffs names flag = Ok (pred, var, cc) ->
  shape (data pred) = [ylen fp; xlen fp]
  /\ List.length (items (data pred)) = (ylen fp * xlen fp)%nat
  /\ shape (data var) = shape (data fv)
  /\ List.length (items (data var)) = List.length (items (data fv))
  /\ exists t v,
       first_date fp = Ok t
       /\ dict_get Z.eqb coeffs t = Some v
       /\ map fst cc = names
       /\ map snd cc = v.
Proof.
  unfold _apply_params.
  destruct (first_date fp) as [t|]; cbn [rbind]; [|discriminate].
  destruct (dict_get Z.eqb coeffs t) as [v|] eqn:Hv; cbn [rbind];
    [|discriminate].
  destruct (Nat.eqb_spec (List.length v) (List.length names)) as [Hlen|];
    cbn [negb]; [|discriminate].
  match goal with
  | |- rbind ?x _ = _ -> _ =>
      destruct x as [[pm cfp]|]; cbn [rbind]; [|discriminate]
  end.
  destruct (np_reshape pm (ylen fp) (xlen fp)) as [arr|] eqn:Er;
    cbn [rbind]; [|discriminate].
  destruct (set_data cfp arr) as [p|] eqn:Ep; cbn [rbind]; [|discriminate].
  destruct (coeff _ "gamma") as [g|]; cbn [rbind]; [|discriminate].
  destruct (coeff _ "delta") as [d|]; cbn [rbind]; [|discriminate].
  destruct (set_data fv _) as [vc|] eqn:Ev; cbn [rbind]; [|discriminate].
  intros [= <- <- <-].
  apply np_reshape_inv in Er as [-> Hpm].
  apply set_data_inv in Ep as [-> _].
  apply set_data_inv in Ev as [-> _].
  cbn [with_data data shape items affine_array].
  repeat split; try assumption.
  - apply length_map.
  - exists t, v. split; [reflexivity|]. split; [exact Hv|].
    unfold _create_coefficient_cube. rewrite !map_map. cbn [fst snd].
    split; [apply map_snd_combine, Hlen | apply map_fst_combine, Hlen].
Qed.

End ApplierFurther.

(** ** The estimator and the store *)

Lemma convert_units_units c u c' :
  convert_units c u = Ok c' -> units c' = u.
Proof.
  unfold convert_units. destruct (unit_eqb (units c) u) eqn:E.
  - intros [= <-]. apply unit_eqb_eq, E.
  - destruct (is_convertible (units c) u); [|discriminate].
    intros [= <-]. reflexivity.
Qed.

Lemma keeps_calls_ret {A} (a : A) : keeps_calls (ret a).
Proof. intros s r s' [= <- <-]. reflexivity. Qed.

Lemma keeps_calls_raise {A} (e : exn) : keeps_calls (@raise A e).
Proof. intros s r s' [= <- <-]. reflexivity. Qed.

Lemma keeps_calls_lift {A} (x : result A) : keeps_calls (lift x).
Proof. intros s r s' [= <- <-]. reflexivity. Qed.

Lemma keeps_calls_warn w : keeps_calls (warn w).
Proof. intros s r s' [= <- <-]. reflexivity. Qed.

Lemma keeps_calls_bind {A B} (c : M A) (k : A -> M B) :
  keeps_calls c -> (forall a, keeps_calls (k a)) -> keeps_calls (bind c k).
Proof.
  intros Hc Hk s r s'. unfold bind.
  destruct (c s) as [[a|e] s1] eqn:E.
  - intros H. rewrite (Hk a _ _ _ H). exact (Hc _ _ _ E).
  - intros [= <- <-]. exact (Hc _ _ _ E).
Qed.

Section EstimatorFurther.

Variable Phi : R -> R.
Variable minimize :
  (list float -> result float) -> list float -> nat -> result OptimizeResult.
Variable sm_OLS_fit_params :
  list float -> list (list float) -> result (list float).
Variable repr_floats : list float -> string.

Lemma percentage_change_keeps_calls allvecs :
  keeps_calls
    (calculate_percentage_change_in_last_iteration repr_floats allvecs).
Proof.
  unfold calculate_percentage_change_in_last_iteration.
  destruct (rev allvecs) as [|last [|last_but_one rest]];
    try apply keeps_calls_raise.
  repeat first
    [ apply keeps_calls_bind; [|intros ?]
    | apply keeps_calls_ret
    | apply keeps_calls_lift
    | apply keeps_calls_warn
    | match goal with
      | |- keeps_calls (if ?x then _ else _) => destruct x
      end ].
Qed.

(** Whatever it returns, the minimiser adds one record to the log of
    calls: the initial guess it was handed. *)
Lemma wrapper_logs_one_call g fp t fv flag dist s r s' :
  crps_minimiser_wrapper Phi minimize repr_floats g fp t fv flag dist s
    = (r, s') ->
  minimiser_calls s' = (minimiser_calls s ++ [g])%list.
Proof.
  unfold crps_minimiser_wrapper.
  unfold bind at 1. unfold log_minimiser_call at 1.
  match goal with
  | |- ?c ?st = _ -> _ =>
      assert (Hk : keeps_calls c)
  end.
  { repeat first
      [ apply keeps_calls_bind; [|intros ?]
      | apply keeps_calls_ret
      | apply keeps_calls_raise
      | apply keeps_calls_lift
      | apply keeps_calls_warn
      | apply percentage_change_keeps_calls
      | match goal with
        | |- keeps_calls (match ?x with _ => _ end) => destruct x
        | |- keeps_calls (let '(_, _) := ?x in _) => destruct x
        end ]. }
  intros H. rewrite (Hk _ _ _ H). reflexivity.
Qed.

(** Whatever an estimation returns, each cube of the store is the one
    it was or its conversion to the desired unit. *)
Lemma estimate_store_effect self current_forecast s r s' :
  estimate_coefficients_for_ngr Phi minimize sm_OLS_fit_params repr_floats
    self current_forecast s = (r, s') ->
  (historic_forecast s' = historic_forecast s
   \/ convert_units (historic_forecast s) (desired_units self)
      = Ok (historic_forecast s'))
  /\ (truth s' = truth s
      \/ convert_units (truth s) (desired_units self) = Ok (truth s')).
Proof.
  unfold estimate_coefficients_for_ngr, bind, lift,
    convert_historic_forecast, convert_truth, get_historic_forecast,
    get_truth, ret.
  destruct (check_predictor_of_mean_flag _); [|intros [= <- <-]; auto].
  destruct (first_date current_forecast) as [date|];
    [|intros [= <- <-]; auto].
  destruct (convert_units (historic_forecast s) _) as [h|];
    [|intros [= <- <-]; auto].
  cbn [historic_forecast truth warnings minimiser_calls].
  destruct (convert_units (truth s) _) as [t|]; [|intros [= <- <-]; auto].
  cbn [historic_forecast truth warnings minimiser_calls].
  destruct (derive_predictor _ _) as [[n fp]|]; [|intros [= <- <-]; auto].
  destruct (collapsed VARIANCE _) as [fv|]; [|intros [= <- <-]; auto].
  destruct (compute_initial_guess _ _ _ _ _ _ _) as [g|];
    [|intros [= <- <-]; auto].
  destruct (np_any (map isnan g)); cbn [negb].
  - intros [= <- <-]. auto.
  - intros H.
    match type of H with
    | context [crps_minimiser_wrapper ?a ?b ?c ?d ?e ?f ?g ?h ?i ?j] =>
        destruct (crps_minimiser_wrapper a b c d e f g h i j) as [[x|] s2]
          eqn:E
    end; injection H as <- <-;
      destruct (@crps_minimiser_wrapper_keeps_cubes Phi minimize repr_floats
                  _ _ _ _ _ _ _ _ _ E) as [H1 H2];
      simpl in H1, H2; rewrite H1, H2; auto.
Qed.

(** X16: after a successful estimation the historic forecast and the
    truth of the store are in the desired unit, and a further
    estimation with the same estimator, whatever it returns, leaves
    both as they are. *)
Theorem estimation_settles_the_units
  (self : Estimator) (current_forecast : Cube) (s s1 : Store)
  (d : CoefficientSet) :
  estimate_coefficients_for_ngr Phi minimize sm_OLS_fit_params repr_floats
    self current_forecast s = (Ok d, s1) ->
  units (historic_forecast s1) = desired_units self
  /\ units (truth s1) = desired_units self
  /\ forall next_forecast r s2,
       estimate_coefficients_for_ngr Phi minimize sm_OLS_fit_params
         repr_floats self next_forecast s1 = (r, s2) ->
       historic_forecast s2 = historic_forecast s1 /\ truth s2 = truth s1.
Proof.
  intros H.
  destruct (@estimate_converts_inputs Phi minimize sm_OLS_fit_params
              repr_floats self current_forecast s d s1 H) as [Hh Ht].
  apply convert_units_units in Hh, Ht.
  split; [exact Hh|]. split; [exact Ht|].
  intros next r s2 H2.
  destruct (estimate_store_effect _ _ _ _ _ H2) as [[E1|E1] [E2|E2]];
    rewrite ?(convert_units_same _ Hh) in E1;
    rewrite ?(convert_units_same _ Ht) in E2;
    split; congruence.
Qed.

(** X17: when the truth cannot be converted to the desired unit, the
    estimation raises the error of the conversion and the historic
    forecast, converted before, stays converted. *)
Theorem failed_truth_conversion_keeps_historic_converted
  (self : Estimator) (current_forecast : Cube) (s : Store)
  (date : datetime) (historic : Cube) (e : exn) :
  check_predictor_of_mean_flag (predictor_of_mean_flag self) = Ok tt ->
  first_date current_forecast = Ok date ->
  convert_units (historic_forecast s) (desired_units self) = Ok historic ->
  convert_units (truth s) (desired_units self) = Err e ->
  estimate_coefficients_for_ngr Phi minimize sm_OLS_fit_params repr_floats
    self current_forecast s
  = (Err e, mkStore historic (truth s) (warnings s) (minimiser_calls s)).
Proof.
  intros Hc Hd Hh Ht.
  unfold estimate_coefficients_for_ngr, bind, lift,
    convert_historic_forecast, convert_truth.
  rewrite Hc, Hd, Hh. cbn [historic_forecast truth warnings minimiser_calls].
  rewrite Ht. reflexivity.
Qed.

(** X18: when the initial guess of an estimation has no NaN, the
    minimiser is called exactly once, with that guess, whether the
    minimisation then succeeds or raises. *)
Theorem finite_initial_guess_is_minimised_once
  (self : Estimator) (current_forecast : Cube) (s : Store) (date : datetime)
  (historic truth_cube : Cube) (initial_guess : list float) :
  reaches_initial_guess sm_OLS_fit_params self current_forecast s date
                        historic truth_cube initial_guess ->
  np_any (map isnan initial_guess) = false ->
  minimiser_calls
    (snd (estimate_coefficients_for_ngr Phi minimize sm_OLS_fit_params
            repr_floats self current_forecast s))
  = (minimiser_calls s ++ [initial_guess])%list.
Proof.
  intros (Hc & Hd & Hh & Ht & n & fp & fv & Hp & Hv & Hg) Hnan.
  unfold estimate_coefficients_for_ngr, bind, lift,
    convert_historic_forecast, convert_truth, get_historic_forecast,
    get_truth, ret.
  rewrite Hc, Hd, Hh. cbn [historic_forecast truth warnings minimiser_calls].
  rewrite Ht. cbn [historic_forecast truth warnings minimiser_calls].
  rewrite Hp, Hv.
  unfold ESTIMATE_COEFFICIENTS_FROM_LINEAR_MODEL_FLAG. rewrite Hg, Hnan.
  cbn [negb].
  match goal with
  | |- context [crps_minimiser_wrapper ?a ?b ?c ?d ?e ?f ?g ?h ?i ?j] =>
      destruct (crps_minimiser_wrapper a b c d e f g h i j) as [[x|] s2]
        eqn:E
  end; cbn [snd]; apply wrapper_logs_one_call in E; exact E.
Qed.

(** X19: the estimator validates the distribution only when it runs
    the minimiser: with an initial guess without NaN, a distribution
    that is not supported raises the KeyError naming it, after both
    cubes have been converted. *)
Theorem estimation_rejects_unknown_distribution
  (self : Estimator) (current_forecast : Cube) (s : Store) (date : datetime)
  (historic truth_cube : Cube) (initial_guess : list float) :
  reaches_initial_guess sm_OLS_fit_params self current_forecast s date
                        historic truth_cube initial_guess ->
  np_any (map isnan initial_guess) = false ->
  lower (distribution self) <> "gaussian" ->
  lower (distribution self) <> "truncated gaussian" ->
  exists msg,
    estimate_coefficients_for_ngr Phi minimize sm_OLS_fit_params repr_floats
      self current_forecast s
    = (Err (KeyError msg),
       mkStore historic truth_cube (warnings s)
               (minimiser_calls s ++ [initial_guess]))
    /\ mentions msg (lower (distribution self)).
Proof.
  intros (Hc & Hd & Hh & Ht & n & fp & fv & Hp & Hv & Hg) Hnan H1 H2.
  unfold estimate_coefficients_for_ngr, bind, lift,
    convert_historic_forecast, convert_truth, get_historic_forecast,
    get_truth, ret.
  rewrite Hc, Hd, Hh. cbn [historic_forecast truth warnings minimiser_calls].
  rewrite Ht. cbn [historic_forecast truth warnings minimiser_calls].
  rewrite Hp, Hv.
  unfold ESTIMATE_COEFFICIENTS_FROM_LINEAR_MODEL_FLAG. rewrite Hg, Hnan.
  cbn [negb].
  unfold crps_minimiser_wrapper, bind, log_minimiser_call, raise.
  cbn [dict_get minimisation_dict].
  destruct (String.eqb_spec (lower (distribution self)) "gaussian")
    as [E|_]; [contradiction|].
  destruct (String.eqb_spec (lower (distribution self)) "truncated gaussian")
    as [E|_]; [contradiction|].
  eexists. split; [reflexivity|].
  exists "Distribution requested ". eexists. reflexivity.
Qed.

End EstimatorFurther.

(** ** Construction of the estimator *)


(** X20: constructing the estimator raises a warning only when
    statsmodels cannot be imported and the predictor mode is
    realizations, and then a single one; the estimator always starts
    with the four coefficient names and remembers whether statsmodels
    was found. *)
Theorem construction_warns_only_without_statsmodels_in_realizations
  (importable : bool) (dist : string) (u : Unit) (flag : string) :
  (snd (Estimator_init importable dist u flag) = []
   <-> importable = true \/ lower flag <> "realizations")
  /\ (List.length (snd (Estimator_init importable dist u flag)) <= 1)%nat
  /\ coeff_names (fst (Estimator_init importable dist u flag))
     = standard_names
  /\ statsmodels_found (fst (Estimator_init importable dist u flag))
     = importable.
Proof.
  unfold Estimator_init, str_in. cbn [existsb].
  destruct importable; cbn [fst snd].
  - repeat split; auto.
  - destruct (String.eqb_spec (lower flag) "realizations") as [E|E];
      cbn [orb fst snd List.length].
    + repeat split; auto.
      * discriminate.
      * intros [H|H]; [discriminate | contradiction].
    + repeat split; auto.
Qed.

(** ** The controller *)

Section ControllerFurther.

Variable Phi : R -> R.
Variable minimize :
  (list float -> result float) -> list float -> nat -> result OptimizeResult.
Variable sm_OLS_fit_params :
  list float -> list (list float) -> result (list float).
Variable repr_floats : list float -> string.

(** X21: a calibration method other than the two supported ones, spelt
    in any case and with underscores or spaces, makes [process] raise a
    ValueError that names the method as formatted; nothing is estimated
    and the store is untouched, whatever the distribution is. *)
Theorem process_rejects_unknown_method
  (importable : bool) (self : Calibration) (current_forecast : Cube)
  (s : Store) :
  check_predictor_of_mean_flag (calibration_predictor_of_mean_flag self)
    = Ok tt ->
  str_in (format_calibration_method (calibration_method self))
         ["ensemble model output statistics";
          "nonhomogeneous gaussian regression"] = false ->
  exists msg,
    process Phi minimize sm_OLS_fit_params repr_floats importable self
      current_forecast s
    = (Err (ValueError msg), s)
    /\ mentions msg (format_calibration_method (calibration_method self)).
Proof.
  intros Hc Hm. unfold process, bind, lift, raise. rewrite Hc, Hm.
  eexists. split; [reflexivity|].
  exists "Other calibration methods are not available. ". eexists.
  reflexivity.
Qed.




End ControllerFurther.

(** ** The coefficient cube of the estimator *)

Section CoefficientCube.

Variable repr_floats : list float -> string.

(** Coordinates with one point each are all added to the cube; a
    coordinate with several points is refused. *)
Lemma add_scalar_coords_scalar (coords : list Coord) :
  Forall (fun coord => List.length (coord_points coord) = 1%nat) coords ->
  add_scalar_coords coords = Ok coords.
Proof.
  induction 1 as [|coord coords Hone _ IH]; simpl; [reflexivity|].
  rewrite Hone, IH. reflexivity.
Qed.

Lemma add_scalar_coords_multi_valued (coords : list Coord) :
  ~ Forall (fun coord => List.length (coord_points coord) = 1%nat) coords ->
  exists msg, add_scalar_coords coords = Err (ValueError msg).
Proof.
  induction coords as [|coord coords IH]; intros Hnot.
  - exfalso. apply Hnot. constructor.
  - simpl.
    destruct (Nat.eqb_spec (List.length (coord_points coord)) 1)
      as [Hone|Hmany]; [|eexists; reflexivity].
    destruct IH as [msg Hmsg].
    + intros Hrest. apply Hnot. constructor; assumption.
    + rewrite Hmsg. exists msg. reflexivity.
Qed.

(** In realizations mode a forecast without a realization coordinate
    stops [create_coefficients_cube] at once. *)
Lemma create_coefficients_cube_no_realization self coeffs c meta :
  lower (predictor_of_mean_flag self) = "realizations" ->
  realization_points c = [] ->
  exists msg,
    create_coefficients_cube repr_floats self coeffs c meta
    = Err (CoordinateNotFoundError msg).
Proof.
  intros Hflag Hpoints. unfold create_coefficients_cube.
  rewrite Hflag. cbn [String.eqb Ascii.eqb Bool.eqb].
  unfold realization_coord_points. rewrite Hpoints.
  eexists. reflexivity.
Qed.

(** The steps of [create_coefficients_cube] for an estimator with the
    four coefficient names, on a forecast that has the realization
    coordinate where the mode asks for it. *)
Lemma create_coefficients_cube_names self coeffs c meta :
  coeff_names self = standard_names ->
  (lower (predictor_of_mean_flag self) = "realizations" ->
   realization_points c <> []) ->
  let names :=
    if String.eqb (lower (predictor_of_mean_flag self)) "realizations"
    then "gamma" :: "delta" :: "alpha"
         :: map beta_name (map np_int32 (realization_points c))
    else standard_names in
  create_coefficients_cube repr_floats self coeffs c meta
  = if negb (Nat.eqb (List.length coeffs) (List.length names)) then
      Err (ValueError
        ("The number of coefficients in " ++ repr_floats coeffs
         ++ " must equal the number of coefficient names "
         ++ repr_names names ++ "."))
    else
      let? aux_coords := add_scalar_coords (time_coords c meta) in
      Ok (mkCoefficientsCube coeffs "emos_coefficients" "1"
            (seq 0 (List.length coeffs)) names aux_coords
            (coefficient_attributes meta)).
Proof.
  intros Hnames Hpoints names. unfold create_coefficients_cube.
  rewrite Hnames. subst names.
  destruct (String.eqb_spec (lower (predictor_of_mean_flag self))
                            "realizations") as [Hflag|Hflag];
    [|reflexivity].
  specialize (Hpoints Hflag).
  replace (realization_coord_points c) with (Ok (realization_points c))
    by (unfold realization_coord_points;
        destruct (realization_points c); [contradiction | reflexivity]).
  cbn [rbind].
  rewrite (@mapM_map_ok _ _ _ (fun z => beta_name (np_int32 z)))
    by (intros; reflexivity).
  rewrite <- (map_map np_int32 beta_name). reflexivity.
Qed.

(** X23: for an estimator with the four coefficient names,
    [create_coefficients_cube] asks for four coefficients, or for three
    plus one for every realization when its predictor mode is
    realizations.  In realizations mode a forecast without a
    realization coordinate raises a CoordinateNotFoundError; otherwise
    every other number of coefficients raises a ValueError, and so does
    the right number when one of the time coordinates of the forecast
    has several points, as such a coordinate cannot be a scalar
    coordinate of the cube; with the right number and time coordinates
    of one point each the cube holds the vector, the indices 0 to
    n - 1, one name for every coefficient and the time coordinates. *)
Theorem create_coefficients_cube_checks_length
  (self : Estimator) (coeffs : list float) (current_forecast : Cube)
  (meta : ForecastMetadata) :
  coeff_names self = standard_names ->
  let expected :=
    if String.eqb (lower (predictor_of_mean_flag self)) "realizations"
    then (3 + List.length (realization_points current_forecast))%nat
    else 4%nat in
  (lower (predictor_of_mean_flag self) = "realizations" ->
   realization_points current_forecast = [] ->
   exists msg,
     create_coefficients_cube repr_floats self coeffs current_forecast meta
       = Err (CoordinateNotFoundError msg))
  /\ ((lower (predictor_of_mean_flag self) = "realizations" ->
       realization_points current_forecast <> []) ->
      (List.length coeffs <> expected ->
       exists msg,
         create_coefficients_cube repr_floats self coeffs current_forecast
           meta = Err (ValueError msg))
      /\ (List.length coeffs = expected ->
          ~ scalar_time_coords current_forecast meta ->
          exists msg,
            create_coefficients_cube repr_floats self coeffs
              current_forecast meta = Err (ValueError msg))
      /\ (List.length coeffs = expected ->
          scalar_time_coords current_forecast meta ->
          exists cube,
            create_coefficients_cube repr_floats self coeffs
              current_forecast meta = Ok cube
            /\ cc_data cube = coeffs
            /\ coefficient_index cube = seq 0 expected
            /\ List.length (coefficient_name cube) = expected
            /\ cc_aux_coords cube = time_coords current_forecast meta)).
Proof.
  intros Hnames expected. split.
  - intros Hflag Hpoints.
    exact (create_coefficients_cube_no_realization self coeffs
             current_forecast meta Hflag Hpoints).
  - intros Hpoints.
    rewrite (create_coefficients_cube_names self coeffs current_forecast
               meta Hnames Hpoints).
    assert (Hexpected :
              List.length
                (if String.eqb (lower (predictor_of_mean_flag self))
                               "realizations"
                 then "gamma" :: "delta" :: "alpha"
                      :: map beta_name
                           (map np_int32
                                (realization_points current_forecast))
                 else standard_names) = expected).
    { subst expected.
      destruct (String.eqb (lower (predictor_of_mean_flag self))
                           "realizations");
        cbn [List.length standard_names Nat.add];
        rewrite ?length_map; reflexivity. }
    rewrite Hexpected. split; [|split].
    + intros Hlen. apply Nat.eqb_neq in Hlen. rewrite Hlen.
      eexists. reflexivity.
    + intros Hlen Hmulti. rewrite Hlen, Nat.eqb_refl. cbn [negb].
      destruct (add_scalar_coords_multi_valued _ Hmulti) as [msg Hmsg].
      rewrite Hmsg. exists msg. reflexivity.
    + intros Hlen Hscalar. rewrite Hlen, Nat.eqb_refl. cbn [negb].
      rewrite (add_scalar_coords_scalar _ Hscalar). cbn [rbind].
      eexists. split; [reflexivity|].
      cbn [cc_data coefficient_index coefficient_name cc_aux_coords].
      rewrite Hexpected. auto.
Qed.


Lemma dict_set_In (d : dict string string) k v a b :
  In (a, b) (dict_set String.eqb d k v) ->
  (a = k /\ b = v) \/ In (a, b) d.
Proof.
  induction d as [|[k' v'] d IH]; simpl.
  - intros [[= <- <-]|[]]. auto.
  - destruct (String.eqb_spec k k') as [->|Hne]; simpl.
    + intros [[= <- <-]|H]; auto.
    + intros [H|H]; auto. destruct (IH H); auto.
Qed.

Lemma dict_get_set_other (d : dict string string) k v k' :
  k' <> k ->
  dict_get String.eqb (dict_set String.eqb d k v) k'
  = dict_get String.eqb d k'.
Proof.
  intros Hne. induction d as [|[k1 v1] d IH]; simpl.
  - destruct (String.eqb_spec k' k); [contradiction | reflexivity].
  - destruct (String.eqb_spec k k1) as [->|H1]; simpl.
    + destruct (String.eqb_spec k' k1); [contradiction | reflexivity].
    + destruct (String.eqb k' k1); [reflexivity | exact IH].
Qed.

(** X25: the attributes of the coefficient cube always give the name of
    the diagnostic under [diagnostic_standard_name], no attribute of
    the forecast can replace it, and every other attribute is one of
    the forecast whose name ends with [model_configuration]. *)
Theorem coefficient_attributes_keep_diagnostic_name
  (meta : ForecastMetadata) :
  dict_get String.eqb (coefficient_attributes meta)
           "diagnostic_standard_name"
    = Some (forecast_name meta)
  /\ forall k v,
       In (k, v) (coefficient_attributes meta) ->
       (k = "diagnostic_standard_name" /\ v = forecast_name meta)
       \/ (endswith "model_configuration" k = true
           /\ In (k, v) (forecast_attributes meta)).
Proof.
  unfold coefficient_attributes.
  assert (H : forall attrs d,
            dict_get String.eqb d "diagnostic_standard_name"
              = Some (forecast_name meta) ->
            (forall k v, In (k, v) d ->
               (k = "diagnostic_standard_name" /\ v = forecast_name meta)
               \/ (endswith "model_configuration" k = true
                   /\ In (k, v) (forecast_attributes meta))) ->
            (forall kv, In kv attrs -> In kv (forecast_attributes meta)) ->
            let d' :=
              fold_left
                (fun attributes kv =>
                   if endswith "model_configuration" (fst kv)
                   then dict_set String.eqb attributes (fst kv) (snd kv)
                   else attributes) attrs d in
            dict_get String.eqb d' "diagnostic_standard_name"
              = Some (forecast_name meta)
            /\ (forall k v, In (k, v) d' ->
                  (k = "diagnostic_standard_name" /\ v = forecast_name meta)
                  \/ (endswith "model_configuration" k = true
                      /\ In (k, v) (forecast_attributes meta)))).
  { induction attrs as [|[k v] attrs IH]; intros d Hget Hin Hsub; simpl.
    - auto.
    - apply IH.
      + destruct (endswith "model_configuration" k) eqn:E; [|exact Hget].
        rewrite dict_get_set_other; [exact Hget|].
        intros <-. discriminate E.
      + destruct (endswith "model_configuration" k) eqn:E; [|exact Hin].
        intros k' v' H'. apply dict_set_In in H' as [[-> ->]|H'].
        * right. split; [exact E|]. apply Hsub. left. reflexivity.
        * apply Hin, H'.
      + intros kv Hkv. apply Hsub. right. exact Hkv. }
  apply H.
  - reflexivity.
  - intros k v [[= <- <-]|[]]. left. auto.
  - auto.
Qed.

End CoefficientCube.

(** ** Coordinates of length one *)

(** X26: of the coordinates of a cube, [_find_coords_of_length_one]
    followed by [_separate_length_one_coords_into_aux_and_dim] keeps
    exactly those with a single point, in their order: the ones named
    in [dim_coords] as dimension coordinates, the others as auxiliary
    coordinates, each with the dimension 0 when asked for. *)
Theorem length_one_coords_are_separated (coords : list Coord)
  (dim_coords : list string) (add_dimension : bool) :
  let one (c : Coord) := Nat.eqb (List.length (coord_points c)) 1 in
  let separated :=
    _separate_length_one_coords_into_aux_and_dim
      (_find_coords_of_length_one coords add_dimension) dim_coords in
  map fst (fst separated)
    = filter (fun c => one c && negb (str_in (coord_name c) dim_coords))
             coords
  /\ map fst (snd separated)
     = filter (fun c => one c && str_in (coord_name c) dim_coords) coords
  /\ Forall (fun p => snd p = if add_dimension then Some 0%nat else None)
            (fst separated ++ snd separated).
Proof.
  intros one separated. subst separated. unfold _find_coords_of_length_one.
  induction coords as [|c coords IH]; [repeat split; constructor|].
  cbn [filter]. fold (one c).
  destruct (one c) eqn:E; cbn [andb map]; [|exact IH].
  cbn [_separate_length_one_coords_into_aux_and_dim fst].
  destruct (_separate_length_one_coords_into_aux_and_dim _ dim_coords)
    as [aux dims].
  cbn [fst snd] in IH. destruct IH as (Ha & Hd & Hf).
  destruct (str_in (coord_name c) dim_coords); cbn [fst snd map negb].
  - split; [exact Ha|]. split; [rewrite Hd; reflexivity|].
    apply Forall_app in Hf as [Hf1 Hf2]. apply Forall_app. split; auto.
  - split; [rewrite Ha; reflexivity|]. split; [exact Hd|].
    cbn [app]. constructor; auto.
Qed.

(** ** The properties on the example data *)

Lemma wrapper_rejects_unknown_distribution_witness :
  "fake" <> "gaussian" /\ "fake" <> "truncated gaussian"
  /\ exists msg,
       crps_minimiser_wrapper example_Phi example_minimize example_repr
         [Fin 1; Fin 1; Fin 0; Fin 1] (example_field [Fin 1])
         (example_field [Fin 1]) (example_field [Fin 1]) "mean" "fake"
         example_store
       = (Err (KeyError msg),
          mkStore (historic_forecast example_store) (truth example_store)
                  (warnings example_store)
                  (minimiser_calls example_store
                   ++ [[Fin 1; Fin 1; Fin 0; Fin 1]]))
       /\ mentions msg "fake".
Proof.
  assert (H1 : "fake" <> "gaussian") by discriminate.
  assert (H2 : "fake" <> "truncated gaussian") by discriminate.
  split; [exact H1|]. split; [exact H2|].
  exact (wrapper_rejects_unknown_distribution example_Phi example_minimize
           example_repr [Fin 1; Fin 1; Fin 0; Fin 1] (example_field [Fin 1])
           (example_field [Fin 1]) (example_field [Fin 1]) "mean" "fake"
           example_store H1 H2).
Defined.

Lemma wrapper_returns_last_point_without_convergence_witness :
  lower "mean" = "mean"
  /\ dict_get String.eqb (minimisation_dict example_Phi) "gaussian"
     = Some (normal_crps_minimiser example_Phi)
  /\ exists later,
       crps_minimiser_wrapper example_Phi example_minimize example_repr
         [Fin 1; Fin 1; Fin 0; Fin 1] (example_field [Fin 1])
         (example_field [Fin 1]) (example_field [Fin 1]) "mean" "gaussian"
         example_store
       = (Ok [Fin 1; Fin 1; Fin 0; Fin 1],
          mkStore (historic_forecast example_store) (truth example_store)
            (warnings example_store
             ++ non_convergence_warning
                  "Maximum number of iterations has been exceeded."
                :: later)
            (minimiser_calls example_store
             ++ [[Fin 1; Fin 1; Fin 0; Fin 1]])).
Proof.
  split; [reflexivity|]. split; [reflexivity|].
  exact (wrapper_returns_last_point_without_convergence example_Phi
           example_minimize example_repr [Fin 1; Fin 1; Fin 0; Fin 1]
           (example_field [Fin 1]) (example_field [Fin 1])
           (example_field [Fin 1]) "mean" "gaussian"
           (normal_crps_minimiser example_Phi)
           (mkOptimizeResult [Fin 1; Fin 1; Fin 0; Fin 1] false
              "Maximum number of iterations has been exceeded."
              [[Fin 1; Fin 1; Fin 0; Fin 1]; [Fin 1; Fin 1; Fin 0; Fin 1]])
           [] [Fin 1; Fin 1; Fin 0; Fin 1] [Fin 1; Fin 1; Fin 0; Fin 1]
           example_store eq_refl eq_refl eq_refl eq_refl eq_refl eq_refl).
Defined.

Lemma small_change_raises_no_warning_witness :
  Forall2 within_tolerance [Fin 101; Fin (-2)] [Fin 100; Fin (-2)]
  /\ calculate_percentage_change_in_last_iteration example_repr
       [[Fin 100; Fin (-2)]; [Fin 101; Fin (-2)]] example_store
     = (Ok tt, example_store).
Proof.
  assert (H : Forall2 within_tolerance [Fin 101; Fin (-2)]
                      [Fin 100; Fin (-2)]).
  { constructor; [|constructor; [|constructor]].
    - exists 101, 100. repeat split; try lra.
      unfold Rabs. repeat destruct Rcase_abs; lra.
    - exists (-2), (-2). repeat split; try lra.
      unfold Rabs. repeat destruct Rcase_abs; lra. }
  split; [exact H|].
  exact (small_change_raises_no_warning example_repr []
           [Fin 100; Fin (-2)] [Fin 101; Fin (-2)] example_store H).
Defined.

Lemma coefficient_leaving_zero_raises_warning_witness :
  nth_error [Fin 1; Fin 0] 1 = Some (Fin 0)
  /\ nth_error [Fin 1; Fin 2] 1 = Some (Fin 2)
  /\ 2 <> 0
  /\ exists s' w,
       calculate_percentage_change_in_last_iteration example_repr
         [[Fin 1; Fin 0]; [Fin 1; Fin 2]] example_store
       = (Ok tt, s')
       /\ incl (warnings example_store) (warnings s')
       /\ In w (warnings s')
       /\ category w = UserWarning
       /\ mentions (warning_message w)
            "The final iteration resulted in a percentage change ".
Proof.
  assert (H : 2 <> 0) by lra.
  split; [reflexivity|]. split; [reflexivity|]. split; [exact H|].
  exact (coefficient_leaving_zero_raises_warning example_repr []
           [Fin 1; Fin 0] [Fin 1; Fin 2] 1 2 example_store
           eq_refl eq_refl eq_refl H).
Defined.

Lemma nan_or_minus_infinity_gives_sentinel_witness :
  objective_mu [Fin 1; Fin 1; Fin 0; Fin 1] (Predictor1D [NaN]) [Fin 1]
    "mean" = Ok [NaN]
  /\ nan_or_minus_infinity
       (fdiv NaN (fsqrt (fadd (fsquare (Fin 1))
                              (fmul (fsquare (Fin 1)) (Fin 1)))))
  /\ normal_crps_minimiser example_Phi [Fin 1; Fin 1; Fin 0; Fin 1]
       (Predictor1D [NaN]) [Fin 1] [Fin 1] (Fin (sqrt PI)) "mean"
     = Ok BAD_VALUE.
Proof.
  assert (Hlow : nan_or_minus_infinity
                   (fdiv NaN (fsqrt (fadd (fsquare (Fin 1))
                                          (fmul (fsquare (Fin 1)) (Fin 1))))))
    by (left; reflexivity).
  split; [reflexivity|]. split; [exact Hlow|].
  exact (proj1 (nan_or_minus_infinity_gives_sentinel example_Phi
                  [Fin 1; Fin 1; Fin 0; Fin 1] (Predictor1D [NaN]) [Fin 1]
                  [Fin 1] (Fin (sqrt PI)) "mean" [NaN]
                  [fsqrt (fadd (fsquare (Fin 1))
                               (fmul (fsquare (Fin 1)) (Fin 1)))]
                  0 NaN _ eq_refl eq_refl eq_refl eq_refl eq_refl eq_refl
                  Hlow)).
Defined.

Lemma example_sigma_one :
  fsqrt (fadd (fsquare (Fin 1)) (fmul (fsquare (Fin 0)) (Fin 1))) = Fin 1.
Proof.
  rewrite fsquare_one, fsquare_zero. simpl.
  replace (1 + 0 * 1) with 1 by ring.
  rewrite Rltb_false by lra. rewrite sqrt_1. reflexivity.
Qed.

Lemma below_threshold_gives_sentinel_witness :
  objective_mu [Fin 1; Fin 0; Fin (-4); Fin 0] (Predictor1D [Fin 2])
    [Fin 1] "mean"
  = Ok [fadd (fadd fzero (fmul (Fin 1) (Fin (-4)))) (fmul (Fin 2) (Fin 0))]
  /\ flt (fdiv (fadd (fadd fzero (fmul (Fin 1) (Fin (-4))))
                     (fmul (Fin 2) (Fin 0)))
               (fsqrt (fadd (fsquare (Fin 1))
                            (fmul (fsquare (Fin 0)) (Fin 1)))))
         (Fin (-3)) = true
  /\ truncated_normal_crps_minimiser example_Phi
       [Fin 1; Fin 0; Fin (-4); Fin 0] (Predictor1D [Fin 2]) [Fin 1]
       [Fin 1] (Fin (sqrt PI)) "mean"
     = Ok BAD_VALUE.
Proof.
  assert (Hlow : flt (fdiv (fadd (fadd fzero (fmul (Fin 1) (Fin (-4))))
                                 (fmul (Fin 2) (Fin 0)))
                           (fsqrt (fadd (fsquare (Fin 1))
                                        (fmul (fsquare (Fin 0)) (Fin 1)))))
                     (Fin (-3)) = true).
  { rewrite example_sigma_one. simpl. real_tests. simpl. apply Rltb_true.
    lra. }
  split; [reflexivity|]. split; [exact Hlow|].
  exact (below_threshold_gives_sentinel example_Phi
           [Fin 1; Fin 0; Fin (-4); Fin 0] (Predictor1D [Fin 2]) [Fin 1]
           [Fin 1] (Fin (sqrt PI)) "mean" _ _ 0 _ _
           eq_refl eq_refl eq_refl eq_refl eq_refl eq_refl Hlow).
Defined.

Lemma applier_returns_objective_mu_and_variance_witness :
  lower "mean" = "mean"
  /\ first_date (example_field [Fin 1; Fin 2]) = Ok 0%Z
  /\ exists pred var cc,
       _apply_params example_repr (example_field [Fin 1; Fin 2])
         (example_field [Fin 0; Fin 3])
         [(0%Z, [Fin 2; Fin 1; Fin 1; Fin 2])] standard_names "mean"
       = Ok (pred, var, cc)
       /\ objective_mu [Fin 2; Fin 1; Fin 1; Fin 2]
            (Predictor1D [Fin 1; Fin 2]) [Fin 3; Fin 5] "mean"
          = Ok (items (data pred))
       /\ objective_sigma [Fin 2; Fin 1; Fin 1; Fin 2] [Fin 0; Fin 3]
          = Ok (map fsqrt (items (data var))).
Proof.
  split; [reflexivity|]. split; [reflexivity|].
  exact (applier_returns_objective_mu_and_variance example_repr
           (example_field [Fin 1; Fin 2]) (example_field [Fin 0; Fin 3])
           [(0%Z, [Fin 2; Fin 1; Fin 1; Fin 2])] "mean" 0%Z
           (Fin 2) (Fin 1) (Fin 1) (Fin 2) [Fin 3; Fin 5]
           eq_refl eq_refl eq_refl eq_refl eq_refl eq_refl).
Defined.

Lemma calibrated_predictor_is_linear_witness :
  lower "mean" = "mean"
  /\ first_date (example_field [Fin 1; NaN]) = Ok 0%Z
  /\ exists pred var cc,
       _apply_params example_repr (example_field [Fin 1; NaN])
         (example_field [Fin 0; Fin 3])
         [(0%Z, [Fin 2; Fin 1; Fin 1; Fin 2])] standard_names "mean"
       = Ok (pred, var, cc)
       /\ shape (data pred) = [1%nat; 2%nat]
       /\ Forall2 (linear_in_predictor 1 2) [Fin 1; NaN] (items (data pred)).
Proof.
  split; [reflexivity|]. split; [reflexivity|].
  exact (calibrated_predictor_is_linear example_repr
           (example_field [Fin 1; NaN]) (example_field [Fin 0; Fin 3])
           [(0%Z, [Fin 2; Fin 1; Fin 1; Fin 2])] "mean" 0%Z
           (Fin 2) (Fin 1) 1 2 eq_refl eq_refl eq_refl eq_refl eq_refl).
Defined.

Lemma calibration_ignores_signs_witness :
  first_date (example_field [Fin 1; Fin 2]) = Ok 0%Z
  /\ exists pred var cc cc',
       _apply_params example_repr (example_field [Fin 1; Fin 2])
         (example_field [Fin 0; Fin 3])
         [(0%Z, [Fin 2; Fin 1; Fin 1; Fin 2])] standard_names "mean"
       = Ok (pred, var, cc)
       /\ _apply_params example_repr (example_field [Fin 1; Fin 2])
            (example_field [Fin 0; Fin 3])
            [(0%Z, [fneg (Fin 2); fneg (Fin 1); Fin 1; Fin 2])]
            standard_names "mean"
          = Ok (pred, var, cc').
Proof.
  split; [reflexivity|].
  exact (proj1 (calibration_ignores_signs example_repr
                  (example_field [Fin 1; Fin 2])
                  (example_field [Fin 0; Fin 3])
                  [(0%Z, [Fin 2; Fin 1; Fin 1; Fin 2])]
                  [(0%Z, [fneg (Fin 2); fneg (Fin 1); Fin 1; Fin 2])]
                  0%Z (Fin 2) (Fin 1) (Fin 1) eq_refl)
               "mean" (Fin 2) eq_refl eq_refl eq_refl eq_refl eq_refl).
Defined.

Lemma missing_date_is_a_key_error_witness :
  dict_get Z.eqb [(24%Z, [Fin 1; Fin 1; Fin 0; Fin 1])] 0%Z = None
  /\ first_date (example_ensemble [0%Z]) = Ok 0%Z
  /\ exists msg,
       apply_params_entry example_repr
         (mkApplier (example_ensemble [0%Z])
                    [(24%Z, [Fin 1; Fin 1; Fin 0; Fin 1])]
                    standard_names "mean")
       = Err (KeyError msg).
Proof.
  split; [reflexivity|]. split; [reflexivity|].
  exact (proj2 (missing_date_is_a_key_error example_repr
                  (example_ensemble [0%Z]) (example_ensemble [0%Z])
                  (example_ensemble [0%Z])
                  [(24%Z, [Fin 1; Fin 1; Fin 0; Fin 1])] standard_names
                  "mean" "mean" 0%Z 2 eq_refl)
               eq_refl eq_refl eq_refl).
Defined.

Lemma example_apply_params_mean :
  _apply_params example_repr (example_field [Fin 1; Fin 2])
    (example_field [Fin 0; Fin 3])
    [(0%Z, [Fin 2; Fin 1; Fin 1; Fin 2])] standard_names "mean"
  = Ok (with_data (example_field [Fin 1; Fin 2])
          (mkArray [1%nat; 2%nat]
             (map (fun x => fadd (fadd fzero (fmul (Fin 1) (Fin 1)))
                                 (fmul x (Fin 2)))
                  [Fin 1; Fin 2])),
        with_data (example_field [Fin 0; Fin 3])
          (affine_array (fsquare (Fin 2)) (fsquare (Fin 1))
                        (data (example_field [Fin 0; Fin 3]))),
        [("gamma", Fin 2); ("delta", Fin 1); ("alpha", Fin 1);
         ("beta", Fin 2)]).
Proof.
  apply (@apply_params_mean example_repr (example_field [Fin 1; Fin 2])
           (example_field [Fin 0; Fin 3])
           [(0%Z, [Fin 2; Fin 1; Fin 1; Fin 2])] "mean" 0%Z
           (Fin 2) (Fin 1) (Fin 1) (Fin 2)); reflexivity.
Qed.

Lemma apply_params_result_layout_witness :
  _apply_params example_repr (example_field [Fin 1; Fin 2])
    (example_field [Fin 0; Fin 3])
    [(0%Z, [Fin 2; Fin 1; Fin 1; Fin 2])] standard_names "mean"
  = Ok (with_data (example_field [Fin 1; Fin 2])
          (mkArray [1%nat; 2%nat]
             (map (fun x => fadd (fadd fzero (fmul (Fin 1) (Fin 1)))
                                 (fmul x (Fin 2)))
                  [Fin 1; Fin 2])),
        with_data (example_field [Fin 0; Fin 3])
          (affine_array (fsquare (Fin 2)) (fsquare (Fin 1))
                        (data (example_field [Fin 0; Fin 3]))),
        [("gamma", Fin 2); ("delta", Fin 1); ("alpha", Fin 1);
         ("beta", Fin 2)])
  /\ exists t v,
       first_date (example_field [Fin 1; Fin 2]) = Ok t
       /\ dict_get Z.eqb [(0%Z, [Fin 2; Fin 1; Fin 1; Fin 2])] t = Some v
       /\ map fst [("gamma", Fin 2); ("delta", Fin 1); ("alpha", Fin 1);
                   ("beta", Fin 2)] = standard_names
       /\ map snd [("gamma", Fin 2); ("delta", Fin 1); ("alpha", Fin 1);
                   ("beta", Fin 2)] = v.
Proof.
  split; [exact example_apply_params_mean|].
  exact (proj2 (proj2 (proj2 (proj2
           (apply_params_result_layout example_repr _ _ _ _ _ _ _ _
              example_apply_params_mean))))).
Defined.

(** The training data lie on the line [2 * mean + 1]: the regression
    of the initial guess finds it. *)
Lemma example_reaches_finite_guess (dist : string) :
  reaches_initial_guess example_OLS (example_estimator_for dist)
    (example_ensemble [0%Z]) example_training_store 0%Z
    example_training_ensemble (example_field [Fin 5; Fin 9])
    [Fin 1; Fin 1; Fin 1; Fin 2].
Proof.
  unfold reaches_initial_guess.
  split; [reflexivity|]. split; [reflexivity|].
  split; [apply convert_units_same; reflexivity|].
  split; [apply convert_units_same; reflexivity|].
  do 3 eexists.
  split; [reflexivity|]. split; [reflexivity|].
  unfold compute_initial_guess, linregress, MEAN, np_mean, np_sum.
  float_eval.
  repeat f_equal; field.
Qed.

Lemma example_estimate_celsius :
  estimate_coefficients_for_ngr example_Phi example_minimize example_OLS
    example_repr example_estimator_celsius (example_ensemble [0%Z])
    example_store
  = (Ok [(0%Z, [Fin 1; Fin 1; NaN; NaN])],
     mkStore example_ensemble_celsius example_truth_celsius [] []).
Proof.
  exact (@estimate_with_nan_guess example_Phi example_minimize example_OLS
           example_repr _ _ _ _ _ _ _ example_reaches_nan_guess_celsius
           eq_refl).
Qed.

Lemma estimation_settles_the_units_witness :
  estimate_coefficients_for_ngr example_Phi example_minimize example_OLS
    example_repr example_estimator_celsius (example_ensemble [0%Z])
    example_store
  = (Ok [(0%Z, [Fin 1; Fin 1; NaN; NaN])],
     mkStore example_ensemble_celsius example_truth_celsius [] [])
  /\ units example_ensemble_celsius = celsius
  /\ units example_truth_celsius = celsius
  /\ forall next_forecast r s2,
       estimate_coefficients_for_ngr example_Phi example_minimize
         example_OLS example_repr example_estimator_celsius next_forecast
         (mkStore example_ensemble_celsius example_truth_celsius [] [])
       = (r, s2) ->
       historic_forecast s2 = example_ensemble_celsius
       /\ truth s2 = example_truth_celsius.
Proof.
  split; [exact example_estimate_celsius|].
  exact (estimation_settles_the_units example_Phi example_minimize
           example_OLS example_repr example_estimator_celsius
           (example_ensemble [0%Z]) example_store _ _
           example_estimate_celsius).
Defined.

Lemma failed_truth_conversion_keeps_historic_converted_witness :
  convert_units (historic_forecast example_mixed_store) celsius
  = Ok example_ensemble_celsius
  /\ convert_units (truth example_mixed_store) celsius
     = Err (ValueError "Unable to convert between the units")
  /\ estimate_coefficients_for_ngr example_Phi example_minimize example_OLS
       example_repr example_estimator_celsius (example_ensemble [0%Z])
       example_mixed_store
     = (Err (ValueError "Unable to convert between the units"),
        mkStore example_ensemble_celsius (truth example_mixed_store) [] []).
Proof.
  split; [reflexivity|]. split; [reflexivity|].
  exact (failed_truth_conversion_keeps_historic_converted example_Phi
           example_minimize example_OLS example_repr
           example_estimator_celsius (example_ensemble [0%Z])
           example_mixed_store 0%Z example_ensemble_celsius
           (ValueError "Unable to convert between the units")
           eq_refl eq_refl eq_refl eq_refl).
Defined.

Lemma finite_initial_guess_is_minimised_once_witness :
  reaches_initial_guess example_OLS (example_estimator_for "gaussian")
    (example_ensemble [0%Z]) example_training_store 0%Z
    example_training_ensemble (example_field [Fin 5; Fin 9])
    [Fin 1; Fin 1; Fin 1; Fin 2]
  /\ np_any (map isnan [Fin 1; Fin 1; Fin 1; Fin 2]) = false
  /\ minimiser_calls
       (snd (estimate_coefficients_for_ngr example_Phi example_minimize
               example_OLS example_repr (example_estimator_for "gaussian")
               (example_ensemble [0%Z]) example_training_store))
     = [[Fin 1; Fin 1; Fin 1; Fin 2]].
Proof.
  split; [exact (example_reaches_finite_guess "gaussian")|].
  split; [reflexivity|].
  exact (finite_initial_guess_is_minimised_once example_Phi example_minimize
           example_OLS example_repr (example_estimator_for "gaussian")
           (example_ensemble [0%Z]) example_training_store 0%Z
           example_training_ensemble (example_field [Fin 5; Fin 9])
           [Fin 1; Fin 1; Fin 1; Fin 2]
           (example_reaches_finite_guess "gaussian") eq_refl).
Defined.

Lemma estimation_rejects_unknown_distribution_witness :
  reaches_initial_guess example_OLS (example_estimator_for "gamma")
    (example_ensemble [0%Z]) example_training_store 0%Z
    example_training_ensemble (example_field [Fin 5; Fin 9])
    [Fin 1; Fin 1; Fin 1; Fin 2]
  /\ lower "gamma" <> "gaussian"
  /\ lower "gamma" <> "truncated gaussian"
  /\ exists msg,
       estimate_coefficients_for_ngr example_Phi example_minimize
         example_OLS example_repr (example_estimator_for "gamma")
         (example_ensemble [0%Z]) example_training_store
       = (Err (KeyError msg),
          mkStore example_training_ensemble (example_field [Fin 5; Fin 9])
                  [] [[Fin 1; Fin 1; Fin 1; Fin 2]])
       /\ mentions msg "gamma".
Proof.
  assert (H1 : lower "gamma" <> "gaussian") by (simpl; discriminate).
  assert (H2 : lower "gamma" <> "truncated gaussian")
    by (simpl; discriminate).
  split; [exact (example_reaches_finite_guess "gamma")|].
  split; [exact H1|]. split; [exact H2|].
  exact (estimation_rejects_unknown_distribution example_Phi
           example_minimize example_OLS example_repr
           (example_estimator_for "gamma") (example_ensemble [0%Z])
           example_training_store 0%Z example_training_ensemble
           (example_field [Fin 5; Fin 9]) [Fin 1; Fin 1; Fin 1; Fin 2]
           (example_reaches_finite_guess "gamma") eq_refl H1 H2).
Defined.

Lemma process_rejects_unknown_method_witness :
  str_in (format_calibration_method "Logistic_Regression")
         ["ensemble model output statistics";
          "nonhomogeneous gaussian regression"] = false
  /\ exists msg,
       process example_Phi example_minimize example_OLS example_repr true
         (mkCalibration "Logistic_Regression" "gaussian" example_unit "mean")
         (example_ensemble [0%Z]) example_store
       = (Err (ValueError msg), example_store)
       /\ mentions msg "logistic regression".
Proof.
  split; [reflexivity|].
  exact (process_rejects_unknown_method example_Phi example_minimize
           example_OLS example_repr true
           (mkCalibration "Logistic_Regression" "gaussian" example_unit
                          "mean")
           (example_ensemble [0%Z]) example_store eq_refl eq_refl).
Defined.


Lemma create_coefficients_cube_checks_length_witness :
  coeff_names (example_estimator "realizations") = standard_names
  /\ realization_points (example_field [Fin 1]) = []
  /\ scalar_time_coords (example_ensemble [0%Z]) example_metadata
  /\ ~ scalar_time_coords example_two_dates example_metadata
  /\ (exists msg,
        create_coefficients_cube example_repr
          (example_estimator "realizations") [Fin 1; Fin 1; Fin 0; Fin 1]
          (example_field [Fin 1]) example_metadata
        = Err (CoordinateNotFoundError msg))
  /\ (exists msg,
        create_coefficients_cube example_repr
          (example_estimator "realizations") [Fin 1; Fin 1; Fin 0; Fin 1]
          (example_ensemble [0%Z]) example_metadata
        = Err (ValueError msg))
  /\ (exists msg,
        create_coefficients_cube example_repr
          (example_estimator "realizations")
          [Fin 1; Fin 1; Fin 0; Fin 1; Fin 1] example_two_dates
          example_metadata
        = Err (ValueError msg))
  /\ exists cube,
       create_coefficients_cube example_repr
         (example_estimator "realizations")
         [Fin 1; Fin 1; Fin 0; Fin 1; Fin 1] (example_ensemble [0%Z])
         example_metadata = Ok cube
       /\ cc_data cube = [Fin 1; Fin 1; Fin 0; Fin 1; Fin 1]
       /\ coefficient_index cube = [0; 1; 2; 3; 4]%nat
       /\ List.length (coefficient_name cube) = 5%nat
       /\ cc_aux_coords cube
          = time_coords (example_ensemble [0%Z]) example_metadata.
Proof.
  assert (Hscalar : scalar_time_coords (example_ensemble [0%Z])
                                       example_metadata)
    by (repeat constructor).
  assert (Hmulti : ~ scalar_time_coords example_two_dates example_metadata).
  { intros H. inversion H as [|coord coords Hone Hrest]. discriminate Hone. }
  assert (Hpoints : forall times,
            lower (predictor_of_mean_flag (example_estimator "realizations"))
              = "realizations" ->
            realization_points
              (mkCube example_unit times [0%Z; 1%Z] 1 1
                      (mkArray [2%nat; 1%nat; 1%nat] [Fin 1; Fin 3])) <> [])
    by (intros times _; discriminate).
  assert (Hpoints2 :
            lower (predictor_of_mean_flag (example_estimator "realizations"))
              = "realizations" ->
            realization_points example_two_dates <> [])
    by (intros _; discriminate).
  assert (Hshort : List.length [Fin 1; Fin 1; Fin 0; Fin 1] <> 5%nat)
    by discriminate.
  split; [reflexivity|]. split; [reflexivity|].
  split; [exact Hscalar|]. split; [exact Hmulti|].
  split.
  { exact (proj1 (create_coefficients_cube_checks_length example_repr
                    (example_estimator "realizations")
                    [Fin 1; Fin 1; Fin 0; Fin 1] (example_field [Fin 1])
                    example_metadata eq_refl)
                 eq_refl eq_refl). }
  split.
  { exact (proj1 (proj2 (create_coefficients_cube_checks_length example_repr
                           (example_estimator "realizations")
                           [Fin 1; Fin 1; Fin 0; Fin 1]
                           (example_ensemble [0%Z]) example_metadata
                           eq_refl)
                        (Hpoints [0%Z]))
                 Hshort). }
  split.
  { exact (proj1 (proj2 (proj2 (create_coefficients_cube_checks_length
                                  example_repr
                                  (example_estimator "realizations")
                                  [Fin 1; Fin 1; Fin 0; Fin 1; Fin 1]
                                  example_two_dates example_metadata
                                  eq_refl)
                               Hpoints2))
                 eq_refl Hmulti). }
  exact (proj2 (proj2 (proj2 (create_coefficients_cube_checks_length
                                example_repr
                                (example_estimator "realizations")
                                [Fin 1; Fin 1; Fin 0; Fin 1; Fin 1]
                                (example_ensemble [0%Z]) example_metadata
                                eq_refl)
                             (Hpoints [0%Z])))
               eq_refl Hscalar).
Defined.

